(** * cuegui/Redirect.py: the redirect panel's decision logic

    A shallow embedding of the three flows of [Redirect.py] that decide
    anything: [RedirectControls.detect], [RedirectWidget.update] and
    [RedirectWidget.redirect] with its two safety checks.

    - Python values: [str] is [string], [int] is [Z], [float] is [Q]
      (exact rationals: rounding of floating-point sums is not modelled),
      [int(x)] on a float is truncation towards zero ([Py.int]).
    - Everything outside the file (the opencue client API, the modal
      dialogs of [cuegui.Utils], the clock, the config loader, the Qt
      setters used by [detect]) is an [Event]: a request with the type of
      its answer.  A flow is a finite tree of events ([Prog]); [exec] runs
      it against an arbitrary environment, which answers each request from
      the history so far, and returns what the run observed.
    - Python exceptions are the [Raised] outcomes of [Outcome]. *)

From Stdlib Require Import ZArith QArith String Ascii List Lia SpecFloat.
From stdpp Require Import gmap strings list fin_maps.

Close Scope Q_scope.
Open Scope Z_scope.
Open Scope string_scope.

(** ** Python helpers *)

Module Py.

(** [int(x)] for a float [x]: truncation towards zero. *)
Definition int (x : Q) : Z := Z.quot (Qnum x) (Z.pos (Qden x)).

(** [x < y] and [x <= y] on floats. *)
Definition le (x y : Q) : bool := Qle_bool x y.
Definition lt (x y : Q) : bool := negb (Qle_bool y x).

(** Where the result of a float product is cut to an integer, floats are
    IEEE 754 binary64 numbers with the arithmetic of [SpecFloat], rounding
    to nearest, ties to even: [float_of_Z n] is [float(n)], [float_of_Q x]
    the float nearest to a decimal [x] of few digits ([n / d] rounded once),
    [float_mul] is [*]. *)
Definition float_of_Z (n : Z) : spec_float := binary_normalize 53 1024 n 0 false.

Definition float_of_Q (x : Q) : spec_float :=
  SFdiv 53 1024 (float_of_Z (Qnum x)) (float_of_Z (Z.pos (Qden x))).

Definition float_mul (x y : spec_float) : spec_float := SFmul 53 1024 x y.

(** [int(x)] for a finite binary64 [x]: truncation towards zero.  (On an
    infinity or a NaN [int] raises; no product of a spin box value and
    3600.0 is one.) *)
Definition int_of_float (x : spec_float) : Z :=
  match x with
  | S754_finite s m e => let v := Z.shiftl (Z.pos m) e in if s then - v else v
  | _ => 0
  end.

(** [sum(xs)] on floats. *)
Definition sum (xs : list Q) : Q := foldl Qplus (0%Q) xs.

(** Truth value of a string: non-empty. *)
Definition truthy (s : string) : bool := negb (String.eqb s "").

(** Truth value of a list: non-empty. *)
Definition nonempty {A} (l : list A) : bool :=
  match l with [] => false | _ :: _ => true end.

(** [x in l] for a list of strings. *)
Definition mem (x : string) (l : list string) : bool :=
  existsb (String.eqb x) l.

(** [c in chars] for a character and a string. *)
Fixpoint has_char (c : ascii) (chars : string) : bool :=
  match chars with
  | EmptyString => false
  | String d r => Ascii.eqb c d || has_char c r
  end.

(** [a in b] for two strings: [a] occurs in [b] as a substring. *)
Fixpoint contains (a b : string) : bool :=
  String.prefix a b ||
  match b with
  | EmptyString => false
  | String _ r => contains a r
  end.

(** [s.rstrip(chars)]: drops the longest suffix of [s] made of characters
    of [chars] (a set of characters, not a suffix string). *)
Fixpoint rstrip (chars s : string) : string :=
  match s with
  | EmptyString => EmptyString
  | String c r =>
      match rstrip chars r with
      | EmptyString => if has_char c chars then EmptyString else String c EmptyString
      | r' => String c r'
      end
  end.

Fixpoint lstrip (chars s : string) : string :=
  match s with
  | EmptyString => EmptyString
  | String c r => if has_char c chars then lstrip chars r else s
  end.

(** The whitespace of [str.strip()] below code 128: tab to carriage
    return, the four separators 28 to 31, and space. *)
Definition whitespace : string :=
  string_of_list_ascii
    (map ascii_of_nat [9; 10; 11; 12; 13; 28; 29; 30; 31; 32]%nat).

(** [s.strip()]. *)
Definition strip (s : string) : string := rstrip whitespace (lstrip whitespace s).

(** [s.split(sep)[0]] for a one-character separator: the part of [s]
    before the first [sep] (all of [s] when there is none). *)
Fixpoint split_head (sep : ascii) (s : string) : string :=
  match s with
  | EmptyString => EmptyString
  | String c r => if Ascii.eqb c sep then EmptyString else String c (split_head sep r)
  end.

(** [dict(pairs)]: later pairs overwrite earlier ones. *)
Definition dict {V} (pairs : list (string * V)) : gmap string V :=
  foldl (fun m kv => <[kv.1 := kv.2]> m) ∅ pairs.

End Py.

(** ** Exceptions *)

(** The exception classes the file names, and one for everything else a
    service call may raise.  In [opencue.exception],
    [EntityNotFoundException] derives from [CueException]. *)
Inductive exn : Type :=
| AttributeError
| TypeError
| EntityNotFoundException
| CueException
| OtherException (msg : string).

Definition is_EntityNotFoundException (e : exn) : bool :=
  match e with EntityNotFoundException => true | _ => false end.

Definition is_CueException (e : exn) : bool :=
  match e with EntityNotFoundException | CueException => true | _ => false end.

Definition is_TypeError (e : exn) : bool :=
  match e with TypeError => true | _ => false end.

Inductive Outcome (A : Type) : Type :=
| Normal (a : A)
| Raised (e : exn).
Arguments Normal {A} a.
Arguments Raised {A} e.

(** ** Data of the opencue client API, as far as the file reads it *)

(** [job.data.name] / [job.name()], [job.data.show] / [job.show()]. *)
Record Job := { job_name : string; job_show : string }.

(** [layer.data]. *)
Record Layer := { min_cores : Q; min_memory : Z }.

(** [show.data.name]. *)
Record Show := { show_name : string }.

(** [subscription.data]. *)
Record Subscription := {
  sub_name : string;
  sub_allocation_name : string;
  sub_burst : Q;
  sub_reserved_cores : Q
}.

(** [proc.data], and the job [proc.getJob()] answers with.  The lookup is
    taken as a snapshot: two calls on one proc give the same job. *)
Record Proc := {
  proc_name : string;
  proc_show_name : string;
  proc_job_name : string;
  redirect_target : string;
  services : list string;
  group_name : string;
  reserved_memory : Z;
  reserved_cores : Q;
  dispatch_time : Z;
  getJob : Job
}.

(** [host.data]. *)
Record Host := {
  host_name : string;
  idle_memory : Z;
  idle_cores : Q;
  alloc_name : string
}.

(** The resource config: [cfg.get('wasted_cores_threshold', 100)] reads the
    one key, absent in the empty dict. *)
Record Config := { wasted_cores_threshold : option Q }.

(** What [cuegui.Utils.questionBoxYesNo] is asked.  The wording of title
    and text is not modelled, only the values formatted into them. *)
Inductive Question : Type :=
| CrossShowQuestion (shows : list string) (items : list string)
| BurstQuestion (alloc : string) (procs_to_burst : Q)
                (procs_to_redirect wasted_cores : Z).

(** ** Events *)

Inductive Event : Type -> Type :=
(* opencue.api *)
| FindJob (name : string) : Event (Outcome Job)
| GetLayers (j : Job) : Event (list Layer)
| FindShow (name : string) : Event Show
| GetSubscriptions (s : Show) : Event (list Subscription)
| GetProcs (show alloc : list string) : Event (list Proc)
| FindHost (name : string) : Event Host
| RedirectToJob (h : Host) (procs : list Proc) (j : Job) : Event (Outcome unit)
(* cuegui.Utils *)
| GetResourceConfig : Event Config
| QuestionBoxYesNo (q : Question) : Event bool
(* QMessageBox of __warn *)
| Warn (msg : string) : Event unit
(* QProgressDialog.wasCanceled(), int(time.time()) *)
| WasCanceled : Event bool
| IntTime : Event Z
(* setters of the controls used by detect *)
| CoresSpinSetValue (v : Z) : Event unit
| MemSpinSetValue (v : Q) : Event unit
| ShowComboFindText (text : string) : Event Z
| ShowComboSetCurrentIndex (i : Z) : Event unit.

(** A request together with the answer it got. *)
Inductive Obs : Type :=
| Observe {X : Type} (e : Event X) (x : X).

(** The environment: it answers a request knowing the history so far. *)
Definition Oracle : Type := list Obs -> forall X : Type, Event X -> X.

(** ** Programs *)

Inductive Prog (R : Type) : Type :=
| Ret (r : R)
| Vis {X : Type} (e : Event X) (k : X -> Prog R).
Arguments Ret {R} r.
Arguments Vis {R X} e k.

Fixpoint pbind {A B : Type} (p : Prog A) (f : A -> Prog B) : Prog B :=
  match p with
  | Ret a => f a
  | Vis e k => Vis e (fun x => pbind (k x) f)
  end.

Notation "'do' x <- p ; q" := (pbind p (fun x => q))
  (at level 10, x name, p at level 100, q at level 200).

Definition trigger {X : Type} (e : Event X) : Prog X := Vis e Ret.

(** Runs [p] after history [hist]; returns the observations of the run, in
    order, and the result. *)
Fixpoint exec {R : Type} (o : Oracle) (hist : list Obs) (p : Prog R) : list Obs * R :=
  match p with
  | Ret r => ([], r)
  | Vis e k =>
      let x := o hist _ e in
      let run := exec o (hist ++ [Observe e x])%list (k x) in
      (Observe e x :: run.1, run.2)
  end.

(** Exceptions over programs. *)
Definition M (A : Type) : Type := Prog (Outcome A).

Definition ret {A} (a : A) : M A := Ret (Normal a).
Definition raise {A} (e : exn) : M A := Ret (Raised e).

Definition mbind {A B} (p : M A) (f : A -> M B) : M B :=
  pbind p (fun r => match r with Normal a => f a | Raised e => Ret (Raised e) end).

(** [try: p  except <class>: h]. *)
Definition try_except {A} (p : M A) (catches : exn -> bool) (h : M A) : M A :=
  pbind p (fun r =>
    match r with
    | Normal a => Ret (Normal a)
    | Raised e => if catches e then h else Ret (Raised e)
    end).

(** ** RedirectControls *)

Module RedirectControls.

(** What the widgets of the controls hold when a flow starts. *)
Record t := {
  job_box : string;               (* __job_box.text() *)
  cores_spin : Z;                 (* __cores_spin.value() *)
  mem_spin : Q;                   (* __mem_spin.value(), in GB *)
  limit_spin : Z;                 (* __limit_spin.value() *)
  prh_spin : Q;                   (* the hours __prh_spin shows, one decimal *)
  require_services : string;      (* __require_services.text() *)
  exclude_regex : string;         (* __exclude_regex.text() *)
  include_groups : list string;   (* __include_group_btn.getChecked() *)
  current_show : Show;            (* __current_show *)
  alloc_selected : list string    (* __alloc_filter.getSelected() *)
}.

Definition getJob (c : t) : string := job_box c.
Definition getCores (c : t) : Z := cores_spin c.
(** [int(self.__mem_spin.value() * 1048576.0)]: a factor 2^20 is exact on
    floats, and on a decimal of one digit the exact product has the same
    integer part. *)
Definition getMemory (c : t) : Z := Py.int (mem_spin c * 1048576)%Q.
Definition getShow (c : t) : Show := current_show c.
Definition getAllocFilter_getSelected (c : t) : list string := alloc_selected c.
Definition getLimit (c : t) : Z := limit_spin c.
(** [int(self.__prh_spin.value() * 3600.0)]: [value()] is the float
    nearest to the decimal shown, and the product is rounded as floats are
    before it is cut (4.1 hours are 14759 seconds). *)
Definition getCutoffTime (c : t) : Z :=
  Py.int_of_float (Py.float_mul (Py.float_of_Q (prh_spin c)) (Py.float_of_Z 3600)).
Definition getRequiredService (c : t) : string := Py.strip (require_services c).
Definition getJobNameExcludeRegex (c : t) : string := Py.strip (exclude_regex c).
Definition getIncludedGroups (c : t) : list string := include_groups c.

(** [_cfg]: [hasattr(self, '__config')] tests the unmangled name, which
    the mangled assignment never sets, so every call loads the config. *)
Definition _cfg : Prog Config := trigger GetResourceConfig.

(** One round of the loop of [detect] over the layers. *)
Definition detect_step (acc : Q * Z) (layer : Layer) : Q * Z :=
  let '(minCores, minMem) := acc in
  (if Py.lt minCores (min_cores layer) then min_cores layer else minCores,
   if (minMem <? min_memory layer)%Z then min_memory layer else minMem).

Definition detect (c : t) : M unit :=
  do r <- trigger (FindJob (job_box c));
  match r with
  | Raised e => if is_CueException e then ret tt else raise e
  | Normal job =>
      do layers <- trigger (GetLayers job);
      let '(minCores, minMem) := foldl detect_step (1%Q, 0) layers in
      do _ <- trigger (CoresSpinSetValue (Py.int minCores));
      do _ <- trigger (MemSpinSetValue (inject_Z minMem / 1048576)%Q);
      do i <- trigger (ShowComboFindText (job_show job));
      do _ <- trigger (ShowComboSetCurrentIndex i);
      ret tt
  end.

End RedirectControls.

(** ** RedirectWidget *)

Module RedirectWidget.

(** A value of the dict [self.__hosts] (keys "host", "procs", "mem",
    "cores", "time", "ok", "alloc"). *)
Record Entry := {
  e_host : Host;
  e_procs : list Proc;
  e_mem : Z;
  e_cores : Q;
  e_time : Z;
  e_ok : bool;
  e_alloc : string
}.

(** A top-level row of [self.__model]: the checkable item of column 0
    with the values shown in the other columns (before formatting) and
    the procs of its child rows. *)
Record Item := {
  text : string;
  checked : bool;            (* checkState() == Checked *)
  enabled : bool;
  icon : option string;
  col_cores : Q;
  col_mem : Z;
  col_time : Z;
  children : list Proc
}.

Record t := {
  controls : RedirectControls.t;
  hosts : gmap string Entry;     (* self.__hosts *)
  model : list Item              (* self.__model *)
}.

(** An insertion-ordered dict with string keys, as iterated by
    [items()]. *)
Fixpoint odict_get {V} (k : string) (d : list (string * V)) : option V :=
  match d with
  | [] => None
  | (k', v) :: r => if String.eqb k k' then Some v else odict_get k r
  end.

Fixpoint odict_set {V} (k : string) (v : V) (d : list (string * V)) : list (string * V) :=
  match d with
  | [] => [(k, v)]
  | (k', v') :: r => if String.eqb k k' then (k, v) :: r else (k', v') :: odict_set k v r
  end.

(** [__get_selected_procs_by_alloc].  [entry.get] on the [None] of a
    failed [self.__hosts.get] raises AttributeError. *)
Fixpoint get_selected_procs_by_alloc_from (hosts : gmap string Entry)
    (selected_items : list Item) (procs_by_alloc : list (string * list Proc))
    : Outcome (list (string * list Proc)) :=
  match selected_items with
  | [] => Normal procs_by_alloc
  | item :: rest =>
      match hosts !! text item with
      | None => Raised AttributeError
      | Some entry =>
          let alloc := e_alloc entry in
          let alloc_procs := default [] (odict_get alloc procs_by_alloc) in
          get_selected_procs_by_alloc_from hosts rest
            (odict_set alloc (alloc_procs ++ e_procs entry)%list procs_by_alloc)
      end
  end.

Definition get_selected_procs_by_alloc (hosts : gmap string Entry)
    (selected_items : list Item) : Outcome (list (string * list Proc)) :=
  get_selected_procs_by_alloc_from hosts selected_items [].

(** [__warn]. *)
Definition warn (msg : string) : Prog unit := trigger (Warn msg).

(** [self.__warn_and_stop(...)]: the class defines [__warn] and no
    [__warn_and_stop], so the attribute lookup raises. *)
Definition warn_and_stop (msg : string) : M unit := raise AttributeError.

(** [__is_cross_show_safe]. *)
Definition is_cross_show_safe (procs : list Proc) (target_show : string) : Prog bool :=
  let xshow_jobs :=
    map getJob
      (List.filter (fun proc => negb (String.eqb (job_show (getJob proc)) target_show)) procs) in
  if negb (Py.nonempty xshow_jobs) then Ret true
  else trigger (QuestionBoxYesNo
                  (CrossShowQuestion (map job_show xshow_jobs) (map job_name xshow_jobs))).

(** [__is_burst_safe].  [show_subs.get(alloc)] is [None] when the key is
    absent, and [None.data] raises AttributeError, which the handler for
    TypeError does not catch. *)
Definition is_burst_safe (alloc : string) (procs : list Proc) (show : string) : M bool :=
  do cfg <- RedirectControls._cfg;
  let wc_ok := default 100%Q (wasted_cores_threshold cfg) in
  if Py.lt wc_ok 0 then ret true
  else
    do show_obj <- trigger (FindShow show);
    do subs <- trigger (GetSubscriptions show_obj);
    let show_subs :=
      Py.dict (map (fun s => (Py.rstrip ("." ++ show) (sub_name s), s))
                   (List.filter (fun s => Py.contains (sub_allocation_name s) alloc) subs)) in
    try_except
      (match show_subs !! alloc with
       | None => raise AttributeError
       | Some sub =>
           let procs_to_burst := (sub_burst sub - sub_reserved_cores sub)%Q in
           let procs_to_redirect := Py.int (Py.sum (map reserved_cores procs)) in
           let wasted_cores := Py.int (inject_Z procs_to_redirect - procs_to_burst)%Q in
           if Py.le (inject_Z wasted_cores) wc_ok then ret true
           else
             do answer <- trigger (QuestionBoxYesNo
                            (BurstQuestion alloc procs_to_burst procs_to_redirect wasted_cores));
             ret answer
       end)
      is_TypeError
      (do _ <- warn ("Cannot direct " ++ alloc ++ " cores to " ++ show ++ " because "
                     ++ show ++ " the target show does not have a " ++ alloc
                     ++ " subscription!");
       ret false).

(** The loop of [redirect] over [procs_by_alloc.items()]: [Normal false]
    is the early [return] after a check that answered false. *)
Fixpoint safety_checks (procs_by_alloc : list (string * list Proc)) (show_name : string)
    : M bool :=
  match procs_by_alloc with
  | [] => ret true
  | (alloc, procs) :: rest =>
      do cross <- is_cross_show_safe procs show_name;
      if negb cross then ret false
      else
        mbind (is_burst_safe alloc procs show_name) (fun burst =>
          if negb burst then ret false else safety_checks rest show_name)
  end.

(** [item.setIcon(QIcon(QPixmap(":retry.png")))], [item.setEnabled(False)]. *)
Definition mark_redirected (item : Item) : Item :=
  {| text := text item; checked := checked item; enabled := false;
     icon := Some ":retry.png"; col_cores := col_cores item; col_mem := col_mem item;
     col_time := col_time item; children := children item |}.

(** The redirect loop over the selected items, each with its row in the
    model.  [errors] keeps the exceptions themselves instead of their
    [str].  [entry["procs"]] on [None] raises TypeError, outside the [try]. *)
Fixpoint redirect_items (hosts : gmap string Entry) (job : Job)
    (selected_items : list (nat * Item)) (model : list Item) (errors : list exn)
    : Prog (Outcome (list exn) * list Item) :=
  match selected_items with
  | [] => Ret (Normal errors, model)
  | (row, item) :: rest =>
      match hosts !! text item with
      | None => Ret (Raised TypeError, model)
      | Some entry =>
          do r <- trigger (RedirectToJob (e_host entry) (e_procs entry) job);
          let errors' := match r with
                         | Normal _ => errors
                         | Raised e => (errors ++ [e])%list
                         end in
          redirect_items hosts job rest (alter mark_redirected row model) errors'
      end
  end.

Definition with_model (w : t) (m : list Item) : t :=
  {| controls := controls w; hosts := hosts w; model := m |}.

(** The rows of the model with their items, and the checked ones. *)
Definition items (w : t) : list (nat * Item) := imap pair (model w).
Definition selected_items (w : t) : list (nat * Item) :=
  List.filter (fun ri => checked ri.2) (items w).

(** [redirect]: the outcome and the widget afterwards. *)
Definition redirect (w : t) : Prog (Outcome unit * t) :=
  let selected := selected_items w in
  if negb (Py.nonempty selected) then
    do _ <- warn "You have not selected anything to redirect.";
    Ret (Normal tt, w)
  else
    let job_name := RedirectControls.getJob (controls w) in
    if negb (Py.truthy job_name) then
      do _ <- warn "You must have a job name selected.";
      Ret (Normal tt, w)
    else
      do found <- trigger (FindJob job_name);
      match found with
      | Raised e =>
          if is_EntityNotFoundException e then
            do r <- warn_and_stop
                 "The job you're trying to redirect to appears to be no longer in the cue!";
            Ret (r, w)
          else Ret (Raised e, w)
      | Normal job =>
          match get_selected_procs_by_alloc (hosts w) (map snd selected) with
          | Raised e => Ret (Raised e, w)
          | Normal procs_by_alloc =>
              let show_name := job_show job in
              do safe <- safety_checks procs_by_alloc show_name;
              match safe with
              | Raised e => Ret (Raised e, w)
              | Normal false => Ret (Normal tt, w)
              | Normal true =>
                  do res <- redirect_items (hosts w) job selected (model w) [];
                  match res with
                  | (Raised e, m) => Ret (Raised e, with_model w m)
                  | (Normal errors, m) =>
                      if Py.nonempty errors then
                        do _ <- warn "Some procs failed to redirect.";
                        Ret (Normal tt, with_model w m)
                      else Ret (Normal tt, with_model w m)
                  end
              end
          end
      end.

(** The locals [hosts] and [ok] of [update], and the model being filled. *)
Record LoopState := {
  l_hosts : gmap string Entry;
  l_ok : Z;
  l_model : list Item
}.

(** The dict literal of [update] for a host seen for the first time. *)
Definition new_entry (cue_host : Host) : Entry :=
  {| e_host := cue_host; e_procs := []; e_mem := idle_memory cue_host;
     e_cores := inject_Z (Py.int (idle_cores cue_host)); e_time := 0;
     e_ok := false; e_alloc := alloc_name cue_host |}.

(** [__addHost]: the row appended for an entry (a fresh item is
    unchecked and enabled). *)
Definition addHost (entry : Entry) : Item :=
  {| text := host_name (e_host entry); checked := false; enabled := true; icon := None;
     col_cores := e_cores entry; col_mem := e_mem entry; col_time := e_time entry;
     children := e_procs entry |}.

(** The entry after a proc is gathered at clock reading [now]. *)
Definition gather (host : Entry) (proc : Proc) (now : Z) : Entry :=
  {| e_host := e_host host; e_procs := (e_procs host ++ [proc])%list;
     e_mem := e_mem host + reserved_memory proc;
     e_cores := (e_cores host + reserved_cores proc)%Q;
     e_time := e_time host + (now - dispatch_time proc);
     e_ok := e_ok host; e_alloc := e_alloc host |}.

Definition set_ok (host : Entry) : Entry :=
  {| e_host := e_host host; e_procs := e_procs host; e_mem := e_mem host;
     e_cores := e_cores host; e_time := e_time host; e_ok := true;
     e_alloc := e_alloc host |}.

(** The test of [update] that admits a host to the results. *)
Definition reaches_target (c : RedirectControls.t) (host : Entry) : bool :=
  Py.le (inject_Z (RedirectControls.getCores c)) (e_cores host)
  && (RedirectControls.getMemory c <=? e_mem host)%Z
  && (e_time host <? RedirectControls.getCutoffTime c)%Z.

Section Update.
(** [re.match(pattern, string)] as a truth value. *)
Variable re_match : string -> string -> bool.

(** The loop of [update] over the listing.  The calls on the progress
    dialog other than [wasCanceled] show progress only and are left
    out. *)
Fixpoint update_loop (c : RedirectControls.t) (service_filter : string)
    (group_filter : list string) (job_regex : string)
    (procs : list Proc) (st : LoopState) : Prog LoopState :=
  match procs with
  | [] => Ret st
  | proc :: rest =>
      let continue := update_loop c service_filter group_filter job_regex rest in
      do canceled <- trigger WasCanceled;
      if canceled then Ret st
      else if negb (String.eqb (proc_show_name proc)
                               (show_name (RedirectControls.getShow c)))
           then continue st
      else if String.eqb (proc_job_name proc) (RedirectControls.getJob c) then continue st
      else if Py.truthy (redirect_target proc) then continue st
      else if (RedirectControls.getLimit c <=? l_ok st)%Z then Ret st
      else if Py.truthy job_regex && re_match job_regex (proc_job_name proc) then continue st
      else if Py.truthy service_filter && negb (Py.mem service_filter (services proc))
           then continue st
      else if Py.nonempty group_filter && negb (Py.mem (group_name proc) group_filter)
           then continue st
      else
        let name := Py.split_head "/" (proc_name proc) in
        do found <- match l_hosts st !! name with
                    | Some host => Ret (host, l_hosts st)
                    | None =>
                        do cue_host <- trigger (FindHost name);
                        Ret (new_entry cue_host, <[name := new_entry cue_host]> (l_hosts st))
                    end;
        let '(host, hosts1) := found in
        if e_ok host then
          continue {| l_hosts := hosts1; l_ok := l_ok st; l_model := l_model st |}
        else
          do now <- trigger IntTime;
          let host1 := gather host proc now in
          if reaches_target c host1 then
            continue {| l_hosts := <[name := set_ok host1]> hosts1;
                        l_ok := l_ok st + 1;
                        l_model := (l_model st ++ [addHost host1])%list |}
          else
            continue {| l_hosts := <[name := host1]> hosts1;
                        l_ok := l_ok st;
                        l_model := l_model st |}
  end.

(** [update]: the model is cleared, refilled, and the hosts are saved. *)
Definition update (w : t) : Prog t :=
  let c := controls w in
  let service_filter := RedirectControls.getRequiredService c in
  let group_filter := RedirectControls.getIncludedGroups c in
  let job_regex := RedirectControls.getJobNameExcludeRegex c in
  do procs <- trigger (GetProcs [show_name (RedirectControls.getShow c)]
                                (RedirectControls.getAllocFilter_getSelected c));
  do st <- update_loop c service_filter group_filter job_regex procs
             {| l_hosts := ∅; l_ok := 0; l_model := [] |};
  Ret {| controls := c; hosts := l_hosts st; model := l_model st |}.
End Update.

(** [item.setCheckState(QtCore.Qt.Checked)]. *)
Definition set_checked (item : Item) : Item :=
  {| text := text item; checked := true; enabled := enabled item; icon := icon item;
     col_cores := col_cores item; col_mem := col_mem item; col_time := col_time item;
     children := children item |}.

(** [selectAll]: every row of the model is checked. *)
Definition selectAll (w : t) : t := with_model w (map set_checked (model w)).

End RedirectWidget.

(** ** GroupFilter *)

Module GroupFilter.

(** A group of the show: [opencue.id(group)] and [group.data.name]. *)
Record Group := { group_id : string; group_data_name : string }.

(** A checkable [QAction]: its text and whether it is checked. *)
Record Action := { a_text : string; a_checked : bool }.

(** The button: [__show] ([None] when [__loadShow] fell through),
    [__actions], a dict in insertion order from group id to action, and
    the actions handed to [__menu.addAction] since the menu was cleared,
    in order, each by its key in [__actions]. *)
Record t := {
  show : option Show;
  actions : list (string * Action);
  menu : list string
}.

(** [__loadShow]: the actions are forgotten; a show that is not [None] is
    returned as it is, and for [None] the method falls off its end. *)
Definition loadShow (new_show : option Show) (g : t) : t :=
  {| show := new_show; actions := []; menu := menu g |}.

(** [showChanged]. *)
Definition showChanged (new_show : option Show) (g : t) : t := loadShow new_show g.

(** One round of the loop of [__populate_menu]. *)
Definition populate_step (am : list (string * Action) * list string) (group : Group)
    : list (string * Action) * list string :=
  let '(acts, entries) := am in
  match RedirectWidget.odict_get (group_id group) acts with
  | Some _ => (acts, (entries ++ [group_id group])%list)
  | None =>
      (RedirectWidget.odict_set (group_id group)
         {| a_text := group_data_name group; a_checked := false |} acts,
       (entries ++ [group_id group])%list)
  end.

(** [__populate_menu], given what [self.__show.getGroups()] answers; on a
    [None] show the attribute lookup raises. *)
Definition populate_menu (groups : list Group) (g : t) : Outcome t :=
  match show g with
  | None => Raised AttributeError
  | Some s =>
      let '(acts, entries) := foldl populate_step (actions g, []) groups in
      Normal {| show := Some s; actions := acts; menu := entries |}
  end.

(** [getChecked]: the texts of the checked actions of [__actions]. *)
Definition getChecked (g : t) : list string :=
  map (fun ka => a_text ka.2) (List.filter (fun ka => a_checked ka.2) (actions g)).

End GroupFilter.

(** ** AllocFilter *)

Module AllocFilter.

(** [AllocFilter.default]. *)
Definition default : list string := ["lax.spinux"].

(** The button: the actions of [__menu] in order, [__selected], and the
    number formatted into the button text "Allocations (%d)". *)
Record t := {
  menu : list GroupFilter.Action;
  selected : list string;
  shown_count : Z
}.

(** [__setSelected]: the texts of the checked actions of the menu. *)
Definition setSelected (menu : list GroupFilter.Action) : list string :=
  map GroupFilter.a_text (List.filter GroupFilter.a_checked menu).

(** One round of the loop of [refresh]: the action of an allocation,
    checked when its name is a default, and the count of checked ones. *)
Definition refresh_step (mc : list GroupFilter.Action * Z) (name : string)
    : list GroupFilter.Action * Z :=
  let '(menu, checked) := mc in
  if Py.mem name default
  then ((menu ++ [{| GroupFilter.a_text := name; GroupFilter.a_checked := true |}])%list,
        checked + 1)
  else ((menu ++ [{| GroupFilter.a_text := name; GroupFilter.a_checked := false |}])%list,
        checked).

Section Refresh.
(** [allocs.sort(key=lambda x: x.data.name)], on the names. *)
Variable sort_names : list string -> list string.

(** [refresh], given the names of what [opencue.api.getAllocations()]
    answers. *)
Definition refresh (allocs : list string) : t :=
  let '(menu, checked) := foldl refresh_step ([], 0) (sort_names allocs) in
  {| menu := menu; selected := setSelected menu; shown_count := checked |}.
End Refresh.

(** [getSelected]. *)
Definition getSelected (a : t) : list string := selected a.

(** [__afterClicked], after the click has changed the actions to [menu]. *)
Definition afterClicked (menu : list GroupFilter.Action) : t :=
  {| menu := menu; selected := setSelected menu;
     shown_count := Z.of_nat (length (setSelected menu)) |}.

End AllocFilter.

(** * Vocabulary of the properties *)

Close Scope string_scope.

(** ** For redirect *)

(** Requests and observations of [host.redirectToJob]. *)
Definition redirectToJob_request {X : Type} (e : Event X) : bool :=
  match e with RedirectToJob _ _ _ => true | _ => false end.

Definition is_redirectToJob (ob : Obs) : bool :=
  match ob with Observe e _ => redirectToJob_request e end.

(** ** For detect *)

(** [m] is the largest among [floor] and the values [xs]. *)
Definition Qmax_of (floor : Q) (xs : list Q) (m : Q) : Prop :=
  (floor <= m)%Q /\ Forall (fun x => (x <= m)%Q) xs /\ (m = floor \/ m ∈ xs).

Definition Zmax_of (floor : Z) (xs : list Z) (m : Z) : Prop :=
  floor <= m /\ Forall (fun x => x <= m) xs /\ (m = floor \/ m ∈ xs).

(** ** For the checks *)

(** The jobs of [procs] that are on another show than [target_show]. *)
Definition cross_show_jobs (procs : list Proc) (target_show : string) : list Job :=
  getJob <$> filter (fun proc => job_show (getJob proc) <> target_show) procs.

(** The subscription [show_subs.get(alloc)] finds: the last subscription of
    the show whose allocation name occurs in [alloc] and whose name, with
    the trailing characters of ".<show>" stripped, is [alloc]. *)
Definition matches_alloc (show alloc : string) (s : Subscription) : bool :=
  Py.contains (sub_allocation_name s) alloc
  && String.eqb (Py.rstrip ("." ++ show)%string (sub_name s)) alloc.

Definition subscription_for (show alloc : string) (subs : list Subscription)
    : option Subscription :=
  last (List.filter (matches_alloc show alloc) subs).

(** Both checks were run for every group, in order, and answered true;
    the last index is what they observed, after the history in the first. *)
Inductive checks_pass (o : Oracle) (show_name : string)
    : list Obs -> list (string * list Proc) -> list Obs -> Prop :=
| checks_pass_nil hist : checks_pass o show_name hist [] []
| checks_pass_cons hist alloc procs rest tr1 tr2 tr3 :
    exec o hist (RedirectWidget.is_cross_show_safe procs show_name) = (tr1, true) ->
    exec o (hist ++ tr1)%list (RedirectWidget.is_burst_safe alloc procs show_name)
      = (tr2, Normal true) ->
    checks_pass o show_name (hist ++ tr1 ++ tr2)%list rest tr3 ->
    checks_pass o show_name hist ((alloc, procs) :: rest) (tr1 ++ tr2 ++ tr3)%list.

(** The checks answered true up to some group, for which one of the two
    answered false; the last index is what was observed up to that answer. *)
Inductive check_refuses (o : Oracle) (show_name : string)
    : list Obs -> list (string * list Proc) -> list Obs -> Prop :=
| refuses_cross hist alloc procs rest tr1 :
    exec o hist (RedirectWidget.is_cross_show_safe procs show_name) = (tr1, false) ->
    check_refuses o show_name hist ((alloc, procs) :: rest) tr1
| refuses_burst hist alloc procs rest tr1 tr2 :
    exec o hist (RedirectWidget.is_cross_show_safe procs show_name) = (tr1, true) ->
    exec o (hist ++ tr1)%list (RedirectWidget.is_burst_safe alloc procs show_name)
      = (tr2, Normal false) ->
    check_refuses o show_name hist ((alloc, procs) :: rest) (tr1 ++ tr2)%list
| refuses_later hist alloc procs rest tr1 tr2 tr3 :
    exec o hist (RedirectWidget.is_cross_show_safe procs show_name) = (tr1, true) ->
    exec o (hist ++ tr1)%list (RedirectWidget.is_burst_safe alloc procs show_name)
      = (tr2, Normal true) ->
    check_refuses o show_name (hist ++ tr1 ++ tr2)%list rest tr3 ->
    check_refuses o show_name hist ((alloc, procs) :: rest) (tr1 ++ tr2 ++ tr3)%list.

(** A program all of whose requests, on every path, satisfy [P]. *)
Fixpoint requests_only {R : Type} (P : forall X, Event X -> Prop) (p : Prog R) : Prop :=
  match p with
  | Ret _ => True
  | Vis e k => P _ e /\ forall x, requests_only P (k x)
  end.

Definition obs_request (P : forall X, Event X -> Prop) (ob : Obs) : Prop :=
  match ob with Observe e _ => P _ e end.

(** Requests other than [host.redirectToJob]. *)
Definition not_redirectToJob (X : Type) (e : Event X) : Prop :=
  redirectToJob_request e = false.

(** The observation of [host.redirectToJob(procs, job)] for an entry. *)
Definition redirect_call (job : Job) (entry : RedirectWidget.Entry) (answer : Outcome unit)
    : Obs :=
  Observe (RedirectToJob (RedirectWidget.e_host entry) (RedirectWidget.e_procs entry) job)
          answer.

(** The exceptions among the answers. *)
Definition raised (answers : list (Outcome unit)) : list exn :=
  omap (fun a => match a with Raised e => Some e | Normal _ => None end) answers.

(** What [redirect] leaves of a row when it has gone through its loop: a
    checked row carries the retry icon and is disabled, with its name, its
    check mark, its columns and its child rows as they were; any other row
    is as it was. *)
Definition after_redirect (before after : RedirectWidget.Item) : Prop :=
  if RedirectWidget.checked before
  then RedirectWidget.icon after = Some ":retry.png"%string /\
       RedirectWidget.enabled after = false /\
       RedirectWidget.text after = RedirectWidget.text before /\
       RedirectWidget.checked after = true /\
       RedirectWidget.col_cores after = RedirectWidget.col_cores before /\
       RedirectWidget.col_mem after = RedirectWidget.col_mem before /\
       RedirectWidget.col_time after = RedirectWidget.col_time before /\
       RedirectWidget.children after = RedirectWidget.children before
  else after = before.

Definition mark_rows (rows : list nat) (model : list RedirectWidget.Item)
    : list RedirectWidget.Item :=
  foldl (fun m row => alter RedirectWidget.mark_redirected row m) model rows.

(** ** For update *)

(** A proc gathered into the entry of host [g_name] at clock reading
    [g_now]; the log of a run lists them in the order of gathering. *)
Record Gathered := { g_name : string; g_proc : Proc; g_now : Z }.

(** The procs gathered for one host, with their clock readings. *)
Definition gathered (name : string) (log : list Gathered) : list (Proc * Z) :=
  (fun g => (g_proc g, g_now g)) <$> filter (fun g => g_name g = name) log.

(** The answers of [int(time.time())] in a run, in order. *)
Definition int_times (tr : list Obs) : list Z :=
  omap (fun ob => match ob with
                  | Observe e x =>
                      match e in Event X return X -> option Z with
                      | IntTime => fun t => Some t
                      | _ => fun _ => None
                      end x
                  end) tr.

(** The totals of a host after gathering: the integer part of its idle
    cores plus the reserved cores of the procs, summed in order; its idle
    memory plus their reserved memory; their run times at gathering. *)
Definition accumulated_cores (h : Host) (ps : list Proc) : Q :=
  foldl Qplus (inject_Z (Py.int (idle_cores h))) (reserved_cores <$> ps).

Definition accumulated_mem (h : Host) (ps : list Proc) : Z :=
  idle_memory h + foldr Z.add 0 (reserved_memory <$> ps).

Definition accumulated_time (gs : list (Proc * Z)) : Z :=
  foldr Z.add 0 ((fun g => g.2 - dispatch_time g.1) <$> gs).

(** The three thresholds of the controls on these totals. *)
Definition on_target (c : RedirectControls.t) (h : Host) (gs : list (Proc * Z)) : Prop :=
  (inject_Z (RedirectControls.getCores c) <= accumulated_cores h gs.*1)%Q /\
  RedirectControls.getMemory c <= accumulated_mem h gs.*1 /\
  accumulated_time gs < RedirectControls.getCutoffTime c.

(** What the filters of [update] let through. *)
Definition admitted (re_match : string -> string -> bool) (c : RedirectControls.t)
    (proc : Proc) : Prop :=
  proc_show_name proc = show_name (RedirectControls.getShow c) /\
  proc_job_name proc <> RedirectControls.getJob c /\
  redirect_target proc = ""%string /\
  (RedirectControls.getJobNameExcludeRegex c <> ""%string ->
     re_match (RedirectControls.getJobNameExcludeRegex c) (proc_job_name proc) = false) /\
  (RedirectControls.getRequiredService c <> ""%string ->
     RedirectControls.getRequiredService c ∈ services proc) /\
  (RedirectControls.getIncludedGroups c <> [] ->
     group_name proc ∈ RedirectControls.getIncludedGroups c).

(** The fields of an entry are the totals of what was gathered for it. *)
Definition entry_totals (e : RedirectWidget.Entry) (gs : list (Proc * Z)) : Prop :=
  RedirectWidget.e_procs e = gs.*1 /\
  RedirectWidget.e_cores e = accumulated_cores (RedirectWidget.e_host e) gs.*1 /\
  RedirectWidget.e_mem e = accumulated_mem (RedirectWidget.e_host e) gs.*1 /\
  RedirectWidget.e_time e = accumulated_time gs.

(** The thresholds were not met after any proc before the last. *)
Definition not_on_target_before (c : RedirectControls.t) (h : Host) (gs : list (Proc * Z))
    : Prop :=
  forall k : nat, (0 < k < length gs)%nat -> ~ on_target c h (take k gs).

(** The invariant of the loop of [update]: [tr] is what the run has
    observed, [log] what it has gathered, [names] the hosts it has added
    to the results, in order. *)
Record update_inv (re_match : string -> string -> bool) (o : Oracle)
    (c : RedirectControls.t) (listing : list Proc) (tr : list Obs)
    (st : RedirectWidget.LoopState)
    (log : list Gathered) (names : list string) : Prop := {
  inv_times : g_now <$> log = int_times tr;
  inv_log :
    Forall (fun g => g_proc g ∈ listing /\ admitted re_match c (g_proc g) /\
                     g_name g = Py.split_head "/" (proc_name (g_proc g)) /\
                     is_Some (RedirectWidget.l_hosts st !! g_name g)) log;
  inv_entries :
    forall (name : string) (e : RedirectWidget.Entry),
      RedirectWidget.l_hosts st !! name = Some e ->
      gathered name log <> [] /\
      entry_totals e (gathered name log) /\
      not_on_target_before c (RedirectWidget.e_host e) (gathered name log) /\
      (RedirectWidget.e_ok e = true <->
         on_target c (RedirectWidget.e_host e) (gathered name log)) /\
      (RedirectWidget.e_ok e = true <-> name ∈ names) /\
      (exists h, RedirectWidget.e_host e = o h _ (FindHost name));
  inv_rows :
    Forall2 (fun item name =>
               exists e, RedirectWidget.l_hosts st !! name = Some e /\
                         item = RedirectWidget.addHost e)
            (RedirectWidget.l_model st) names;
  inv_names : NoDup names;
  inv_ok : RedirectWidget.l_ok st = Z.of_nat (length names);
  inv_limit : RedirectWidget.l_ok st <= Z.max 0 (RedirectControls.getLimit c)
}.

(** The request of [update] for the listing, and its locals at the start
    of the loop. *)
Definition listing_request (c : RedirectControls.t) : Event (list Proc) :=
  GetProcs [show_name (RedirectControls.getShow c)]
           (RedirectControls.getAllocFilter_getSelected c).

Definition initial_state : RedirectWidget.LoopState :=
  {| RedirectWidget.l_hosts := ∅; RedirectWidget.l_ok := 0; RedirectWidget.l_model := [] |}.

(** Requests other than [opencue.api.getProcs]. *)
Definition getProcs_request {X : Type} (e : Event X) : bool :=
  match e with GetProcs _ _ => true | _ => false end.

Definition is_getProcs (ob : Obs) : bool :=
  match ob with Observe e _ => getProcs_request e end.

(** The cores of a host as C2 words them: its idle cores, not their
    integer part, plus the reserved cores of the procs. *)
Definition claimed_cores (h : Host) (ps : list Proc) : Q :=
  foldl Qplus (idle_cores h) (reserved_cores <$> ps).

Definition claimed_on_target (c : RedirectControls.t) (h : Host) (gs : list (Proc * Z))
    : Prop :=
  (inject_Z (RedirectControls.getCores c) <= claimed_cores h gs.*1)%Q /\
  RedirectControls.getMemory c <= accumulated_mem h gs.*1 /\
  accumulated_time gs < RedirectControls.getCutoffTime c.

(** ** For the grouping of the selected procs *)

(** The entries of the selected items that have one. *)
Definition selected_entries (hosts : gmap string RedirectWidget.Entry)
    (selected : list RedirectWidget.Item) : list RedirectWidget.Entry :=
  omap (fun item => hosts !! RedirectWidget.text item) selected.

(** The procs of the entries of one allocation, in the order of the
    entries. *)
Definition procs_for_alloc (alloc : string) (entries : list RedirectWidget.Entry)
    : list Proc :=
  concat (RedirectWidget.e_procs
            <$> filter (fun e => RedirectWidget.e_alloc e = alloc) entries).

(** A program all of whose results, on every path, satisfy [P]. *)
Fixpoint always {R : Type} (P : R -> Prop) (p : Prog R) : Prop :=
  match p with
  | Ret r => P r
  | Vis e k => forall x, always P (k x)
  end.

(** Two rows with the same name, check mark and child rows. *)
Definition same_row (a b : RedirectWidget.Item) : Prop :=
  RedirectWidget.text a = RedirectWidget.text b /\
  RedirectWidget.checked a = RedirectWidget.checked b /\
  RedirectWidget.children a = RedirectWidget.children b.

(** ** For the requests of update *)

(** The requests [update] makes: the listing, [wasCanceled] of the
    progress dialog, [findHost] and the clock. *)
Definition read_request {X : Type} (e : Event X) : bool :=
  match e with
  | GetProcs _ _ | WasCanceled | FindHost _ | IntTime => true
  | _ => false
  end.

Definition is_read (ob : Obs) : bool :=
  match ob with Observe e _ => read_request e end.

(** A [wasCanceled] that answered true. *)
Definition is_cancel (ob : Obs) : bool :=
  match ob with
  | Observe e x =>
      match e in Event X return X -> bool with
      | WasCanceled => fun canceled => canceled
      | _ => fun _ => false
      end x
  end.

(** The host names [findHost] was asked for in a run, in order. *)
Definition asked_hosts (tr : list Obs) : list string :=
  omap (fun ob => match ob with
                  | Observe e _ =>
                      match e with FindHost name => Some name | _ => None end
                  end) tr.

(** The procs handed to [redirectToJob] in an observation. *)
Definition moved_procs (ob : Obs) : list Proc :=
  match ob with
  | Observe e _ => match e with RedirectToJob _ procs _ => procs | _ => [] end
  end.

(** Requests that, when they are a [redirectToJob], are made on the host
    of an entry of [hosts] with the procs of that entry. *)
Definition moves_entry (hosts : gmap string RedirectWidget.Entry) (X : Type) (e : Event X)
    : Prop :=
  match e with
  | RedirectToJob h procs _ =>
      exists (name : string) (entry : RedirectWidget.Entry),
        hosts !! name = Some entry /\
        h = RedirectWidget.e_host entry /\ procs = RedirectWidget.e_procs entry
  | _ => True
  end.

(** * A small farm: one host, one proc *)

Module Example.

Local Open Scope string_scope.

Definition target : Job := {| job_name := "pipe-sh010-light"; job_show := "pipe" |}.

Definition comp_job : Job := {| job_name := "pipe-sh020-comp"; job_show := "pipe" |}.

(** A proc of half a core on host1, running since second 1000. *)
Definition proc1 : Proc :=
  {| proc_name := "host1/0001"; proc_show_name := "pipe";
     proc_job_name := "pipe-sh020-comp"; redirect_target := "";
     services := ["nuke"]; group_name := "comp";
     reserved_memory := 1048576; reserved_cores := 1 # 2;
     dispatch_time := 1000; getJob := comp_job |}.

(** A proc of one hundred and a half cores. *)
Definition big_proc : Proc :=
  {| proc_name := "host2/0001"; proc_show_name := "pipe";
     proc_job_name := "pipe-sh020-comp"; redirect_target := "";
     services := ["nuke"]; group_name := "comp";
     reserved_memory := 1048576; reserved_cores := 201 # 2;
     dispatch_time := 1000; getJob := comp_job |}.

(** Every host has one core and a half idle and 4 GB idle. *)
Definition host_named (name : string) : Host :=
  {| host_name := name; idle_memory := 4194304; idle_cores := 3 # 2;
     alloc_name := "lax.spinux" |}.

Definition subscription (burst reserved : Q) : Subscription :=
  {| sub_name := "lax.spinux.pipe"; sub_allocation_name := "lax.spinux";
     sub_burst := burst; sub_reserved_cores := reserved |}.

(** An environment: [jobs] answers [findJob], the show has the
    subscriptions [subs], the user answers [answer] to every question, the
    listing is [proc1], no call to [redirectToJob] fails, the config has no
    threshold, the clock reads second 1100. *)
Definition env (jobs : string -> Outcome Job) (subs : list Subscription) (answer : bool)
    : Oracle :=
  fun _ X e =>
    match e in Event X return X with
    | FindJob name => jobs name
    | GetLayers _ => []
    | FindShow name => {| show_name := name |}
    | GetSubscriptions _ => subs
    | GetProcs _ _ => [proc1]
    | FindHost name => host_named name
    | RedirectToJob _ _ _ => Normal tt
    | GetResourceConfig => {| wasted_cores_threshold := None |}
    | QuestionBoxYesNo _ => answer
    | Warn _ => tt
    | WasCanceled => false
    | IntTime => 1100
    | CoresSpinSetValue _ => tt
    | MemSpinSetValue _ => tt
    | ShowComboFindText _ => 0
    | ShowComboSetCurrentIndex _ => tt
    end.

Definition job_found (name : string) : Outcome Job := Normal target.
Definition job_gone (name : string) : Outcome Job := Raised EntityNotFoundException.

(** Controls asking for [cores] cores and 1 GB, no job filter. *)
Definition controls_for (job : string) (cores : Z) : RedirectControls.t :=
  {| RedirectControls.job_box := job; RedirectControls.cores_spin := cores;
     RedirectControls.mem_spin := 1; RedirectControls.limit_spin := 10;
     RedirectControls.prh_spin := 10; RedirectControls.require_services := "";
     RedirectControls.exclude_regex := ""; RedirectControls.include_groups := [];
     RedirectControls.current_show := {| show_name := "pipe" |};
     RedirectControls.alloc_selected := ["lax.spinux"] |}.

Definition no_match (pattern s : string) : bool := false.

(** The widget before a search. *)
Definition fresh (job : string) (cores : Z) : RedirectWidget.t :=
  {| RedirectWidget.controls := controls_for job cores;
     RedirectWidget.hosts := ∅; RedirectWidget.model := [] |}.

(** The entry and the row of host1 after a search for one core. *)
Definition entry1 : RedirectWidget.Entry :=
  {| RedirectWidget.e_host := host_named "host1"; RedirectWidget.e_procs := [proc1];
     RedirectWidget.e_mem := 5242880; RedirectWidget.e_cores := (1 + (1 # 2))%Q;
     RedirectWidget.e_time := 100; RedirectWidget.e_ok := true;
     RedirectWidget.e_alloc := "lax.spinux" |}.

Definition row1 (checked : bool) : RedirectWidget.Item :=
  {| RedirectWidget.text := "host1"; RedirectWidget.checked := checked;
     RedirectWidget.enabled := true; RedirectWidget.icon := None;
     RedirectWidget.col_cores := (1 + (1 # 2))%Q; RedirectWidget.col_mem := 5242880;
     RedirectWidget.col_time := 100; RedirectWidget.children := [proc1] |}.

(** The widget after that search, with the row of host1 checked. *)
Definition searched (job : string) : RedirectWidget.t :=
  {| RedirectWidget.controls := controls_for job 1;
     RedirectWidget.hosts := {[ "host1" := entry1 ]};
     RedirectWidget.model := [row1 true] |}.

(** What the burst check asks on this farm. *)
Definition asked : list Obs :=
  [Observe GetResourceConfig {| wasted_cores_threshold := None |};
   Observe (FindShow "pipe") {| show_name := "pipe" |};
   Observe (GetSubscriptions {| show_name := "pipe" |}) [subscription 100 10]].

(** The widget after that search, with the row of host1 left unchecked. *)
Definition unselected (job : string) : RedirectWidget.t :=
  {| RedirectWidget.controls := controls_for job 1;
     RedirectWidget.hosts := {[ "host1" := entry1 ]};
     RedirectWidget.model := [row1 false] |}.

(** A widget whose checked row names a host that is no key of [__hosts]. *)
Definition stale (job : string) : RedirectWidget.t :=
  {| RedirectWidget.controls := controls_for job 1;
     RedirectWidget.hosts := ∅;
     RedirectWidget.model := [row1 true] |}.

(** The subscription of show pipe to the allocation local.desktop. *)
Definition desktop_subscription : Subscription :=
  {| sub_name := "local.desktop.pipe"; sub_allocation_name := "local.desktop";
     sub_burst := 100%Q; sub_reserved_cores := 10%Q |}.

(** The farm with a progress dialog that is canceled at once. *)
Definition canceled_env : Oracle :=
  fun h X e =>
    match e in Event X return X -> X with
    | WasCanceled => fun _ => true
    | _ => fun answer => answer
    end (env job_found [] false h X e).

(** A group button of show pipe with the group comp checked, and the
    group light, which the button has not seen. *)
Definition group_button : GroupFilter.t :=
  {| GroupFilter.show := Some {| show_name := "pipe" |};
     GroupFilter.actions :=
       [("Group.1", {| GroupFilter.a_text := "comp"; GroupFilter.a_checked := true |})];
     GroupFilter.menu := [] |}.

Definition light_group : GroupFilter.Group :=
  {| GroupFilter.group_id := "Group.2"; GroupFilter.group_data_name := "light" |}.

(** Every job name is the name of a job of show pipe. *)
Definition job_named (name : string) : Outcome Job :=
  Normal {| job_name := name; job_show := "pipe" |}.

(** The controls of this farm with the proc hour cutoff at [hours]. *)
Definition controls_with_cutoff (hours : Q) : RedirectControls.t :=
  {| RedirectControls.job_box := "pipe-sh010-light"; RedirectControls.cores_spin := 1;
     RedirectControls.mem_spin := 1; RedirectControls.limit_spin := 10;
     RedirectControls.prh_spin := hours; RedirectControls.require_services := "";
     RedirectControls.exclude_regex := ""; RedirectControls.include_groups := [];
     RedirectControls.current_show := {| show_name := "pipe" |};
     RedirectControls.alloc_selected := ["lax.spinux"] |}.

End Example.

(** * Properties *)

(** ** Running programs *)

Lemma exec_pbind {A B : Type} (o : Oracle) (p : Prog A) (f : A -> Prog B) (hist : list Obs) :
  exec o hist (pbind p f)
  = let run1 := exec o hist p in
    let run2 := exec o (hist ++ run1.1)%list (f run1.2) in
    ((run1.1 ++ run2.1)%list, run2.2).
Proof.
  revert hist. induction p as [a | X e k IH]; intros hist; simpl.
  - rewrite app_nil_r. by destruct (exec o hist (f a)).
  - rewrite IH. simpl. by rewrite <- app_assoc.
Qed.

(** ** detect *)

Lemma Py_lt_spec (x y : Q) : Py.lt x y = true <-> (x < y)%Q.
Proof.
  unfold Py.lt. rewrite negb_true_iff. split.
  - intros H. apply Qnot_le_lt. intros Hle. apply Qle_bool_iff in Hle. congruence.
  - intros H. destruct (Qle_bool y x) eqn:E; [| reflexivity].
    apply Qle_bool_iff in E. exfalso. exact (Qlt_not_le _ _ H E).
Qed.

Lemma Py_lt_false (x y : Q) : Py.lt x y = false <-> (y <= x)%Q.
Proof.
  unfold Py.lt. rewrite negb_false_iff. apply Qle_bool_iff.
Qed.

Lemma detect_fold_max (layers : list Layer) (c0 : Q) (m0 : Z) :
  Qmax_of c0 (map min_cores layers) (foldl RedirectControls.detect_step (c0, m0) layers).1 /\
  Zmax_of m0 (map min_memory layers) (foldl RedirectControls.detect_step (c0, m0) layers).2.
Proof.
  revert c0 m0. induction layers as [| l ls IH]; intros c0 m0; simpl.
  - split; (split; [first [apply Qle_refl | lia] | split; [constructor | by left]]).
  - set (c1 := if Py.lt c0 (min_cores l) then min_cores l else c0).
    set (m1 := if (m0 <? min_memory l)%Z then min_memory l else m0).
    destruct (IH c1 m1) as [(Hc1 & Hc2 & Hc3) (Hm1 & Hm2 & Hm3)].
    assert (Hc0 : (c0 <= c1)%Q /\ (min_cores l <= c1)%Q /\ (c1 = c0 \/ c1 = min_cores l)).
    { subst c1. destruct (Py.lt c0 (min_cores l)) eqn:E.
      - apply Py_lt_spec in E. repeat split; [by apply Qlt_le_weak | apply Qle_refl | by right].
      - apply Py_lt_false in E. repeat split; [apply Qle_refl | done | by left]. }
    assert (Hm0 : m0 <= m1 /\ min_memory l <= m1 /\ (m1 = m0 \/ m1 = min_memory l)).
    { subst m1. destruct (Z.ltb_spec m0 (min_memory l)); lia. }
    destruct Hc0 as (Hc01 & Hc02 & Hc03). destruct Hm0 as (Hm01 & Hm02 & Hm03).
    split.
    + split; [eapply Qle_trans; eassumption |].
      split; [constructor; [eapply Qle_trans; eassumption | assumption] |].
      destruct Hc3 as [-> | Hin].
      * destruct Hc03 as [-> | ->]; [by left | right; apply list_elem_of_here].
      * right. by apply list_elem_of_further.
    + split; [lia |].
      split; [constructor; [lia | assumption] |].
      destruct Hm3 as [-> | Hin].
      * destruct Hm03 as [-> | ->]; [by left | right; apply list_elem_of_here].
      * right. by apply list_elem_of_further.
Qed.

(** The integer part of a float that is at least 1.0 is at least 1. *)
Lemma Py_int_ge_1 (x : Q) : (1 <= x)%Q -> 1 <= Py.int x.
Proof.
  destruct x as [n d]. unfold Qle, Py.int. simpl. intros H.
  apply Z.quot_le_lower_bound; lia.
Qed.

(** C10: when the job named in the job box is found, [detect] calls
    [setValue] on the cores spin box with the integer part of the largest
    [min_cores] of the job's layers, 1.0 at least, [setValue] on the memory
    spin box with the largest [min_memory] of the layers (0 for none, one
    of theirs when none is negative) divided by 1048576,
    and [setCurrentIndex] on the show combo with the index [findText] gave
    for the job's show; when the lookup raises a CueException it returns
    having called no setter. *)
Theorem detect_populates_controls (o : Oracle) (hist : list Obs) (c : RedirectControls.t) :
  let find := FindJob (RedirectControls.getJob c) in
  match o hist _ find with
  | Normal job =>
      exists (layers : list Layer) (cores : Q) (mem : Z) (idx : Z),
        Qmax_of 1 (map min_cores layers) cores /\
        1 <= Py.int cores /\
        Zmax_of 0 (map min_memory layers) mem /\
        (layers <> [] -> Forall (fun layer => 0 <= min_memory layer) layers ->
           mem ∈ map min_memory layers) /\
        exec o hist (RedirectControls.detect c) =
          ([Observe find (Normal job);
            Observe (GetLayers job) layers;
            Observe (CoresSpinSetValue (Py.int cores)) tt;
            Observe (MemSpinSetValue (inject_Z mem / 1048576)%Q) tt;
            Observe (ShowComboFindText (job_show job)) idx;
            Observe (ShowComboSetCurrentIndex idx) tt],
           Normal tt)
  | Raised e =>
      exec o hist (RedirectControls.detect c) =
        ([Observe find (Raised e)], if is_CueException e then Normal tt else Raised e)
  end.
Proof.
  intros find. subst find.
  unfold RedirectControls.detect, RedirectControls.getJob, trigger. simpl.
  destruct (o hist _ (FindJob (RedirectControls.job_box c))) as [job | e].
  - simpl.
    match goal with
    | |- context [foldl RedirectControls.detect_step _ ?l] =>
        pose proof (detect_fold_max l 1%Q 0) as [Hc Hm];
        destruct (foldl RedirectControls.detect_step (1%Q, 0) l) as [cores mem]
    end.
    simpl in Hc, Hm. simpl.
    repeat match goal with
           | |- context [o ?h unit ?e] => destruct (o h unit e)
           end.
    eexists _, cores, mem, _.
    split; [exact Hc |]. split; [apply Py_int_ge_1, Hc |]. split; [exact Hm |].
    split; [| reflexivity].
    intros Hne Hpos. destruct Hm as (_ & Hub & [-> | Hin]); [| exact Hin].
    match goal with |- context [map min_memory ?l] => destruct l as [| layer rest] end;
      [done |].
    apply Forall_cons in Hub as [Hub _]. apply Forall_cons in Hpos as [Hpos _].
    replace 0 with (min_memory layer) by lia. apply list_elem_of_here.
  - destruct (is_CueException e); reflexivity.
Qed.

(** ** The safety checks *)

Lemma cross_show_filter (procs : list Proc) (target_show : string) :
  List.filter (fun proc => negb (String.eqb (job_show (getJob proc)) target_show)) procs
  = filter (fun proc => job_show (getJob proc) <> target_show) procs.
Proof.
  induction procs as [| p ps IH]; [reflexivity |].
  simpl. rewrite filter_cons, IH.
  destruct (String.eqb_spec (job_show (getJob p)) target_show) as [Heq | Hne]; simpl.
  - rewrite decide_False; [reflexivity | intros H; by apply H].
  - by rewrite decide_True.
Qed.

(** C6: [__is_cross_show_safe] answers true and asks nothing when every
    proc's job is on the target show; when some proc's job is on another
    show it asks one question, listing the jobs on other shows, and answers
    what the user answered. *)
Theorem is_cross_show_safe_answer (o : Oracle) (hist : list Obs)
    (procs : list Proc) (target_show : string) :
  (Forall (fun proc => job_show (getJob proc) = target_show) procs ->
     exec o hist (RedirectWidget.is_cross_show_safe procs target_show) = ([], true)) /\
  (Exists (fun proc => job_show (getJob proc) <> target_show) procs ->
     let xshow_jobs := cross_show_jobs procs target_show in
     let q := QuestionBoxYesNo
                (CrossShowQuestion (job_show <$> xshow_jobs) (job_name <$> xshow_jobs)) in
     exec o hist (RedirectWidget.is_cross_show_safe procs target_show)
     = ([Observe q (o hist _ q)], o hist _ q)).
Proof.
  unfold RedirectWidget.is_cross_show_safe, cross_show_jobs.
  rewrite cross_show_filter. split.
  - intros Hall.
    assert (Hnil : filter (fun proc => job_show (getJob proc) <> target_show) procs = []).
    { induction Hall as [| p ps Hp _ IH]; [reflexivity |].
      rewrite filter_cons, decide_False; [exact IH | intros H; by apply H]. }
    rewrite Hnil. reflexivity.
  - intros Hex.
    destruct (filter (fun proc => job_show (getJob proc) <> target_show) procs)
      as [| p ps] eqn:Hf.
    + exfalso. apply Exists_exists in Hex as (p & Hin & Hp).
      assert (Hin' : p ∈ filter (fun proc => job_show (getJob proc) <> target_show) procs).
      { apply list_elem_of_filter. split; [exact Hp | exact Hin]. }
      rewrite Hf in Hin'. by apply not_elem_of_nil in Hin'.
    + reflexivity.
Qed.

Lemma dict_snoc {V} (pairs : list (string * V)) (k : string) (v : V) :
  Py.dict (pairs ++ [(k, v)]) = <[k := v]> (Py.dict pairs).
Proof. unfold Py.dict. by rewrite foldl_app. Qed.

Lemma dict_lookup {V} (pairs : list (string * V)) (k : string) :
  Py.dict pairs !! k = last (snd <$> List.filter (fun kv => String.eqb kv.1 k) pairs).
Proof.
  induction pairs as [| [k' v] pairs IH] using rev_ind; [reflexivity |].
  rewrite dict_snoc, List.filter_app, fmap_app. simpl.
  destruct (String.eqb_spec k' k) as [-> | Hne]; simpl.
  - by rewrite lookup_insert_eq, last_snoc.
  - by rewrite lookup_insert_ne, app_nil_r.
Qed.

Lemma show_subs_lookup (show alloc : string) (subs : list Subscription) :
  Py.dict (map (fun s => (Py.rstrip ("." ++ show)%string (sub_name s), s))
               (List.filter (fun s => Py.contains (sub_allocation_name s) alloc) subs))
    !! alloc
  = subscription_for show alloc subs.
Proof.
  rewrite dict_lookup. unfold subscription_for. f_equal.
  induction subs as [| s subs IH]; [reflexivity |].
  unfold matches_alloc in *. simpl.
  destruct (Py.contains (sub_allocation_name s) alloc); simpl; [| exact IH].
  destruct (String.eqb (Py.rstrip ("." ++ show)%string (sub_name s)) alloc); simpl;
    [f_equal |]; exact IH.
Qed.

Lemma Py_le_spec (x y : Q) : Py.le x y = true <-> (x <= y)%Q.
Proof. apply Qle_bool_iff. Qed.

Lemma Py_le_false (x y : Q) : Py.le x y = false <-> ~ (x <= y)%Q.
Proof.
  rewrite <- Py_le_spec. destruct (Py.le x y); split; congruence.
Qed.

(** With no subscription under the allocation's name the check raises
    AttributeError; the handler that would warn and answer false is for
    TypeError and is not entered. *)
Lemma is_burst_safe_without_subscription (o : Oracle) (hist : list Obs)
    (alloc : string) (procs : list Proc) (show : string) :
  let cfg := o hist _ GetResourceConfig in
  let wc_ok := default 100%Q (wasted_cores_threshold cfg) in
  let h1 := (hist ++ [Observe GetResourceConfig cfg])%list in
  let show_obj := o h1 _ (FindShow show) in
  let h2 := (h1 ++ [Observe (FindShow show) show_obj])%list in
  let subs := o h2 _ (GetSubscriptions show_obj) in
  let h3 := (h2 ++ [Observe (GetSubscriptions show_obj) subs])%list in
  ~ (wc_ok < 0)%Q ->
  subscription_for show alloc subs = None ->
  exec o hist (RedirectWidget.is_burst_safe alloc procs show)
  = ([Observe GetResourceConfig cfg; Observe (FindShow show) show_obj;
      Observe (GetSubscriptions show_obj) subs], Raised AttributeError).
Proof.
  intros cfg wc_ok h1 show_obj h2 subs h3 Hwc Hnone.
  unfold RedirectWidget.is_burst_safe, RedirectControls._cfg, trigger. simpl.
  fold cfg. fold wc_ok.
  destruct (Py.lt wc_ok 0) eqn:Elt; [apply Py_lt_spec in Elt; contradiction |].
  simpl. fold cfg. fold h1. fold show_obj. fold h2. fold subs. fold h3.
  rewrite show_subs_lookup, Hnone. reflexivity.
Qed.

(** C7, as the code has it: with a negative threshold the check answers
    true after reading the config only; otherwise, when the show has a
    subscription under the allocation's name, it answers true and asks
    nothing if the wasted cores, [int(int(total reserved cores of the
    procs) - (burst - reserved cores))], do not exceed the threshold, and
    answers what the user answered to the burst question if they do. *)
Theorem is_burst_safe_answer (o : Oracle) (hist : list Obs)
    (alloc : string) (procs : list Proc) (show : string) :
  let cfg := o hist _ GetResourceConfig in
  let wc_ok := default 100%Q (wasted_cores_threshold cfg) in
  let h1 := (hist ++ [Observe GetResourceConfig cfg])%list in
  let show_obj := o h1 _ (FindShow show) in
  let h2 := (h1 ++ [Observe (FindShow show) show_obj])%list in
  let subs := o h2 _ (GetSubscriptions show_obj) in
  let h3 := (h2 ++ [Observe (GetSubscriptions show_obj) subs])%list in
  let asked := [Observe GetResourceConfig cfg; Observe (FindShow show) show_obj;
                Observe (GetSubscriptions show_obj) subs] in
  ((wc_ok < 0)%Q ->
     exec o hist (RedirectWidget.is_burst_safe alloc procs show)
     = ([Observe GetResourceConfig cfg], Normal true)) /\
  (~ (wc_ok < 0)%Q ->
   forall sub : Subscription,
     subscription_for show alloc subs = Some sub ->
     let procs_to_burst := (sub_burst sub - sub_reserved_cores sub)%Q in
     let procs_to_redirect := Py.int (Py.sum (map reserved_cores procs)) in
     let wasted_cores := Py.int (inject_Z procs_to_redirect - procs_to_burst)%Q in
     let q := QuestionBoxYesNo
                (BurstQuestion alloc procs_to_burst procs_to_redirect wasted_cores) in
     ((inject_Z wasted_cores <= wc_ok)%Q ->
        exec o hist (RedirectWidget.is_burst_safe alloc procs show) = (asked, Normal true)) /\
     (~ (inject_Z wasted_cores <= wc_ok)%Q ->
        exec o hist (RedirectWidget.is_burst_safe alloc procs show)
        = ((asked ++ [Observe q (o h3 _ q)])%list, Normal (o h3 _ q)))).
Proof.
  intros cfg wc_ok h1 show_obj h2 subs h3 asked. split.
  - intros Hwc.
    unfold RedirectWidget.is_burst_safe, RedirectControls._cfg, trigger. simpl.
    fold cfg. fold wc_ok. apply Py_lt_spec in Hwc. rewrite Hwc. reflexivity.
  - intros Hwc sub Hsub procs_to_burst procs_to_redirect wasted_cores q.
    assert (Hrun : forall tr r,
               exec o h3
                 (if Py.le (inject_Z wasted_cores) wc_ok then ret true
                  else do answer <- trigger q; ret answer) = (tr, r) ->
               exec o hist (RedirectWidget.is_burst_safe alloc procs show)
               = ((asked ++ tr)%list, r)).
    { intros tr r Hrun.
      unfold RedirectWidget.is_burst_safe, RedirectControls._cfg, trigger. simpl.
      fold cfg. fold wc_ok.
      destruct (Py.lt wc_ok 0) eqn:Elt; [apply Py_lt_spec in Elt; contradiction |].
      simpl. fold cfg. fold h1. fold show_obj. fold h2. fold subs. fold h3.
      rewrite show_subs_lookup, Hsub.
      fold procs_to_burst. fold procs_to_redirect. fold wasted_cores.
      unfold try_except, ret in *.
      destruct (Py.le (inject_Z wasted_cores) wc_ok); simpl in *;
        injection Hrun as <- <-; reflexivity. }
    split; intros Hw.
    + rewrite (Hrun [] (Normal true)); [by rewrite app_nil_r |].
      apply Py_le_spec in Hw. rewrite Hw. reflexivity.
    + apply Hrun. apply Py_le_false in Hw. rewrite Hw. reflexivity.
Qed.

(** ** redirect *)

Section Checks.
Variables (o : Oracle) (show_name : string).

Lemma exec_safety_checks_cons (hist : list Obs) (alloc : string) (procs : list Proc)
    (rest : list (string * list Proc)) :
  exec o hist (RedirectWidget.safety_checks ((alloc, procs) :: rest) show_name)
  = let cross := exec o hist (RedirectWidget.is_cross_show_safe procs show_name) in
    if cross.2 then
      let burst := exec o (hist ++ cross.1)%list
                     (RedirectWidget.is_burst_safe alloc procs show_name) in
      match burst.2 with
      | Normal true =>
          let later := exec o (hist ++ cross.1 ++ burst.1)%list
                         (RedirectWidget.safety_checks rest show_name) in
          ((cross.1 ++ burst.1 ++ later.1)%list, later.2)
      | Normal false => ((cross.1 ++ burst.1)%list, Normal false)
      | Raised e => ((cross.1 ++ burst.1)%list, Raised e)
      end
    else (cross.1, Normal false).
Proof.
  cbn [RedirectWidget.safety_checks]. rewrite exec_pbind. cbn zeta.
  destruct (exec o hist (RedirectWidget.is_cross_show_safe procs show_name))
    as [tr1 [|]]; cbn [fst snd negb]; [| by rewrite app_nil_r].
  unfold mbind. rewrite exec_pbind. cbn zeta.
  destruct (exec o (hist ++ tr1)%list (RedirectWidget.is_burst_safe alloc procs show_name))
    as [tr2 [[|] | e]]; cbn [fst snd negb exec ret]; rewrite ?app_nil_r; try reflexivity.
  by rewrite <- !app_assoc.
Qed.

(** What a run of the loop of checks says about the checks. *)
Lemma safety_checks_sound (groups : list (string * list Proc)) (hist : list Obs) :
  match (exec o hist (RedirectWidget.safety_checks groups show_name)).2 with
  | Normal true =>
      checks_pass o show_name hist groups
        (exec o hist (RedirectWidget.safety_checks groups show_name)).1
  | Normal false =>
      check_refuses o show_name hist groups
        (exec o hist (RedirectWidget.safety_checks groups show_name)).1
  | Raised _ => True
  end.
Proof.
  revert hist. induction groups as [| [alloc procs] rest IH]; intros hist.
  - simpl. constructor.
  - rewrite exec_safety_checks_cons. cbn zeta.
    destruct (exec o hist (RedirectWidget.is_cross_show_safe procs show_name))
      as [tr1 [|]] eqn:Hcross; cbn [fst snd]; [| by constructor].
    destruct (exec o (hist ++ tr1)%list (RedirectWidget.is_burst_safe alloc procs show_name))
      as [tr2 [[|] | e]] eqn:Hburst; cbn [fst snd]; [| by econstructor | exact I].
    specialize (IH (hist ++ tr1 ++ tr2)%list).
    destruct (exec o (hist ++ tr1 ++ tr2)%list (RedirectWidget.safety_checks rest show_name))
      as [tr3 [[|] | e]]; cbn [fst snd] in *; [by econstructor | by econstructor | exact I].
Qed.

Lemma checks_pass_exec (groups : list (string * list Proc)) (hist tr : list Obs) :
  checks_pass o show_name hist groups tr ->
  exec o hist (RedirectWidget.safety_checks groups show_name) = (tr, Normal true).
Proof.
  induction 1 as [hist | hist alloc procs rest tr1 tr2 tr3 Hc Hb _ IH]; [reflexivity |].
  rewrite exec_safety_checks_cons. cbn zeta. rewrite Hc. cbn [fst snd].
  rewrite Hb. cbn [fst snd]. by rewrite IH.
Qed.

Lemma check_refuses_exec (groups : list (string * list Proc)) (hist tr : list Obs) :
  check_refuses o show_name hist groups tr ->
  exec o hist (RedirectWidget.safety_checks groups show_name) = (tr, Normal false).
Proof.
  induction 1 as [hist alloc procs rest tr1 Hc
                 | hist alloc procs rest tr1 tr2 Hc Hb
                 | hist alloc procs rest tr1 tr2 tr3 Hc Hb _ IH];
    rewrite exec_safety_checks_cons; cbn zeta; rewrite Hc; cbn [fst snd];
    [reflexivity | |]; rewrite Hb; cbn [fst snd]; [reflexivity |].
  by rewrite IH.
Qed.
End Checks.

Lemma requests_only_exec {R : Type} (P : forall X, Event X -> Prop) (o : Oracle)
    (p : Prog R) (hist : list Obs) :
  requests_only P p -> Forall (obs_request P) (exec o hist p).1.
Proof.
  revert hist. induction p as [r | X e k IH]; intros hist Hp; simpl.
  - constructor.
  - destruct Hp as [He Hk]. constructor; [exact He | apply IH, Hk].
Qed.

Lemma requests_only_pbind {A B : Type} (P : forall X, Event X -> Prop)
    (p : Prog A) (f : A -> Prog B) :
  requests_only P p -> (forall a, requests_only P (f a)) -> requests_only P (pbind p f).
Proof.
  induction p as [a | X e k IH]; simpl; intros Hp Hf; [apply Hf |].
  destruct Hp as [He Hk]. split; [exact He | intros x; apply IH; [apply Hk | exact Hf]].
Qed.

Lemma is_cross_show_safe_no_redirect (procs : list Proc) (target_show : string) :
  requests_only not_redirectToJob (RedirectWidget.is_cross_show_safe procs target_show).
Proof.
  unfold RedirectWidget.is_cross_show_safe.
  destruct (negb _); simpl; [done |]. split; [done |]. intros answer. simpl. done.
Qed.

Lemma is_burst_safe_no_redirect (alloc : string) (procs : list Proc) (show : string) :
  requests_only not_redirectToJob (RedirectWidget.is_burst_safe alloc procs show).
Proof.
  unfold RedirectWidget.is_burst_safe, RedirectControls._cfg, trigger. simpl.
  split; [done |]. intros cfg.
  destruct (Py.lt _ _); simpl; [done |].
  split; [done |]. intros show_obj. split; [done |]. intros subs.
  destruct (_ !! alloc) as [sub |]; simpl; [| done].
  destruct (Py.le _ _); simpl; [done |].
  split; [done |]. intros answer. simpl. done.
Qed.

Lemma safety_checks_no_redirect (groups : list (string * list Proc)) (show_name : string) :
  requests_only not_redirectToJob (RedirectWidget.safety_checks groups show_name).
Proof.
  induction groups as [| [alloc procs] rest IH]; [exact I |].
  cbn [RedirectWidget.safety_checks].
  apply requests_only_pbind; [apply is_cross_show_safe_no_redirect |].
  intros [|]; cbn [negb]; [| exact I].
  unfold mbind. apply requests_only_pbind; [apply is_burst_safe_no_redirect |].
  intros [[|] | e]; cbn [negb]; [exact IH | exact I | exact I].
Qed.

Lemma checks_pass_no_redirect (o : Oracle) (show_name : string)
    (hist : list Obs) (groups : list (string * list Proc)) (tr : list Obs) :
  checks_pass o show_name hist groups tr -> Forall (obs_request not_redirectToJob) tr.
Proof.
  induction 1 as [hist | hist alloc procs rest tr1 tr2 tr3 Hc Hb _ IH]; [constructor |].
  apply Forall_app. split; [| apply Forall_app; split; [| exact IH]].
  - change tr1 with (tr1, true).1. rewrite <- Hc.
    apply requests_only_exec, is_cross_show_safe_no_redirect.
  - change tr2 with (tr2, @Normal bool true).1. rewrite <- Hb.
    apply requests_only_exec, is_burst_safe_no_redirect.
Qed.

Lemma check_refuses_no_redirect (o : Oracle) (show_name : string)
    (hist : list Obs) (groups : list (string * list Proc)) (tr : list Obs) :
  check_refuses o show_name hist groups tr -> Forall (obs_request not_redirectToJob) tr.
Proof.
  induction 1 as [hist alloc procs rest tr1 Hc
                 | hist alloc procs rest tr1 tr2 Hc Hb
                 | hist alloc procs rest tr1 tr2 tr3 Hc Hb _ IH].
  - change tr1 with (tr1, false).1. rewrite <- Hc.
    apply requests_only_exec, is_cross_show_safe_no_redirect.
  - apply Forall_app. split.
    + change tr1 with (tr1, true).1. rewrite <- Hc.
      apply requests_only_exec, is_cross_show_safe_no_redirect.
    + change tr2 with (tr2, @Normal bool false).1. rewrite <- Hb.
      apply requests_only_exec, is_burst_safe_no_redirect.
  - apply Forall_app. split; [| apply Forall_app; split; [| exact IH]].
    + change tr1 with (tr1, true).1. rewrite <- Hc.
      apply requests_only_exec, is_cross_show_safe_no_redirect.
    + change tr2 with (tr2, @Normal bool true).1. rewrite <- Hb.
      apply requests_only_exec, is_burst_safe_no_redirect.
Qed.

(** Every selected item has an entry when the grouping succeeds. *)
Lemma get_selected_procs_by_alloc_from_entries (hosts : gmap string RedirectWidget.Entry)
    (selected : list RedirectWidget.Item) (acc groups : list (string * list Proc)) :
  RedirectWidget.get_selected_procs_by_alloc_from hosts selected acc = Normal groups ->
  Forall (fun item => is_Some (hosts !! RedirectWidget.text item)) selected.
Proof.
  revert acc. induction selected as [| item rest IH]; intros acc H; [constructor |].
  simpl in H. destruct (hosts !! RedirectWidget.text item) as [entry |] eqn:He; [| discriminate].
  constructor; [by rewrite He | eapply IH, H].
Qed.

Lemma exec_redirect_items (o : Oracle) (hosts : gmap string RedirectWidget.Entry) (job : Job)
    (selected : list (nat * RedirectWidget.Item)) :
  Forall (fun ri => is_Some (hosts !! RedirectWidget.text ri.2)) selected ->
  forall (hist : list Obs) (model : list RedirectWidget.Item) (errors : list exn),
  exists (entries : list RedirectWidget.Entry) (answers : list (Outcome unit)),
    Forall2 (fun ri entry => hosts !! RedirectWidget.text ri.2 = Some entry) selected entries /\
    length answers = length entries /\
    exec o hist (RedirectWidget.redirect_items hosts job selected model errors)
    = (zip_with (redirect_call job) entries answers,
       (Normal (errors ++ raised answers)%list, mark_rows (selected.*1) model)).
Proof.
  induction 1 as [| [row item] rest [entry He] _ IH]; intros hist model errors.
  - exists [], []. simpl. rewrite app_nil_r. by repeat split.
  - simpl in He. simpl. rewrite He. simpl.
    set (answer := o hist _ _).
    set (errors' := match answer with Normal _ => errors | Raised e => (errors ++ [e])%list end).
    destruct (IH (hist ++ [redirect_call job entry answer])%list
                 (alter RedirectWidget.mark_redirected row model) errors')
      as (entries & answers & Hent & Hlen & Hexec).
    exists (entry :: entries), (answer :: answers).
    split; [by constructor |]. split; [simpl; by rewrite Hlen |].
    unfold redirect_call in Hexec at 1. rewrite Hexec. simpl. f_equal. f_equal. f_equal.
    subst errors'. unfold raised. destruct answer as [[] | e]; simpl; [reflexivity |].
    by rewrite <- app_assoc.
Qed.

(** Marking the rows of the checked items marks exactly the checked items. *)
Lemma mark_rows_checked (items pre : list RedirectWidget.Item) (k : nat) :
  k = length pre ->
  mark_rows (List.filter (fun ri => RedirectWidget.checked ri.2)
               (imap (fun i => pair (k + i)%nat) items)).*1
            (pre ++ items)
  = (pre ++ ((fun item => if RedirectWidget.checked item
                          then RedirectWidget.mark_redirected item else item) <$> items))%list.
Proof.
  revert pre k. induction items as [| item items IH]; intros pre k Hk; [reflexivity |].
  assert (Himap : imap ((fun i => pair (k + i)%nat) ∘ S) items
                  = imap (fun i => pair (S k + i)%nat) items).
  { apply imap_ext. intros i x _. simpl. f_equal. lia. }
  cbn [imap List.filter]. rewrite Himap. cbn [snd].
  destruct (RedirectWidget.checked item) eqn:Hc.
  - cbn [fmap list_fmap fst]. unfold mark_rows in *. cbn [foldl].
    replace (alter RedirectWidget.mark_redirected (k + 0)%nat (pre ++ item :: items))
      with ((pre ++ [RedirectWidget.mark_redirected item]) ++ items)%list.
    + rewrite (IH _ (S k)); [| rewrite length_app; simpl; lia].
      rewrite <- app_assoc. simpl. by rewrite Hc.
    + rewrite Hk, alter_app_r. by rewrite <- app_assoc.
  - replace (pre ++ item :: items)%list with ((pre ++ [item]) ++ items)%list
      by (by rewrite <- app_assoc).
    rewrite (IH _ (S k)); [| rewrite length_app; simpl; lia].
    rewrite <- app_assoc. simpl. by rewrite Hc.
Qed.

Lemma mark_rows_selected (w : RedirectWidget.t) :
  mark_rows (RedirectWidget.selected_items w).*1 (RedirectWidget.model w)
  = (fun item => if RedirectWidget.checked item
                 then RedirectWidget.mark_redirected item else item)
    <$> RedirectWidget.model w.
Proof.
  exact (mark_rows_checked (RedirectWidget.model w) [] 0 eq_refl).
Qed.

Lemma nonempty_true {A : Type} (l : list A) : l <> [] -> Py.nonempty l = true.
Proof. destruct l; [congruence | reflexivity]. Qed.

Lemma truthy_true (s : string) : s <> ""%string -> Py.truthy s = true.
Proof.
  intros H. unfold Py.truthy. destruct (String.eqb_spec s ""); [contradiction | reflexivity].
Qed.

(** [redirect] once the target job is found and the selected procs are
    grouped: the checks, then the redirect loop and its warning. *)
Lemma exec_redirect_found (o : Oracle) (hist : list Obs) (w : RedirectWidget.t) (job : Job) :
  let job_name := RedirectControls.getJob (RedirectWidget.controls w) in
  let found := Observe (FindJob job_name) (Normal job) in
  RedirectWidget.selected_items w <> [] ->
  job_name <> ""%string ->
  o hist _ (FindJob job_name) = Normal job ->
  exec o hist (RedirectWidget.redirect w)
  = match RedirectWidget.get_selected_procs_by_alloc (RedirectWidget.hosts w)
            (RedirectWidget.selected_items w).*2 with
    | Raised e => ([found], (Raised e, w))
    | Normal groups =>
    let checks := exec o (hist ++ [found])%list
                    (RedirectWidget.safety_checks groups (job_show job)) in
    match checks.2 with
    | Raised e => (found :: checks.1, (Raised e, w))
    | Normal false => (found :: checks.1, (Normal tt, w))
    | Normal true =>
        let loop := exec o (hist ++ found :: checks.1)%list
                      (RedirectWidget.redirect_items (RedirectWidget.hosts w) job
                         (RedirectWidget.selected_items w) (RedirectWidget.model w) []) in
        match loop.2 with
        | (Raised e, m) =>
            ((found :: checks.1 ++ loop.1)%list, (Raised e, RedirectWidget.with_model w m))
        | (Normal errors, m) =>
            ((found :: checks.1 ++ loop.1
                ++ (if Py.nonempty errors
                    then [Observe (Warn "Some procs failed to redirect.") tt]
                    else []))%list,
             (Normal tt, RedirectWidget.with_model w m))
        end
    end
    end.
Proof.
  intros job_name found Hselected Hname Hfound.
  unfold RedirectWidget.redirect.
  rewrite (nonempty_true _ Hselected). cbn [negb].
  fold job_name. rewrite (truthy_true _ Hname). cbn [negb].
  cbn [pbind trigger exec]. rewrite Hfound. cbn [pbind].
  change (map snd (RedirectWidget.selected_items w))
    with (RedirectWidget.selected_items w).*2.
  destruct (RedirectWidget.get_selected_procs_by_alloc _ _) as [groups | e];
    [| reflexivity].
  rewrite exec_pbind. cbn zeta. fold found. cbn [fst snd].
  destruct (exec o (hist ++ [found])%list
              (RedirectWidget.safety_checks groups (job_show job)))
    as [trc [[|] | e]]; cbn [fst snd exec]; rewrite ?app_nil_r; try reflexivity.
  rewrite exec_pbind. cbn zeta.
  replace ((hist ++ [found]) ++ trc)%list with (hist ++ found :: trc)%list
    by (by rewrite <- app_assoc).
  destruct (exec o (hist ++ found :: trc)%list
              (RedirectWidget.redirect_items (RedirectWidget.hosts w) job
                 (RedirectWidget.selected_items w) (RedirectWidget.model w) []))
    as [trl [[errors | e] m]]; cbn [fst snd exec]; rewrite ?app_nil_r; [| reflexivity].
  destruct (Py.nonempty errors); cbn [RedirectWidget.warn pbind trigger exec fst snd].
  - match goal with |- context [o ?h unit ?e] => destruct (o h unit e) end.
    reflexivity.
  - by rewrite app_nil_r.
Qed.

Lemma no_redirect_obs (tr : list Obs) :
  Forall (obs_request not_redirectToJob) tr ->
  Forall (fun ob => is_redirectToJob ob = false) tr.
Proof.
  intros H. eapply Forall_impl; [exact H |]. by intros [X e x].
Qed.

Lemma Forall_not_Exists_redirect (tr : list Obs) :
  Forall (obs_request not_redirectToJob) tr ->
  ~ Exists (fun ob => is_redirectToJob ob = true) tr.
Proof.
  intros Hall Hex. apply Exists_exists in Hex as (ob & Hin & Hob).
  rewrite Forall_forall in Hall. specialize (Hall ob Hin).
  destruct ob as [X e x]. unfold obs_request, not_redirectToJob in Hall.
  simpl in Hob. congruence.
Qed.

(** C1: in a run of [redirect] with a selection, a job name and the target
    job found, a [redirectToJob] is observed only if both checks were run
    for every allocation group of the selected procs and answered true, and
    then only after all of them; when a check answers false the run ends
    with that answer, [redirect] returns, the widget is as before and no
    [redirectToJob] was observed. *)
Theorem redirect_gated_by_checks (o : Oracle) (hist : list Obs)
    (w : RedirectWidget.t) (job : Job) :
  let job_name := RedirectControls.getJob (RedirectWidget.controls w) in
  let found := Observe (FindJob job_name) (Normal job) in
  let grouped := RedirectWidget.get_selected_procs_by_alloc (RedirectWidget.hosts w)
                   (RedirectWidget.selected_items w).*2 in
  let run := exec o hist (RedirectWidget.redirect w) in
  RedirectWidget.selected_items w <> [] ->
  job_name <> ""%string ->
  o hist _ (FindJob job_name) = Normal job ->
  (Exists (fun ob => is_redirectToJob ob = true) run.1 ->
   exists (groups : list (string * list Proc)) (trc rest : list Obs),
     grouped = Normal groups /\
     checks_pass o (job_show job) (hist ++ [found])%list groups trc /\
     run.1 = (found :: trc ++ rest)%list /\
     Forall (fun ob => is_redirectToJob ob = false) (found :: trc)) /\
  (forall (groups : list (string * list Proc)) (trc : list Obs),
     grouped = Normal groups ->
     check_refuses o (job_show job) (hist ++ [found])%list groups trc ->
     run = (found :: trc, (Normal tt, w)) /\
     Forall (fun ob => is_redirectToJob ob = false) run.1).
Proof.
  intros job_name found grouped run Hsel Hname Hfound.
  pose proof (exec_redirect_found o hist w job Hsel Hname Hfound) as Hrun.
  fold job_name found grouped run in Hrun. split.
  - intros Hex. destruct grouped as [groups | e] eqn:Hgrouped.
    + cbn zeta in Hrun.
      pose proof (safety_checks_sound o (job_show job) groups (hist ++ [found])%list) as Hsound.
      pose proof (requests_only_exec not_redirectToJob o
                    (RedirectWidget.safety_checks groups (job_show job))
                    (hist ++ [found])%list
                    (safety_checks_no_redirect groups (job_show job))) as Hquiet.
      destruct (exec o (hist ++ [found])%list
                  (RedirectWidget.safety_checks groups (job_show job)))
        as [trc [[|] | e]]; cbn [fst snd] in *.
      * exists groups, trc.
        destruct (exec o (hist ++ found :: trc)%list
                    (RedirectWidget.redirect_items (RedirectWidget.hosts w) job
                       (RedirectWidget.selected_items w) (RedirectWidget.model w) []))
          as [trl [[errors | e] m]]; cbn [fst snd] in Hrun; rewrite Hrun; cbn [fst];
          eexists; (split; [reflexivity |]); (split; [exact Hsound |]);
          (split; [reflexivity |]);
          (constructor; [reflexivity | exact (no_redirect_obs _ Hquiet)]).
      * exfalso. rewrite Hrun in Hex. cbn [fst] in Hex.
        revert Hex. apply Forall_not_Exists_redirect. by constructor.
      * exfalso. rewrite Hrun in Hex. cbn [fst] in Hex.
        revert Hex. apply Forall_not_Exists_redirect. by constructor.
    + exfalso. rewrite Hrun in Hex. cbn [fst] in Hex.
      revert Hex. apply Forall_not_Exists_redirect. by repeat constructor.
  - intros groups trc Hgroups Hrefuses. rewrite Hgroups in Hrun. cbn zeta in Hrun.
    rewrite (check_refuses_exec _ _ _ _ _ Hrefuses) in Hrun. cbn [fst snd] in Hrun.
    split; [exact Hrun |]. rewrite Hrun. cbn [fst].
    constructor; [reflexivity |].
    exact (no_redirect_obs _ (check_refuses_no_redirect _ _ _ _ _ Hrefuses)).
Qed.

(** The run of [redirect] when the checks of every group have passed. *)
Lemma redirect_commits_run (o : Oracle) (hist : list Obs) (w : RedirectWidget.t) (job : Job)
    (groups : list (string * list Proc)) (trc : list Obs) :
  let job_name := RedirectControls.getJob (RedirectWidget.controls w) in
  let found := Observe (FindJob job_name) (Normal job) in
  RedirectWidget.selected_items w <> [] ->
  job_name <> ""%string ->
  o hist _ (FindJob job_name) = Normal job ->
  RedirectWidget.get_selected_procs_by_alloc (RedirectWidget.hosts w)
    (RedirectWidget.selected_items w).*2 = Normal groups ->
  checks_pass o (job_show job) (hist ++ [found])%list groups trc ->
  exists (entries : list RedirectWidget.Entry) (answers : list (Outcome unit)),
    Forall2 (fun ri entry => RedirectWidget.hosts w !! RedirectWidget.text ri.2 = Some entry)
            (RedirectWidget.selected_items w) entries /\
    length answers = length entries /\
    exec o hist (RedirectWidget.redirect w)
    = ((found :: trc ++ zip_with (redirect_call job) entries answers
          ++ (if Py.nonempty (raised answers)
              then [Observe (Warn "Some procs failed to redirect.") tt]
              else []))%list,
       (Normal tt,
        RedirectWidget.with_model w
          ((fun item => if RedirectWidget.checked item
                        then RedirectWidget.mark_redirected item else item)
           <$> RedirectWidget.model w))).
Proof.
  intros job_name found Hsel Hname Hfound Hgroups Hpass.
  pose proof (exec_redirect_found o hist w job Hsel Hname Hfound) as Hrun.
  fold job_name found in Hrun. rewrite Hgroups in Hrun. cbn zeta in Hrun.
  rewrite (checks_pass_exec _ _ _ _ _ Hpass) in Hrun. cbn [fst snd] in Hrun.
  assert (Hentries : Forall (fun ri => is_Some (RedirectWidget.hosts w
                                                  !! RedirectWidget.text ri.2))
                            (RedirectWidget.selected_items w)).
  { apply get_selected_procs_by_alloc_from_entries in Hgroups.
    by rewrite Forall_fmap in Hgroups. }
  destruct (exec_redirect_items o (RedirectWidget.hosts w) job _ Hentries
              (hist ++ found :: trc)%list (RedirectWidget.model w) [])
    as (entries & answers & Hent & Hlen & Hloop).
  rewrite Hloop in Hrun. cbn [fst snd app] in Hrun.
  exists entries, answers. split; [exact Hent |]. split; [exact Hlen |].
  rewrite Hrun, mark_rows_selected. reflexivity.
Qed.

(** C5: when the checks of every group have passed, [redirect] calls
    [redirectToJob] once for every checked row, in order, on the host of
    the row's entry with the entry's procs and the job found, whatever the
    earlier calls answered; 'Some procs failed to redirect.' is shown,
    once, exactly when one of the calls raised, and [redirect] returns;
    afterwards every checked row has the icon ":retry.png" and is disabled,
    its name, check mark, columns and child rows being as before, the
    other rows are as before, and so are the controls and [__hosts]. *)
Theorem redirect_commits (o : Oracle) (hist : list Obs) (w : RedirectWidget.t) (job : Job)
    (groups : list (string * list Proc)) (trc : list Obs) :
  let job_name := RedirectControls.getJob (RedirectWidget.controls w) in
  let found := Observe (FindJob job_name) (Normal job) in
  let run := exec o hist (RedirectWidget.redirect w) in
  RedirectWidget.selected_items w <> [] ->
  job_name <> ""%string ->
  o hist _ (FindJob job_name) = Normal job ->
  RedirectWidget.get_selected_procs_by_alloc (RedirectWidget.hosts w)
    (RedirectWidget.selected_items w).*2 = Normal groups ->
  checks_pass o (job_show job) (hist ++ [found])%list groups trc ->
  exists (entries : list RedirectWidget.Entry) (answers : list (Outcome unit)),
    Forall2 (fun ri entry => RedirectWidget.hosts w !! RedirectWidget.text ri.2 = Some entry)
            (RedirectWidget.selected_items w) entries /\
    length answers = length entries /\
    run.1 = (found :: trc ++ zip_with (redirect_call job) entries answers
               ++ (if Py.nonempty (raised answers)
                   then [Observe (Warn "Some procs failed to redirect.") tt]
                   else []))%list /\
    run.2.1 = Normal tt /\
    RedirectWidget.controls run.2.2 = RedirectWidget.controls w /\
    RedirectWidget.hosts run.2.2 = RedirectWidget.hosts w /\
    Forall2 after_redirect (RedirectWidget.model w) (RedirectWidget.model run.2.2).
Proof.
  intros job_name found run Hsel Hname Hfound Hgroups Hpass.
  destruct (redirect_commits_run o hist w job groups trc Hsel Hname Hfound Hgroups Hpass)
    as (entries & answers & Hent & Hlen & Hrun).
  exists entries, answers. split; [exact Hent |]. split; [exact Hlen |].
  subst run. fold job_name found in Hrun. rewrite Hrun.
  cbn [fst snd RedirectWidget.with_model RedirectWidget.controls RedirectWidget.hosts
       RedirectWidget.model].
  split; [reflexivity |]. split; [reflexivity |]. split; [reflexivity |].
  split; [reflexivity |].
  apply Forall2_fmap_r, Forall_Forall2_diag, Forall_forall. intros item _.
  unfold after_redirect, compose. cbv beta.
  destruct (RedirectWidget.checked item) eqn:Hchecked; [| reflexivity].
  cbn [RedirectWidget.mark_redirected RedirectWidget.icon RedirectWidget.enabled
       RedirectWidget.text RedirectWidget.checked RedirectWidget.col_cores
       RedirectWidget.col_mem RedirectWidget.col_time RedirectWidget.children].
  by repeat split.
Qed.

(** ** update *)

Lemma Py_mem_spec (x : string) (l : list string) : Py.mem x l = true <-> x ∈ l.
Proof.
  unfold Py.mem. rewrite existsb_exists. split.
  - intros (y & Hin & Heq). apply String.eqb_eq in Heq as ->. by apply list_elem_of_In.
  - intros Hin. exists x. split; [by apply list_elem_of_In | apply String.eqb_refl].
Qed.

Lemma truthy_false (s : string) : Py.truthy s = false -> s = ""%string.
Proof.
  unfold Py.truthy. destruct (String.eqb_spec s ""); [done | discriminate].
Qed.

Lemma nonempty_false {A : Type} (l : list A) : Py.nonempty l = false -> l = [].
Proof. destruct l; [done | discriminate]. Qed.

Lemma int_times_app (tr1 tr2 : list Obs) :
  int_times (tr1 ++ tr2) = (int_times tr1 ++ int_times tr2)%list.
Proof. apply omap_app. Qed.

Lemma gathered_snoc (name : string) (log : list Gathered) (g : Gathered) :
  gathered name (log ++ [g])
  = (gathered name log ++ if decide (g_name g = name) then [(g_proc g, g_now g)] else [])%list.
Proof.
  unfold gathered. rewrite filter_app, fmap_app. f_equal.
  rewrite filter_cons, filter_nil. by destruct (decide (g_name g = name)).
Qed.

Lemma accumulated_cores_snoc (h : Host) (ps : list Proc) (p : Proc) :
  accumulated_cores h (ps ++ [p]) = (accumulated_cores h ps + reserved_cores p)%Q.
Proof. unfold accumulated_cores. by rewrite fmap_app, foldl_app. Qed.

Lemma foldr_add_snoc (xs : list Z) (x : Z) :
  foldr Z.add 0 (xs ++ [x]) = foldr Z.add 0 xs + x.
Proof. induction xs as [| y ys IH]; simpl; lia. Qed.

Lemma accumulated_mem_snoc (h : Host) (ps : list Proc) (p : Proc) :
  accumulated_mem h (ps ++ [p]) = accumulated_mem h ps + reserved_memory p.
Proof. unfold accumulated_mem. rewrite fmap_app. simpl. rewrite foldr_add_snoc. lia. Qed.

Lemma accumulated_time_snoc (gs : list (Proc * Z)) (p : Proc) (t : Z) :
  accumulated_time (gs ++ [(p, t)]) = accumulated_time gs + (t - dispatch_time p).
Proof. unfold accumulated_time. rewrite fmap_app. simpl. by rewrite foldr_add_snoc. Qed.

Lemma reaches_target_spec (c : RedirectControls.t) (e : RedirectWidget.Entry)
    (gs : list (Proc * Z)) :
  entry_totals e gs ->
  RedirectWidget.reaches_target c e = true <-> on_target c (RedirectWidget.e_host e) gs.
Proof.
  intros (_ & Hc & Hm & Ht). unfold RedirectWidget.reaches_target, on_target.
  rewrite !andb_true_iff, Py_le_spec, Z.leb_le, Z.ltb_lt, Hc, Hm, Ht. tauto.
Qed.

Lemma entry_totals_new (h : Host) : entry_totals (RedirectWidget.new_entry h) [].
Proof.
  unfold entry_totals, accumulated_mem. simpl. repeat split. lia.
Qed.

Lemma entry_totals_gather (e : RedirectWidget.Entry) (gs : list (Proc * Z))
    (proc : Proc) (now : Z) :
  entry_totals e gs ->
  entry_totals (RedirectWidget.gather e proc now) (gs ++ [(proc, now)]).
Proof.
  intros (Hp & Hc & Hm & Ht). unfold entry_totals. simpl.
  rewrite fmap_app. simpl.
  rewrite accumulated_cores_snoc, accumulated_mem_snoc, accumulated_time_snoc.
  by rewrite Hp, Hc, Hm, Ht.
Qed.

Lemma not_on_target_before_snoc (c : RedirectControls.t) (h : Host)
    (gs : list (Proc * Z)) (g : Proc * Z) :
  not_on_target_before c h gs ->
  (gs <> [] -> ~ on_target c h gs) ->
  not_on_target_before c h (gs ++ [g]).
Proof.
  intros Hbefore Hlast k Hk. rewrite length_app in Hk. simpl in Hk.
  destruct (decide (k < length gs)%nat) as [Hlt | Hge].
  - rewrite take_app_le by lia. apply Hbefore. lia.
  - assert (k = length gs) as -> by lia.
    rewrite take_app_length. apply Hlast. destruct gs; [simpl in Hk; lia | done].
Qed.

Lemma Forall2_impl_elem {A B : Type} (P Q : A -> B -> Prop) (l : list A) (k : list B) :
  Forall2 P l k -> (forall x y, y ∈ k -> P x y -> Q x y) -> Forall2 Q l k.
Proof.
  induction 1 as [| x y l k Hxy _ IH]; intros Himpl; constructor.
  - apply Himpl; [apply list_elem_of_here | exact Hxy].
  - apply IH. intros x' y' Hin. apply Himpl. by apply list_elem_of_further.
Qed.

Section UpdateInvariant.
Variable re_match : string -> string -> bool.
Variables (o : Oracle) (c : RedirectControls.t) (listing : list Proc).

Lemma update_inv_observe (tr tr' : list Obs) (st : RedirectWidget.LoopState)
    (log : list Gathered) (names : list string) :
  int_times tr' = [] ->
  update_inv re_match o c listing tr st log names ->
  update_inv re_match o c listing (tr ++ tr') st log names.
Proof.
  intros Htr' [H1 H2 H3 H4 H5 H6 H7]. split; try assumption.
  by rewrite int_times_app, Htr', app_nil_r.
Qed.

Lemma update_inv_names_in_hosts (tr : list Obs) (st : RedirectWidget.LoopState)
    (log : list Gathered) (names : list string) (name : string) :
  update_inv re_match o c listing tr st log names -> name ∈ names ->
  exists e, RedirectWidget.l_hosts st !! name = Some e /\ RedirectWidget.e_ok e = true.
Proof.
  intros Hinv Hin.
  destruct (proj1 (list_elem_of_lookup _ _) Hin) as [i Hi].
  destruct (Forall2_lookup_r _ _ _ _ _ (inv_rows _ _ _ _ _ _ _ _ Hinv) Hi)
    as (item & _ & e & He & _).
  exists e. split; [exact He |].
  by apply (inv_entries _ _ _ _ _ _ _ _ Hinv name e He).
Qed.

(** Gathering a proc into an entry that is not yet on target. *)
Lemma update_inv_gather (tr tr' : list Obs) (st : RedirectWidget.LoopState)
    (log : list Gathered) (names : list string)
    (proc : Proc) (host : RedirectWidget.Entry) (now : Z) :
  let name := Py.split_head "/" (proc_name proc) in
  let gs := gathered name log in
  let host1 := RedirectWidget.gather host proc now in
  update_inv re_match o c listing tr st log names ->
  int_times tr' = [now] ->
  proc ∈ listing -> admitted re_match c proc ->
  RedirectWidget.l_ok st < RedirectControls.getLimit c ->
  name ∉ names ->
  RedirectWidget.e_ok host = false ->
  entry_totals host gs ->
  not_on_target_before c (RedirectWidget.e_host host) gs ->
  (gs <> [] -> ~ on_target c (RedirectWidget.e_host host) gs) ->
  (exists h, RedirectWidget.e_host host = o h _ (FindHost name)) ->
  update_inv re_match o c listing (tr ++ tr')
    (if RedirectWidget.reaches_target c host1 then
       {| RedirectWidget.l_hosts :=
            <[name := RedirectWidget.set_ok host1]> (RedirectWidget.l_hosts st);
          RedirectWidget.l_ok := RedirectWidget.l_ok st + 1;
          RedirectWidget.l_model :=
            (RedirectWidget.l_model st ++ [RedirectWidget.addHost host1])%list |}
     else
       {| RedirectWidget.l_hosts := <[name := host1]> (RedirectWidget.l_hosts st);
          RedirectWidget.l_ok := RedirectWidget.l_ok st;
          RedirectWidget.l_model := RedirectWidget.l_model st |})
    (log ++ [{| g_name := name; g_proc := proc; g_now := now |}])
    (if RedirectWidget.reaches_target c host1 then names ++ [name] else names)%list.
Proof.
  intros name gs host1 Hinv Htr' Hlisted Hadm Hlim Hfresh Hnotok Htot Hbefore Hlast Hhost.
  set (g := {| g_name := name; g_proc := proc; g_now := now |}).
  assert (Htot1 : entry_totals host1 (gs ++ [(proc, now)])%list)
    by (by apply entry_totals_gather).
  assert (Hbefore1 : not_on_target_before c (RedirectWidget.e_host host)
                       (gs ++ [(proc, now)])%list)
    by (by apply not_on_target_before_snoc).
  assert (Hgs1 : gathered name (log ++ [g]) = (gs ++ [(proc, now)])%list).
  { rewrite gathered_snoc. simpl. by rewrite decide_True. }
  assert (Hgs_other : forall name', name' <> name ->
                                    gathered name' (log ++ [g]) = gathered name' log).
  { intros name' Hne. rewrite gathered_snoc. simpl.
    rewrite decide_False by congruence. by rewrite app_nil_r. }
  pose proof (reaches_target_spec c host1 _ Htot1) as Hreach.
  change (RedirectWidget.e_host host1) with (RedirectWidget.e_host host) in Hreach.
  assert (Hnonempty : (gs ++ [(proc, now)])%list <> []) by (by destruct gs).
  destruct Hinv as [H1 H2 H3 H4 H5 H6 H7].
  assert (Htimes : g_now <$> (log ++ [g]) = int_times (tr ++ tr')).
  { by rewrite fmap_app, int_times_app, H1, Htr'. }
  assert (Hlog : forall e1,
             Forall (fun g => g_proc g ∈ listing /\ admitted re_match c (g_proc g) /\
                        g_name g = Py.split_head "/" (proc_name (g_proc g)) /\
                        is_Some (<[name := e1]> (RedirectWidget.l_hosts st) !! g_name g))
                    (log ++ [g])).
  { intros e1. apply Forall_app. split.
    - eapply Forall_impl; [exact H2 |]. intros g' (Ha & Hb & Hc & Hd).
      split; [exact Ha |]. split; [exact Hb |]. split; [exact Hc |].
      rewrite lookup_insert_is_Some.
      destruct (decide (name = g_name g')); [by left | by right].
    - constructor; [| constructor]. simpl.
      split; [exact Hlisted |]. split; [exact Hadm |]. split; [reflexivity |].
      rewrite lookup_insert_eq. by eexists. }
  assert (Hrows : forall e1,
             Forall2 (fun item name0 =>
                        exists e, <[name := e1]> (RedirectWidget.l_hosts st) !! name0 = Some e /\
                                  item = RedirectWidget.addHost e)
                     (RedirectWidget.l_model st) names).
  { intros e1. eapply Forall2_impl_elem; [exact H4 |].
    intros item name0 Hin (e & He & Hitem). exists e. split; [| exact Hitem].
    rewrite lookup_insert_ne; [exact He |]. intros ->. contradiction. }
  destruct (RedirectWidget.reaches_target c host1) eqn:Hreached.
  - split; simpl.
    + exact Htimes.
    + apply Hlog.
    + intros name' e' He'. destruct (decide (name' = name)) as [-> | Hne].
      * rewrite lookup_insert_eq in He'. injection He' as <-. rewrite Hgs1.
        split; [exact Hnonempty |]. split; [exact Htot1 |].
        split; [exact Hbefore1 |]. simpl.
        split; [split; [intros _; by apply Hreach | done] |].
        split; [| exact Hhost].
        split; [intros _; apply elem_of_app; right; apply list_elem_of_here | done].
      * rewrite lookup_insert_ne in He' by congruence. rewrite (Hgs_other _ Hne).
        destruct (H3 _ _ He') as (Ha & Hb & Hc & Hd & Hn & Hf).
        split; [exact Ha |]. split; [exact Hb |]. split; [exact Hc |].
        split; [exact Hd |]. split; [| exact Hf].
        rewrite Hn, elem_of_app, list_elem_of_singleton. tauto.
    + apply Forall2_app; [apply Hrows |].
      constructor; [| constructor]. eexists. split; [apply lookup_insert_eq | reflexivity].
    + apply NoDup_app. split; [exact H5 |]. split; [| apply NoDup_singleton].
      intros x Hx Hx'. apply list_elem_of_singleton in Hx' as ->. contradiction.
    + rewrite length_app. simpl. lia.
    + lia.
  - split; simpl.
    + exact Htimes.
    + apply Hlog.
    + intros name' e' He'. destruct (decide (name' = name)) as [-> | Hne].
      * rewrite lookup_insert_eq in He'. injection He' as <-. rewrite Hgs1.
        split; [exact Hnonempty |]. split; [exact Htot1 |].
        split; [exact Hbefore1 |]. simpl.
        assert (Hno : ~ on_target c (RedirectWidget.e_host host) (gs ++ [(proc, now)])%list).
        { intros Hon. apply Hreach in Hon. congruence. }
        rewrite Hnotok.
        split; [split; [discriminate | intros Hon; contradiction] |].
        split; [split; [discriminate | intros Hin; contradiction] | exact Hhost].
      * rewrite lookup_insert_ne in He' by congruence. rewrite (Hgs_other _ Hne).
        exact (H3 _ _ He').
    + apply Hrows.
    + exact H5.
    + exact H6.
    + exact H7.
Qed.
(** The loop keeps the invariant, whatever the environment answers. *)
Lemma update_loop_inv (procs : list Proc) :
  forall (hist tr : list Obs) (st : RedirectWidget.LoopState)
         (log : list Gathered) (names : list string),
    (forall p, p ∈ procs -> p ∈ listing) ->
    update_inv re_match o c listing tr st log names ->
    let run := exec o hist
                 (RedirectWidget.update_loop re_match c
                    (RedirectControls.getRequiredService c)
                    (RedirectControls.getIncludedGroups c)
                    (RedirectControls.getJobNameExcludeRegex c) procs st) in
    exists (log' : list Gathered) (names' : list string),
      update_inv re_match o c listing (tr ++ run.1) run.2 log' names'.
Proof.
  induction procs as [| proc rest IH]; intros hist tr st log names Hsub Hinv run.
  { exists log, names. subst run. simpl. by rewrite app_nil_r. }
  assert (Hrest : forall p, p ∈ rest -> p ∈ listing).
  { intros p Hp. apply Hsub. by apply list_elem_of_further. }
  assert (Hlisted : proc ∈ listing) by (apply Hsub, list_elem_of_here).
  (* after any observations without a clock reading, the rest of the loop *)
  assert (Hnext : forall (h' : list Obs) (tr' : list Obs) st' log' names',
             update_inv re_match o c listing (tr ++ tr') st' log' names' ->
             exists log'' names'',
               update_inv re_match o c listing
                 (tr ++ tr' ++
                    (exec o h' (RedirectWidget.update_loop re_match c
                                  (RedirectControls.getRequiredService c)
                                  (RedirectControls.getIncludedGroups c)
                                  (RedirectControls.getJobNameExcludeRegex c) rest st')).1)
                 (exec o h' (RedirectWidget.update_loop re_match c
                               (RedirectControls.getRequiredService c)
                               (RedirectControls.getIncludedGroups c)
                               (RedirectControls.getJobNameExcludeRegex c) rest st')).2
                 log'' names'').
  { intros h' tr' st' log' names' Hinv'. rewrite app_assoc. by eapply IH. }
  subst run. destruct st as [hosts ok model].
  cbn [RedirectWidget.update_loop pbind trigger exec fst snd].
  set (canceled := o hist bool WasCanceled).
  set (h1 := (hist ++ [Observe WasCanceled canceled])%list).
  assert (Hinv1 : update_inv re_match o c listing (tr ++ [Observe WasCanceled canceled])
                    {| RedirectWidget.l_hosts := hosts; RedirectWidget.l_ok := ok;
                       RedirectWidget.l_model := model |} log names)
    by (by apply update_inv_observe).
  destruct canceled.
  { exists log, names. exact Hinv1. }
  destruct (negb (String.eqb (proc_show_name proc)
                    (show_name (RedirectControls.getShow c)))) eqn:Hshow.
  { exact (Hnext h1 [_] _ _ _ Hinv1). }
  destruct (String.eqb (proc_job_name proc) (RedirectControls.getJob c)) eqn:Hjob.
  { exact (Hnext h1 [_] _ _ _ Hinv1). }
  destruct (Py.truthy (redirect_target proc)) eqn:Hred.
  { exact (Hnext h1 [_] _ _ _ Hinv1). }
  cbn [RedirectWidget.l_ok RedirectWidget.l_hosts RedirectWidget.l_model].
  destruct (RedirectControls.getLimit c <=? ok)%Z eqn:Hlim.
  { exists log, names. exact Hinv1. }
  destruct (Py.truthy (RedirectControls.getJobNameExcludeRegex c)
            && re_match (RedirectControls.getJobNameExcludeRegex c) (proc_job_name proc))
    eqn:Hre.
  { exact (Hnext h1 [_] _ _ _ Hinv1). }
  destruct (Py.truthy (RedirectControls.getRequiredService c)
            && negb (Py.mem (RedirectControls.getRequiredService c) (services proc)))
    eqn:Hsv.
  { exact (Hnext h1 [_] _ _ _ Hinv1). }
  destruct (Py.nonempty (RedirectControls.getIncludedGroups c)
            && negb (Py.mem (group_name proc) (RedirectControls.getIncludedGroups c)))
    eqn:Hgr.
  { exact (Hnext h1 [_] _ _ _ Hinv1). }
  assert (Hadm : admitted re_match c proc).
  { unfold admitted.
    apply negb_false_iff, String.eqb_eq in Hshow.
    apply String.eqb_neq in Hjob. apply truthy_false in Hred.
    split; [exact Hshow |]. split; [exact Hjob |]. split; [exact Hred |].
    split; [| split].
    - intros Hne. rewrite (truthy_true _ Hne) in Hre. exact Hre.
    - intros Hne. rewrite (truthy_true _ Hne) in Hsv.
      apply negb_false_iff in Hsv. by apply Py_mem_spec.
    - intros Hne. rewrite (nonempty_true _ Hne) in Hgr.
      apply negb_false_iff in Hgr. by apply Py_mem_spec. }
  apply Z.leb_gt in Hlim.
  set (name := Py.split_head "/" (proc_name proc)).
  destruct (hosts !! name) as [host |] eqn:Hlook.
  - cbn [pbind exec fst snd].
    destruct (inv_entries _ _ _ _ _ _ _ _ Hinv name host Hlook)
      as (Hgs & Htot & Hbefore & Hon & Hnames & Hhost).
    destruct (RedirectWidget.e_ok host) eqn:Hok.
    { exact (Hnext h1 [_] _ _ _ Hinv1). }
    cbn [pbind exec fst snd].
    set (now := o h1 Z IntTime).
    set (h2 := (h1 ++ [Observe IntTime now])%list).
    assert (Hgather := update_inv_gather tr [Observe WasCanceled false; Observe IntTime now]
                         _ log names proc host now Hinv eq_refl Hlisted Hadm Hlim).
    cbn zeta in Hgather. fold name in Hgather.
    specialize (Hgather ltac:(rewrite <- Hnames; congruence) Hok Htot Hbefore
                        ltac:(intros _; rewrite <- Hon; congruence) Hhost).
    cbn [RedirectWidget.l_ok RedirectWidget.l_hosts RedirectWidget.l_model] in Hgather.
    destruct (RedirectWidget.reaches_target c (RedirectWidget.gather host proc now));
      exact (Hnext h2 [_; _] _ _ _ Hgather).
  - cbn [pbind exec fst snd].
    set (cue_host := o h1 Host (FindHost name)).
    set (h2 := (h1 ++ [Observe (FindHost name) cue_host])%list).
    cbn [RedirectWidget.new_entry RedirectWidget.e_ok pbind exec fst snd].
    fold (RedirectWidget.new_entry cue_host).
    set (now := o h2 Z IntTime).
    set (h3 := (h2 ++ [Observe IntTime now])%list).
    rewrite !insert_insert_eq.
    assert (Hempty : gathered name log = []).
    { unfold gathered.
      destruct (filter (fun g => g_name g = name) log) as [| g gs] eqn:Hf; [reflexivity |].
      assert (Hg : g ∈ filter (fun g => g_name g = name) log)
        by (rewrite Hf; apply list_elem_of_here).
      apply list_elem_of_filter in Hg as [Hgname Hg].
      pose proof (inv_log _ _ _ _ _ _ _ _ Hinv) as Hlog. rewrite Forall_forall in Hlog.
      destruct (Hlog g Hg) as (_ & _ & _ & Hsome).
      simpl in Hsome. rewrite Hgname, Hlook in Hsome. by destruct Hsome. }
    assert (Hfresh : name ∉ names).
    { intros Hin. destruct (update_inv_names_in_hosts _ _ _ _ _ Hinv Hin) as (e & He & _).
      simpl in He. congruence. }
    assert (Hgather := update_inv_gather tr
                         [Observe WasCanceled false; Observe (FindHost name) cue_host;
                          Observe IntTime now]
                         _ log names proc (RedirectWidget.new_entry cue_host) now
                         Hinv eq_refl Hlisted Hadm Hlim).
    cbn zeta in Hgather. fold name in Hgather. rewrite Hempty in Hgather.
    specialize (Hgather Hfresh eq_refl (entry_totals_new cue_host)
                        ltac:(intros k Hk; simpl in Hk; lia)
                        ltac:(intros Hne; by destruct Hne)
                        ltac:(by exists h1)).
    cbn [RedirectWidget.l_ok RedirectWidget.l_hosts RedirectWidget.l_model] in Hgather.
    destruct (RedirectWidget.reaches_target c
                (RedirectWidget.gather (RedirectWidget.new_entry cue_host) proc now));
      exact (Hnext h3 [_; _; _] _ _ _ Hgather).
Qed.

End UpdateInvariant.

Lemma exec_update (re_match : string -> string -> bool) (o : Oracle) (hist : list Obs)
    (w : RedirectWidget.t) :
  exec o hist (RedirectWidget.update re_match w)
  = let c := RedirectWidget.controls w in
    let listing := o hist _ (listing_request c) in
    let looped := exec o (hist ++ [Observe (listing_request c) listing])%list
                    (RedirectWidget.update_loop re_match c
                       (RedirectControls.getRequiredService c)
                       (RedirectControls.getIncludedGroups c)
                       (RedirectControls.getJobNameExcludeRegex c) listing initial_state) in
    (Observe (listing_request c) listing :: looped.1,
     {| RedirectWidget.controls := c;
        RedirectWidget.hosts := RedirectWidget.l_hosts looped.2;
        RedirectWidget.model := RedirectWidget.l_model looped.2 |}).
Proof.
  unfold RedirectWidget.update. cbn [pbind trigger exec].
  fold (listing_request (RedirectWidget.controls w)). fold initial_state.
  rewrite exec_pbind. cbn zeta. cbn [exec fst snd]. by rewrite app_nil_r.
Qed.

(** The invariant holds when [update] returns. *)
Lemma update_inv_final (re_match : string -> string -> bool) (o : Oracle)
    (hist : list Obs) (w : RedirectWidget.t) :
  exists (log : list Gathered) (names : list string),
    update_inv re_match o (RedirectWidget.controls w)
      (o hist _ (listing_request (RedirectWidget.controls w)))
      (exec o hist (RedirectWidget.update re_match w)).1
      {| RedirectWidget.l_hosts :=
           RedirectWidget.hosts (exec o hist (RedirectWidget.update re_match w)).2;
         RedirectWidget.l_ok := Z.of_nat (length names);
         RedirectWidget.l_model :=
           RedirectWidget.model (exec o hist (RedirectWidget.update re_match w)).2 |}
      log names.
Proof.
  rewrite exec_update. cbn zeta.
  set (c := RedirectWidget.controls w).
  set (listing := o hist _ (listing_request c)).
  cbn [fst snd RedirectWidget.hosts RedirectWidget.model].
  assert (Hinit : update_inv re_match o c listing [Observe (listing_request c) listing]
                    initial_state [] []).
  { split; simpl;
      [reflexivity | constructor | intros name e He; by rewrite lookup_empty in He
      | constructor | constructor | reflexivity | lia]. }
  destruct (update_loop_inv re_match o c listing listing
              (hist ++ [Observe (listing_request c) listing])%list _ _ _ _
              (fun p Hp => Hp) Hinit)
    as (log & names & Hinv).
  cbn zeta in Hinv. exists log, names.
  rewrite <- (inv_ok _ _ _ _ _ _ _ _ Hinv).
  by destruct (exec o _ (RedirectWidget.update_loop _ _ _ _ _ _ _)).2.
Qed.

Lemma update_loop_no_getProcs (re_match : string -> string -> bool) (c : RedirectControls.t)
    (sf : string) (gf : list string) (jr : string) (procs : list Proc) :
  forall st,
    requests_only (fun X e => getProcs_request e = false)
      (RedirectWidget.update_loop re_match c sf gf jr procs st).
Proof.
  induction procs as [| proc rest IH]; intros st; [exact I |].
  cbn [RedirectWidget.update_loop pbind trigger requests_only].
  split; [reflexivity |]. intros canceled.
  repeat match goal with
         | |- requests_only _ (if ?b then _ else _) => destruct b; try apply IH; try exact I
         end.
  destruct (RedirectWidget.l_hosts st !! _) as [host |];
    cbn [pbind requests_only].
  - destruct (RedirectWidget.e_ok host); [apply IH |].
    cbn [pbind requests_only]. split; [reflexivity |]. intros now.
    destruct (RedirectWidget.reaches_target _ _); apply IH.
  - split; [reflexivity |]. intros cue_host.
    cbn [pbind requests_only RedirectWidget.new_entry RedirectWidget.e_ok].
    split; [reflexivity |]. intros now.
    destruct (RedirectWidget.reaches_target _ _); apply IH.
Qed.

(** Every proc of a host entry was listed and let through by the filters. *)
Lemma update_procs_admitted (re_match : string -> string -> bool) (o : Oracle)
    (hist : list Obs) (w : RedirectWidget.t)
    (name : string) (e : RedirectWidget.Entry) (proc : Proc) :
  let c := RedirectWidget.controls w in
  let listing := o hist _ (GetProcs [show_name (RedirectControls.getShow c)]
                             (RedirectControls.getAllocFilter_getSelected c)) in
  RedirectWidget.hosts (exec o hist (RedirectWidget.update re_match w)).2 !! name = Some e ->
  proc ∈ RedirectWidget.e_procs e ->
  proc ∈ listing /\ admitted re_match c proc.
Proof.
  intros c listing He Hproc.
  destruct (update_inv_final re_match o hist w) as (log & names & Hinv).
  destruct (inv_entries _ _ _ _ _ _ _ _ Hinv name e He) as (_ & (Hprocs & _) & _).
  rewrite Hprocs in Hproc. unfold gathered in Hproc.
  apply list_elem_of_fmap in Hproc as ([p t] & -> & Hpt).
  apply list_elem_of_fmap in Hpt as (g & Hg & Hin).
  apply list_elem_of_filter in Hin as [_ Hin].
  pose proof (inv_log _ _ _ _ _ _ _ _ Hinv) as Hlog. rewrite Forall_forall in Hlog.
  destruct (Hlog g Hin) as (Hlisted & Hadm & _).
  injection Hg as -> ->. split; [exact Hlisted | exact Hadm].
Qed.

(** C3: [update] asks the service once for the procs of the selected show
    and the selected allocations, and a proc is in the proc list of a host
    entry only if it was listed, its show name is the selected show's, its
    job name is not matched by the exclude regex when there is one, the
    required service when there is one is among its services, and its
    group is among the checked groups when there are any. *)
Theorem update_gathers_filtered (re_match : string -> string -> bool) (o : Oracle)
    (hist : list Obs) (w : RedirectWidget.t) :
  let c := RedirectWidget.controls w in
  let ask := GetProcs [show_name (RedirectControls.getShow c)]
               (RedirectControls.getAllocFilter_getSelected c) in
  let listing := o hist _ ask in
  let run := exec o hist (RedirectWidget.update re_match w) in
  (exists tr : list Obs,
     run.1 = Observe ask listing :: tr /\ Forall (fun ob => is_getProcs ob = false) tr) /\
  (forall (name : string) (e : RedirectWidget.Entry) (proc : Proc),
     RedirectWidget.hosts run.2 !! name = Some e ->
     proc ∈ RedirectWidget.e_procs e ->
     proc ∈ listing /\
     proc_show_name proc = show_name (RedirectControls.getShow c) /\
     (RedirectControls.getJobNameExcludeRegex c <> ""%string ->
        re_match (RedirectControls.getJobNameExcludeRegex c) (proc_job_name proc) = false) /\
     (RedirectControls.getRequiredService c <> ""%string ->
        RedirectControls.getRequiredService c ∈ services proc) /\
     (RedirectControls.getIncludedGroups c <> [] ->
        group_name proc ∈ RedirectControls.getIncludedGroups c)).
Proof.
  intros c ask listing run. split.
  - subst run. rewrite exec_update. cbn zeta. cbn [fst]. eexists.
    split; [reflexivity |].
    eapply Forall_impl;
      [apply requests_only_exec, update_loop_no_getProcs | by intros [X e x]].
  - intros name e proc He Hproc.
    destruct (update_procs_admitted re_match o hist w name e proc He Hproc)
      as (Hlisted & Hshow & _ & _ & Hre & Hsv & Hgr).
    by repeat split.
Qed.

(** C9: no proc in the proc list of a host entry has a redirect target
    set, and none runs on the job named in the job box. *)
Theorem update_skips_redirected_and_target (re_match : string -> string -> bool)
    (o : Oracle) (hist : list Obs) (w : RedirectWidget.t) :
  let run := exec o hist (RedirectWidget.update re_match w) in
  forall (name : string) (e : RedirectWidget.Entry) (proc : Proc),
    RedirectWidget.hosts run.2 !! name = Some e ->
    proc ∈ RedirectWidget.e_procs e ->
    redirect_target proc = ""%string /\
    proc_job_name proc <> RedirectControls.getJob (RedirectWidget.controls w).
Proof.
  intros run name e proc He Hproc.
  destruct (update_procs_admitted re_match o hist w name e proc He Hproc)
    as (_ & _ & Hjob & Hred & _).
  split; [exact Hred | exact Hjob].
Qed.

(** C8: with a limit that is not negative, [update] leaves at most that
    many rows in the model; the rows are those of distinct keys of the
    hosts dict, each the row [__addHost] makes of the entry as it is when
    [update] returns, and that entry is marked ok; when the service answers
    [findHost] with a host of the name asked for, the names shown in the
    rows are distinct. *)
Theorem update_rows_bounded_and_distinct (re_match : string -> string -> bool)
    (o : Oracle) (hist : list Obs) (w : RedirectWidget.t) :
  let c := RedirectWidget.controls w in
  let run := exec o hist (RedirectWidget.update re_match w) in
  0 <= RedirectControls.getLimit c ->
  (forall (h : list Obs) (name : string), host_name (o h _ (FindHost name)) = name) ->
  Z.of_nat (length (RedirectWidget.model run.2)) <= RedirectControls.getLimit c /\
  NoDup (RedirectWidget.text <$> RedirectWidget.model run.2) /\
  exists names : list string,
    NoDup names /\
    Forall2 (fun item name =>
               exists e, RedirectWidget.hosts run.2 !! name = Some e /\
                         RedirectWidget.e_ok e = true /\
                         item = RedirectWidget.addHost e)
            (RedirectWidget.model run.2) names.
Proof.
  intros c run Hlimit Hfaithful.
  destruct (update_inv_final re_match o hist w) as (log & names & Hinv).
  fold run c in Hinv.
  destruct Hinv as [_ _ Hentries Hrows Hnames _ Hbound].
  cbn [RedirectWidget.l_hosts RedirectWidget.l_ok RedirectWidget.l_model] in *.
  assert (Hrows' : Forall2 (fun item name =>
                              exists e, RedirectWidget.hosts run.2 !! name = Some e /\
                                        RedirectWidget.e_ok e = true /\
                                        item = RedirectWidget.addHost e)
                           (RedirectWidget.model run.2) names).
  { eapply Forall2_impl_elem; [exact Hrows |].
    intros item name Hin (e & He & Hitem). exists e. split; [exact He |].
    split; [| exact Hitem]. by apply (Hentries name e He). }
  assert (Htexts : RedirectWidget.text <$> RedirectWidget.model run.2 = names).
  { assert (Hhost : forall name e,
               RedirectWidget.hosts run.2 !! name = Some e ->
               host_name (RedirectWidget.e_host e) = name).
    { intros name e He.
      destruct (Hentries name e He) as (_ & _ & _ & _ & _ & h & ->). apply Hfaithful. }
    clear - Hrows' Hhost.
    induction Hrows' as [| item name items names' (e & He & _ & ->) _ IH]; [reflexivity |].
    simpl. f_equal; [by apply Hhost | exact IH]. }
  split; [| split].
  - rewrite (Forall2_length _ _ _ Hrows). lia.
  - by rewrite Htexts.
  - exists names. split; [exact Hnames | exact Hrows'].
Qed.

(** C2, as the code has it: every host entry has gathered at least one
    proc; its cores are the integer part of the host's idle cores plus the
    reserved cores of the gathered procs, its memory the idle memory plus
    their reserved memory, its time the sum over them of the clock reading
    at gathering minus the dispatch time; the host has a row in the results
    exactly when these totals meet the three thresholds after the last
    gathered proc, and they met them after no earlier one; a host whose
    totals meet them after none of its procs has no row. *)
Theorem update_adds_host_on_target (re_match : string -> string -> bool)
    (o : Oracle) (hist : list Obs) (w : RedirectWidget.t) :
  let c := RedirectWidget.controls w in
  let run := exec o hist (RedirectWidget.update re_match w) in
  exists (log : list Gathered) (names : list string),
    g_now <$> log = int_times run.1 /\
    NoDup names /\
    Forall2 (fun item name =>
               exists e, RedirectWidget.hosts run.2 !! name = Some e /\
                         item = RedirectWidget.addHost e)
            (RedirectWidget.model run.2) names /\
    forall (name : string) (e : RedirectWidget.Entry),
      RedirectWidget.hosts run.2 !! name = Some e ->
      let gs := gathered name log in
      let h := RedirectWidget.e_host e in
      gs <> [] /\
      entry_totals e gs /\
      not_on_target_before c h gs /\
      (name ∈ names <-> on_target c h gs) /\
      (name ∉ names <->
         forall k : nat, (0 < k <= length gs)%nat -> ~ on_target c h (take k gs)).
Proof.
  intros c run.
  destruct (update_inv_final re_match o hist w) as (log & names & Hinv).
  fold run c in Hinv.
  destruct Hinv as [Htimes _ Hentries Hrows Hnames _ _].
  cbn [RedirectWidget.l_hosts RedirectWidget.l_ok RedirectWidget.l_model] in *.
  exists log, names. split; [exact Htimes |]. split; [exact Hnames |].
  split; [exact Hrows |].
  intros name e He. cbn zeta.
  set (gs := gathered name log). set (h := RedirectWidget.e_host e).
  destruct (Hentries name e He) as (Hgs & Htot & Hbefore & Hon & Hin & _).
  fold gs h in Hgs, Htot, Hbefore, Hon.
  split; [exact Hgs |]. split; [exact Htot |]. split; [exact Hbefore |].
  split; [by rewrite <- Hin |].
  rewrite <- Hin, Hon. split.
  - intros Hnot k Hk. destruct (decide (k = length gs)) as [-> | Hne].
    + by rewrite firstn_all.
    + apply Hbefore. lia.
  - intros Hnone Hon'. apply (Hnone (length gs)).
    + destruct gs; [done | simpl; lia].
    + by rewrite firstn_all.
Qed.

(** X2: with items selected and no job name, [redirect] shows 'You must
    have a job name selected.', asks the service nothing and leaves the
    widget as it is. *)
Lemma redirect_without_job_name (o : Oracle) (hist : list Obs) (w : RedirectWidget.t) :
  RedirectWidget.selected_items w <> [] ->
  RedirectControls.getJob (RedirectWidget.controls w) = ""%string ->
  exec o hist (RedirectWidget.redirect w)
  = ([Observe (Warn "You must have a job name selected.") tt], (Normal tt, w)).
Proof.
  intros Hsel Hname. unfold RedirectWidget.redirect.
  rewrite (nonempty_true _ Hsel), Hname. cbn.
  by destruct (o hist unit _).
Qed.

(** With items selected, a job name, and [findJob] raising
    EntityNotFoundException, [redirect] raises AttributeError on the call
    of the undefined [__warn_and_stop]: nothing is shown to the user. *)
Lemma redirect_job_not_found (o : Oracle) (hist : list Obs) (w : RedirectWidget.t) :
  let find := FindJob (RedirectControls.getJob (RedirectWidget.controls w)) in
  RedirectWidget.selected_items w <> [] ->
  RedirectControls.getJob (RedirectWidget.controls w) <> ""%string ->
  o hist _ find = Raised EntityNotFoundException ->
  exec o hist (RedirectWidget.redirect w)
  = ([Observe find (Raised EntityNotFoundException)], (Raised AttributeError, w)).
Proof.
  intros find Hsel Hname Hfind. unfold RedirectWidget.redirect.
  rewrite (nonempty_true _ Hsel), (truthy_true _ Hname).
  cbn [negb pbind trigger exec]. fold find. rewrite Hfind. reflexivity.
Qed.

(** ** More on redirect *)

Lemma selected_items_unchecked (w : RedirectWidget.t) :
  Forall (fun item => RedirectWidget.checked item = false) (RedirectWidget.model w) ->
  RedirectWidget.selected_items w = [].
Proof.
  intros Hall.
  assert (Hrows : forall h : nat -> nat,
             List.filter (fun ri : nat * RedirectWidget.Item => RedirectWidget.checked ri.2)
               (imap (fun i x => (h i, x)) (RedirectWidget.model w)) = []).
  { induction Hall as [| item items Hitem _ IH]; intros h; [reflexivity |].
    cbn [imap List.filter snd]. rewrite Hitem. exact (IH (h ∘ S)). }
  exact (Hrows id).
Qed.

(** X1: when no row of the model is checked, [redirect] shows 'You have
    not selected anything to redirect.', asks the service nothing and
    leaves the widget as it is. *)
Theorem redirect_nothing_checked (o : Oracle) (hist : list Obs) (w : RedirectWidget.t) :
  Forall (fun item => RedirectWidget.checked item = false) (RedirectWidget.model w) ->
  exec o hist (RedirectWidget.redirect w)
  = ([Observe (Warn "You have not selected anything to redirect.") tt], (Normal tt, w)).
Proof.
  intros Hunchecked. unfold RedirectWidget.redirect.
  rewrite (selected_items_unchecked w Hunchecked). cbn.
  by destruct (o hist unit _).
Qed.

(** X3: when [findJob] raises, [redirect] shows nothing and calls nothing
    else: it raises AttributeError for an EntityNotFoundException, from
    the call of the undefined [__warn_and_stop], and the exception itself
    for any other; the widget is as before. *)
Theorem redirect_findJob_raises (o : Oracle) (hist : list Obs) (w : RedirectWidget.t)
    (e : exn) :
  let find := FindJob (RedirectControls.getJob (RedirectWidget.controls w)) in
  RedirectWidget.selected_items w <> [] ->
  RedirectControls.getJob (RedirectWidget.controls w) <> ""%string ->
  o hist _ find = Raised e ->
  exec o hist (RedirectWidget.redirect w)
  = ([Observe find (Raised e)],
     (Raised (if is_EntityNotFoundException e then AttributeError else e), w)).
Proof.
  intros find Hsel Hname Hfind. unfold RedirectWidget.redirect.
  rewrite (nonempty_true _ Hsel), (truthy_true _ Hname).
  cbn [negb pbind trigger exec]. fold find. rewrite Hfind.
  by destruct (is_EntityNotFoundException e).
Qed.

Lemma odict_get_set {V : Type} (k k' : string) (v : V) (d : list (string * V)) :
  RedirectWidget.odict_get k' (RedirectWidget.odict_set k v d)
  = if String.eqb k' k then Some v else RedirectWidget.odict_get k' d.
Proof.
  induction d as [| [k0 v0] d IH]; simpl.
  - by destruct (String.eqb k' k).
  - destruct (String.eqb_spec k k0) as [-> | Hne]; simpl.
    + by destruct (String.eqb k' k0).
    + destruct (String.eqb_spec k' k0) as [-> | Hne'].
      * destruct (String.eqb_spec k0 k); [congruence | reflexivity].
      * exact IH.
Qed.

Lemma odict_get_None {V : Type} (k : string) (d : list (string * V)) :
  RedirectWidget.odict_get k d = None <-> k ∉ d.*1.
Proof.
  induction d as [| [k0 v0] d IH]; simpl.
  - split; [intros _; apply not_elem_of_nil | done].
  - rewrite not_elem_of_cons.
    destruct (String.eqb_spec k k0) as [-> | Hne]; [split; [done | intros [? _]; done] |].
    rewrite IH. tauto.
Qed.

Lemma odict_set_new {V : Type} (k : string) (v : V) (d : list (string * V)) :
  k ∉ d.*1 -> RedirectWidget.odict_set k v d = (d ++ [(k, v)])%list.
Proof.
  induction d as [| [k0 v0] d IH]; simpl; [done |].
  rewrite not_elem_of_cons. intros [Hne Hnotin].
  destruct (String.eqb_spec k k0); [done |]. by rewrite IH.
Qed.

Lemma odict_set_known {V : Type} (k : string) (v : V) (d : list (string * V)) :
  k ∈ d.*1 -> (RedirectWidget.odict_set k v d).*1 = d.*1.
Proof.
  induction d as [| [k0 v0] d IH]; simpl; [intros H; by apply elem_of_nil in H |].
  rewrite elem_of_cons.
  destruct (String.eqb_spec k k0) as [-> | Hne]; [done |].
  intros [? | Hin]; [done |]. rewrite !fmap_cons. f_equal. by apply IH.
Qed.

Lemma odict_set_NoDup {V : Type} (k : string) (v : V) (d : list (string * V)) :
  NoDup d.*1 -> NoDup (RedirectWidget.odict_set k v d).*1.
Proof.
  intros Hd. destruct (decide (k ∈ d.*1)) as [Hin | Hnotin].
  - by rewrite odict_set_known.
  - rewrite odict_set_new, fmap_app by done. simpl.
    apply NoDup_app. split; [exact Hd |]. split; [| apply NoDup_singleton].
    intros x Hx Hx'. apply list_elem_of_singleton in Hx' as ->. contradiction.
Qed.

Lemma procs_for_alloc_cons (alloc : string) (e : RedirectWidget.Entry)
    (entries : list RedirectWidget.Entry) :
  procs_for_alloc alloc (e :: entries)
  = ((if decide (RedirectWidget.e_alloc e = alloc) then RedirectWidget.e_procs e else [])
       ++ procs_for_alloc alloc entries)%list.
Proof.
  unfold procs_for_alloc. rewrite filter_cons.
  by destruct (decide (RedirectWidget.e_alloc e = alloc)).
Qed.

Lemma get_selected_procs_by_alloc_from_spec (hosts : gmap string RedirectWidget.Entry)
    (selected : list RedirectWidget.Item) :
  forall acc groups : list (string * list Proc),
    RedirectWidget.get_selected_procs_by_alloc_from hosts selected acc = Normal groups ->
    NoDup acc.*1 ->
    NoDup groups.*1 /\
    forall alloc : string,
      RedirectWidget.odict_get alloc groups
      = match RedirectWidget.odict_get alloc acc with
        | Some ps => Some (ps ++ procs_for_alloc alloc (selected_entries hosts selected))%list
        | None =>
            if decide (alloc ∈ RedirectWidget.e_alloc <$> selected_entries hosts selected)
            then Some (procs_for_alloc alloc (selected_entries hosts selected))
            else None
        end.
Proof.
  induction selected as [| item rest IH]; intros acc groups Hrun Hacc.
  - simpl in Hrun. injection Hrun as <-. split; [exact Hacc |].
    intros alloc. change (selected_entries hosts []) with (@nil RedirectWidget.Entry).
    destruct (RedirectWidget.odict_get alloc acc) as [ps |].
    + unfold procs_for_alloc. rewrite filter_nil. simpl. by rewrite app_nil_r.
    + rewrite fmap_nil, decide_False; [done | apply not_elem_of_nil].
  - simpl in Hrun. unfold selected_entries. simpl.
    destruct (hosts !! RedirectWidget.text item) as [e |] eqn:He; [| discriminate].
    fold (selected_entries hosts rest).
    destruct (IH _ _ Hrun (odict_set_NoDup _ _ _ Hacc)) as [Hnodup Hget].
    split; [exact Hnodup |]. intros alloc. rewrite Hget, odict_get_set.
    rewrite procs_for_alloc_cons, fmap_cons.
    destruct (String.eqb_spec alloc (RedirectWidget.e_alloc e)) as [-> | Hne].
    + rewrite (decide_True (P := RedirectWidget.e_alloc e = RedirectWidget.e_alloc e))
        by done.
      destruct (RedirectWidget.odict_get (RedirectWidget.e_alloc e) acc) as [ps |]; simpl.
      * by rewrite <- app_assoc.
      * rewrite decide_True; [done | apply list_elem_of_here].
    + rewrite (decide_False (P := RedirectWidget.e_alloc e = alloc)) by congruence. simpl.
      destruct (RedirectWidget.odict_get alloc acc) as [ps |]; [done |].
      destruct (decide (alloc ∈ RedirectWidget.e_alloc <$> selected_entries hosts rest))
        as [Hin | Hnotin].
      * rewrite decide_True; [done | by apply list_elem_of_further].
      * rewrite decide_False; [done |]. rewrite not_elem_of_cons. by split.
Qed.

Lemma get_selected_procs_by_alloc_from_missing (hosts : gmap string RedirectWidget.Entry)
    (selected : list RedirectWidget.Item) :
  forall acc : list (string * list Proc),
    Exists (fun item => hosts !! RedirectWidget.text item = None) selected ->
    RedirectWidget.get_selected_procs_by_alloc_from hosts selected acc
    = Raised AttributeError.
Proof.
  induction selected as [| item rest IH]; intros acc Hex.
  - by apply Exists_nil in Hex.
  - simpl. destruct (hosts !! RedirectWidget.text item) as [e |] eqn:He; [| reflexivity].
    apply IH. apply Exists_cons in Hex as [Hex | Hex]; [congruence | exact Hex].
Qed.

(** X4: [__get_selected_procs_by_alloc] raises AttributeError exactly when
    a selected item has no entry in [__hosts]; otherwise no allocation is a
    key twice, the keys are the allocations of the entries of the selected
    items, and the procs under an allocation are those of its entries, in
    the order of the selection. *)
Theorem get_selected_procs_by_alloc_groups (hosts : gmap string RedirectWidget.Entry)
    (selected : list RedirectWidget.Item) :
  match RedirectWidget.get_selected_procs_by_alloc hosts selected with
  | Raised e =>
      e = AttributeError /\
      Exists (fun item => hosts !! RedirectWidget.text item = None) selected
  | Normal groups =>
      Forall (fun item => is_Some (hosts !! RedirectWidget.text item)) selected /\
      NoDup groups.*1 /\
      forall alloc : string,
        RedirectWidget.odict_get alloc groups
        = if decide (alloc ∈ RedirectWidget.e_alloc <$> selected_entries hosts selected)
          then Some (procs_for_alloc alloc (selected_entries hosts selected))
          else None
  end.
Proof.
  destruct (RedirectWidget.get_selected_procs_by_alloc hosts selected)
    as [groups | e] eqn:Hrun.
  - split; [exact (get_selected_procs_by_alloc_from_entries _ _ _ _ Hrun) |].
    destruct (get_selected_procs_by_alloc_from_spec hosts selected [] groups Hrun
                (NoDup_nil_2 (A := string))) as [Hnodup Hget].
    split; [exact Hnodup | exact Hget].
  - destruct (decide (Forall (fun item => is_Some (hosts !! RedirectWidget.text item))
                             selected)) as [Hall | Hnot].
    + exfalso. unfold RedirectWidget.get_selected_procs_by_alloc in Hrun.
      revert Hrun. generalize (@nil (string * list Proc)).
      induction Hall as [| item rest [entry He] _ IH]; intros acc Hrun; simpl in Hrun;
        [discriminate |].
      rewrite He in Hrun. by eapply IH.
    + apply not_Forall_Exists in Hnot; [| intros item; apply _].
      assert (Hex : Exists (fun item => hosts !! RedirectWidget.text item = None) selected).
      { eapply Exists_impl; [exact Hnot |]. intros item Hitem. simpl in Hitem.
        destruct (hosts !! RedirectWidget.text item); [| done].
        exfalso. apply Hitem. by eexists. }
      split; [| exact Hex].
      unfold RedirectWidget.get_selected_procs_by_alloc in Hrun.
      rewrite (get_selected_procs_by_alloc_from_missing _ _ _ Hex) in Hrun. congruence.
Qed.

(** X5: with the target job found, a checked row whose name is no key of
    [__hosts] makes [redirect] raise AttributeError before any check: only
    the [findJob] is observed and the widget is as before. *)
Theorem redirect_row_without_entry (o : Oracle) (hist : list Obs) (w : RedirectWidget.t)
    (job : Job) :
  let find := FindJob (RedirectControls.getJob (RedirectWidget.controls w)) in
  RedirectControls.getJob (RedirectWidget.controls w) <> ""%string ->
  o hist _ find = Normal job ->
  Exists (fun ri => RedirectWidget.hosts w !! RedirectWidget.text ri.2 = None)
         (RedirectWidget.selected_items w) ->
  exec o hist (RedirectWidget.redirect w)
  = ([Observe find (Normal job)], (Raised AttributeError, w)).
Proof.
  intros find Hname Hfind Hex.
  assert (Hsel : RedirectWidget.selected_items w <> []).
  { intros Hnil. rewrite Hnil in Hex. by apply Exists_nil in Hex. }
  rewrite (exec_redirect_found o hist w job Hsel Hname Hfind).
  unfold RedirectWidget.get_selected_procs_by_alloc.
  rewrite get_selected_procs_by_alloc_from_missing; [reflexivity |].
  apply Exists_fmap. exact Hex.
Qed.

(** What [rstrip] leaves does not end in a stripped character. *)
Lemma rstrip_not_ending (chars s : string) :
  forall (stem : string) (c : ascii),
    Py.rstrip chars s = (stem ++ String c "")%string -> Py.has_char c chars = false.
Proof.
  induction s as [| d r IH]; intros stem c Hs; simpl in Hs.
  - destruct stem; discriminate.
  - destruct (Py.rstrip chars r) as [| x y] eqn:Hr.
    + destruct (Py.has_char d chars) eqn:Hd.
      * destruct stem; discriminate.
      * destruct stem as [| p stem]; simpl in Hs.
        -- injection Hs as <-. exact Hd.
        -- injection Hs as _ Hs. destruct stem; discriminate.
    + destruct stem as [| p stem]; simpl in Hs; [discriminate |].
      injection Hs as _ Hs. by apply (IH stem).
Qed.

Lemma filter_all_false {A : Type} (f : A -> bool) (l : list A) :
  (forall x, f x = false) -> List.filter f l = [].
Proof.
  intros Hf. induction l as [| x l IH]; [reflexivity |]. simpl. by rewrite Hf.
Qed.

(** X7: for an allocation whose name ends in a character of ".<show>",
    [rstrip] strips that character from every subscription name, so
    [show_subs.get(alloc)] finds nothing whatever subscriptions the show
    has: with a threshold that is not negative [__is_burst_safe] raises
    AttributeError after asking for the subscriptions. *)
Theorem is_burst_safe_alloc_ends_in_show_char (o : Oracle) (hist : list Obs)
    (stem : string) (c : ascii) (procs : list Proc) (show : string) :
  let alloc := (stem ++ String c "")%string in
  let cfg := o hist _ GetResourceConfig in
  let wc_ok := default 100%Q (wasted_cores_threshold cfg) in
  let h1 := (hist ++ [Observe GetResourceConfig cfg])%list in
  let show_obj := o h1 _ (FindShow show) in
  let h2 := (h1 ++ [Observe (FindShow show) show_obj])%list in
  let subs := o h2 _ (GetSubscriptions show_obj) in
  Py.has_char c ("." ++ show)%string = true ->
  ~ (wc_ok < 0)%Q ->
  exec o hist (RedirectWidget.is_burst_safe alloc procs show)
  = ([Observe GetResourceConfig cfg; Observe (FindShow show) show_obj;
      Observe (GetSubscriptions show_obj) subs], Raised AttributeError).
Proof.
  intros alloc cfg wc_ok h1 show_obj h2 subs Hc Hwc.
  apply is_burst_safe_without_subscription; [exact Hwc |].
  fold cfg h1 show_obj h2 subs.
  unfold subscription_for. rewrite filter_all_false; [reflexivity |].
  intros s. unfold matches_alloc.
  destruct (String.eqb_spec (Py.rstrip ("." ++ show)%string (sub_name s)) alloc)
    as [Heq | _]; [| apply andb_false_r].
  apply rstrip_not_ending in Heq. congruence.
Qed.

(** ** What redirect leaves as it is *)

Lemma always_exec {R : Type} (P : R -> Prop) (o : Oracle) (p : Prog R) (hist : list Obs) :
  always P p -> P (exec o hist p).2.
Proof.
  revert hist. induction p as [r | X e k IH]; intros hist Hp; simpl; [exact Hp |].
  apply IH, Hp.
Qed.

Lemma always_pbind {A B : Type} (P : B -> Prop) (p : Prog A) (f : A -> Prog B) :
  always (fun a => always P (f a)) p -> always P (pbind p f).
Proof.
  induction p as [a | X e k IH]; simpl; intros Hp; [exact Hp |].
  intros x. apply IH, Hp.
Qed.

Lemma always_any {R : Type} (P : R -> Prop) (p : Prog R) :
  (forall r, P r) -> always P p.
Proof.
  intros HP. induction p as [r | X e k IH]; simpl; [apply HP | exact IH].
Qed.

Lemma same_row_mark (a b : RedirectWidget.Item) :
  same_row a b -> same_row a (RedirectWidget.mark_redirected b).
Proof. intros H. exact H. Qed.

Lemma redirect_items_same_rows (hosts : gmap string RedirectWidget.Entry) (job : Job)
    (selected : list (nat * RedirectWidget.Item)) :
  forall (model0 model : list RedirectWidget.Item) (errors : list exn),
    Forall2 same_row model0 model ->
    always (fun res => Forall2 same_row model0 res.2)
           (RedirectWidget.redirect_items hosts job selected model errors).
Proof.
  induction selected as [| [row item] rest IH]; intros model0 model errors Hsame.
  - exact Hsame.
  - cbn [RedirectWidget.redirect_items].
    destruct (hosts !! RedirectWidget.text item) as [entry |]; [| exact Hsame].
    cbn [pbind trigger always]. intros answer. apply IH.
    apply Forall2_alter_r; [exact Hsame |].
    intros x y _ _. apply same_row_mark.
Qed.

Lemma Forall2_same_row_refl (model : list RedirectWidget.Item) :
  Forall2 same_row model model.
Proof. apply Forall_Forall2_diag, Forall_forall. by intros item _. Qed.

(** The checked rows of two models with the same rows. *)
Lemma same_rows_selected (model model' : list RedirectWidget.Item) :
  Forall2 same_row model model' ->
  forall h : nat -> nat,
    Forall2 (fun ri rj => ri.1 = rj.1 /\ RedirectWidget.text ri.2 = RedirectWidget.text rj.2)
      (List.filter (fun ri : nat * RedirectWidget.Item => RedirectWidget.checked ri.2)
                   (imap (fun i x => (h i, x)) model))
      (List.filter (fun ri : nat * RedirectWidget.Item => RedirectWidget.checked ri.2)
                   (imap (fun i x => (h i, x)) model')).
Proof.
  induction 1 as [| a b l k (Htext & Hchecked & _) _ IH]; intros h; [constructor |].
  cbn [imap List.filter snd]. rewrite <- Hchecked.
  destruct (RedirectWidget.checked a); [constructor; [by split |] |]; exact (IH (h ∘ S)).
Qed.

Lemma get_selected_procs_by_alloc_from_texts (hosts : gmap string RedirectWidget.Entry)
    (items items' : list RedirectWidget.Item) :
  Forall2 (fun a b => RedirectWidget.text a = RedirectWidget.text b) items items' ->
  forall acc,
    RedirectWidget.get_selected_procs_by_alloc_from hosts items acc
    = RedirectWidget.get_selected_procs_by_alloc_from hosts items' acc.
Proof.
  induction 1 as [| a b l k Htext _ IH]; intros acc; [reflexivity |].
  simpl. rewrite <- Htext. destruct (hosts !! RedirectWidget.text a); [apply IH | reflexivity].
Qed.

Lemma redirect_same_rows (w : RedirectWidget.t) :
  always (fun res => RedirectWidget.controls res.2 = RedirectWidget.controls w /\
                     RedirectWidget.hosts res.2 = RedirectWidget.hosts w /\
                     Forall2 same_row (RedirectWidget.model w) (RedirectWidget.model res.2))
         (RedirectWidget.redirect w).
Proof.
  assert (Hsame : forall r : Outcome unit,
             RedirectWidget.controls (r, w).2 = RedirectWidget.controls w /\
             RedirectWidget.hosts (r, w).2 = RedirectWidget.hosts w /\
             Forall2 same_row (RedirectWidget.model w) (RedirectWidget.model (r, w).2)).
  { intros r. split; [reflexivity |]. split; [reflexivity | apply Forall2_same_row_refl]. }
  unfold RedirectWidget.redirect.
  destruct (negb (Py.nonempty (RedirectWidget.selected_items w))).
  { cbn [RedirectWidget.warn pbind trigger always]. intros _. apply Hsame. }
  destruct (negb (Py.truthy (RedirectControls.getJob (RedirectWidget.controls w)))).
  { cbn [RedirectWidget.warn pbind trigger always]. intros _. apply Hsame. }
  cbn [pbind trigger always]. intros [job | e].
  - destruct (RedirectWidget.get_selected_procs_by_alloc _ _) as [groups | e];
      [| apply Hsame].
    apply always_pbind, always_any. intros [[|] | e]; [| apply Hsame | apply Hsame].
    apply always_pbind.
    generalize (redirect_items_same_rows (RedirectWidget.hosts w) job
                  (RedirectWidget.selected_items w) _ _ []
                  (Forall2_same_row_refl (RedirectWidget.model w))).
    generalize (RedirectWidget.redirect_items (RedirectWidget.hosts w) job
                  (RedirectWidget.selected_items w) (RedirectWidget.model w) []).
    intros p. induction p as [[r m] | X e k IH]; simpl.
    + intros Hm. destruct r as [errors | e].
      * destruct (Py.nonempty errors); simpl; [intros _ |]; by repeat split.
      * by repeat split.
    + intros Hk x. apply IH, Hk.
  - destruct (is_EntityNotFoundException e); apply Hsame.
Qed.

(** X8: whatever happens in [redirect], the controls and [__hosts] are as
    before and every row of the model keeps its name, its check mark and
    its child rows; so the same rows are selected afterwards and a second
    [redirect] groups the same procs. *)
Theorem redirect_keeps_selection (o : Oracle) (hist : list Obs) (w : RedirectWidget.t) :
  let w' := (exec o hist (RedirectWidget.redirect w)).2.2 in
  RedirectWidget.controls w' = RedirectWidget.controls w /\
  RedirectWidget.hosts w' = RedirectWidget.hosts w /\
  Forall2 same_row (RedirectWidget.model w) (RedirectWidget.model w') /\
  (RedirectWidget.selected_items w').*1 = (RedirectWidget.selected_items w).*1 /\
  RedirectWidget.get_selected_procs_by_alloc (RedirectWidget.hosts w')
    (RedirectWidget.selected_items w').*2
  = RedirectWidget.get_selected_procs_by_alloc (RedirectWidget.hosts w)
      (RedirectWidget.selected_items w).*2.
Proof.
  intros w'.
  destruct (always_exec _ o _ hist (redirect_same_rows w)) as (Hc & Hh & Hrows).
  fold w' in Hc, Hh, Hrows.
  split; [exact Hc |]. split; [exact Hh |]. split; [exact Hrows |].
  pose proof (same_rows_selected _ _ Hrows id) as Hsel.
  change (Forall2 (fun ri rj => ri.1 = rj.1 /\
                                RedirectWidget.text ri.2 = RedirectWidget.text rj.2)
                  (RedirectWidget.selected_items w) (RedirectWidget.selected_items w'))
    in Hsel.
  split.
  - induction Hsel as [| ri rj l k [Hrow _] _ IH]; [reflexivity |].
    rewrite !fmap_cons. by f_equal.
  - rewrite Hh. unfold RedirectWidget.get_selected_procs_by_alloc. symmetry.
    apply get_selected_procs_by_alloc_from_texts.
    apply Forall2_fmap. eapply Forall2_impl; [exact Hsel |]. by intros ri rj [_ Htext].
Qed.

(** ** More on update *)

Section UpdateLoopRule.
Variable re_match : string -> string -> bool.
Variable o : Oracle.
Variable c : RedirectControls.t.
Variable sf : string.
Variable gf : list string.
Variable jr : string.
(** [I] holds of the observations and the locals between rounds of the
    loop, [Q] when the loop is left. *)
Variable I Q : list Obs -> RedirectWidget.LoopState -> Prop.

Hypothesis Hdone : forall tr st, I tr st -> Q tr st.

Hypothesis Hcanceled :
  forall tr st, I tr st -> Q (tr ++ [Observe WasCanceled true])%list st.

Hypothesis Hgo :
  forall tr st, I tr st -> I (tr ++ [Observe WasCanceled false])%list st.

Hypothesis Hknown :
  forall tr st proc host now,
    let name := Py.split_head "/" (proc_name proc) in
    let host1 := RedirectWidget.gather host proc now in
    I tr st ->
    RedirectWidget.l_hosts st !! name = Some host ->
    RedirectWidget.e_ok host = false ->
    I (tr ++ [Observe IntTime now])%list
      (if RedirectWidget.reaches_target c host1
       then {| RedirectWidget.l_hosts :=
                 <[name := RedirectWidget.set_ok host1]> (RedirectWidget.l_hosts st);
               RedirectWidget.l_ok := RedirectWidget.l_ok st + 1;
               RedirectWidget.l_model :=
                 (RedirectWidget.l_model st ++ [RedirectWidget.addHost host1])%list |}
       else {| RedirectWidget.l_hosts := <[name := host1]> (RedirectWidget.l_hosts st);
               RedirectWidget.l_ok := RedirectWidget.l_ok st;
               RedirectWidget.l_model := RedirectWidget.l_model st |}).

Hypothesis Hnew :
  forall tr st proc cue_host now,
    let name := Py.split_head "/" (proc_name proc) in
    let host1 := RedirectWidget.gather (RedirectWidget.new_entry cue_host) proc now in
    I tr st ->
    RedirectWidget.l_hosts st !! name = None ->
    I (tr ++ [Observe (FindHost name) cue_host; Observe IntTime now])%list
      (if RedirectWidget.reaches_target c host1
       then {| RedirectWidget.l_hosts :=
                 <[name := RedirectWidget.set_ok host1]> (RedirectWidget.l_hosts st);
               RedirectWidget.l_ok := RedirectWidget.l_ok st + 1;
               RedirectWidget.l_model :=
                 (RedirectWidget.l_model st ++ [RedirectWidget.addHost host1])%list |}
       else {| RedirectWidget.l_hosts := <[name := host1]> (RedirectWidget.l_hosts st);
               RedirectWidget.l_ok := RedirectWidget.l_ok st;
               RedirectWidget.l_model := RedirectWidget.l_model st |}).

(** The rule of the loop of [update]. *)
Lemma update_loop_rule (procs : list Proc) :
  forall (hist tr : list Obs) (st : RedirectWidget.LoopState),
    I tr st ->
    Q (tr ++ (exec o hist (RedirectWidget.update_loop re_match c sf gf jr procs st)).1)%list
      (exec o hist (RedirectWidget.update_loop re_match c sf gf jr procs st)).2.
Proof.
  induction procs as [| proc rest IH]; intros hist tr st HI.
  { simpl. rewrite app_nil_r. by apply Hdone. }
  assert (Hnext : forall (h' tr' : list Obs) st',
             I (tr ++ tr')%list st' ->
             Q (tr ++ tr' ++
                  (exec o h' (RedirectWidget.update_loop re_match c sf gf jr rest st')).1)%list
               (exec o h' (RedirectWidget.update_loop re_match c sf gf jr rest st')).2).
  { intros h' tr' st' HI'. rewrite app_assoc. by apply IH. }
  destruct st as [hosts ok model].
  cbn [RedirectWidget.update_loop pbind trigger exec fst snd].
  set (canceled := o hist bool WasCanceled).
  set (h1 := (hist ++ [Observe WasCanceled canceled])%list).
  destruct canceled.
  { exact (Hcanceled _ _ HI). }
  pose proof (Hgo _ _ HI) as HI1.
  destruct (negb (String.eqb (proc_show_name proc)
                    (show_name (RedirectControls.getShow c)))).
  { exact (Hnext h1 [_] _ HI1). }
  destruct (String.eqb (proc_job_name proc) (RedirectControls.getJob c)).
  { exact (Hnext h1 [_] _ HI1). }
  destruct (Py.truthy (redirect_target proc)).
  { exact (Hnext h1 [_] _ HI1). }
  cbn [RedirectWidget.l_ok RedirectWidget.l_hosts RedirectWidget.l_model].
  destruct (RedirectControls.getLimit c <=? ok)%Z.
  { exact (Hdone _ _ HI1). }
  destruct (Py.truthy jr && re_match jr (proc_job_name proc)).
  { exact (Hnext h1 [_] _ HI1). }
  destruct (Py.truthy sf && negb (Py.mem sf (services proc))).
  { exact (Hnext h1 [_] _ HI1). }
  destruct (Py.nonempty gf && negb (Py.mem (group_name proc) gf)).
  { exact (Hnext h1 [_] _ HI1). }
  set (name := Py.split_head "/" (proc_name proc)).
  destruct (hosts !! name) as [host |] eqn:Hlook.
  - cbn [pbind exec fst snd].
    destruct (RedirectWidget.e_ok host) eqn:Hok.
    { exact (Hnext h1 [_] _ HI1). }
    cbn [pbind exec fst snd].
    set (now := o h1 Z IntTime).
    set (h2 := (h1 ++ [Observe IntTime now])%list).
    pose proof (Hknown _ _ proc host now HI1 Hlook Hok) as Hstep.
    cbn zeta in Hstep.
    cbn [RedirectWidget.l_ok RedirectWidget.l_hosts RedirectWidget.l_model] in Hstep.
    fold name in Hstep. rewrite <- app_assoc in Hstep.
    destruct (RedirectWidget.reaches_target c (RedirectWidget.gather host proc now));
      exact (Hnext h2 [_; _] _ Hstep).
  - cbn [pbind exec fst snd].
    set (cue_host := o h1 Host (FindHost name)).
    set (h2 := (h1 ++ [Observe (FindHost name) cue_host])%list).
    cbn [RedirectWidget.new_entry RedirectWidget.e_ok pbind exec fst snd].
    fold (RedirectWidget.new_entry cue_host).
    set (now := o h2 Z IntTime).
    set (h3 := (h2 ++ [Observe IntTime now])%list).
    pose proof (Hnew _ _ proc cue_host now HI1 Hlook) as Hstep.
    cbn zeta in Hstep.
    cbn [RedirectWidget.l_ok RedirectWidget.l_hosts RedirectWidget.l_model] in Hstep.
    fold name in Hstep. rewrite <- app_assoc in Hstep.
    rewrite !insert_insert_eq.
    destruct (RedirectWidget.reaches_target c
                (RedirectWidget.gather (RedirectWidget.new_entry cue_host) proc now));
      exact (Hnext h3 [_; _; _] _ Hstep).
Qed.

End UpdateLoopRule.

Lemma update_loop_reads (re_match : string -> string -> bool) (c : RedirectControls.t)
    (sf : string) (gf : list string) (jr : string) (procs : list Proc) :
  forall st,
    requests_only (fun X e => read_request e = true)
      (RedirectWidget.update_loop re_match c sf gf jr procs st).
Proof.
  induction procs as [| proc rest IH]; intros st; [exact I |].
  cbn [RedirectWidget.update_loop pbind trigger requests_only].
  split; [reflexivity |]. intros canceled.
  repeat match goal with
         | |- requests_only _ (if ?b then _ else _) => destruct b; try apply IH; try exact I
         end.
  destruct (RedirectWidget.l_hosts st !! _) as [host |];
    cbn [pbind requests_only].
  - destruct (RedirectWidget.e_ok host); [apply IH |].
    cbn [pbind requests_only]. split; [reflexivity |]. intros now.
    destruct (RedirectWidget.reaches_target _ _); apply IH.
  - split; [reflexivity |]. intros cue_host.
    cbn [pbind requests_only RedirectWidget.new_entry RedirectWidget.e_ok].
    split; [reflexivity |]. intros now.
    destruct (RedirectWidget.reaches_target _ _); apply IH.
Qed.

(** X9: a search changes nothing on the farm and shows no dialog: all
    that [update] asks for is the listing, [wasCanceled], [findHost] and
    the clock, and the controls are as before. *)
Theorem update_only_reads (re_match : string -> string -> bool) (o : Oracle)
    (hist : list Obs) (w : RedirectWidget.t) :
  let run := exec o hist (RedirectWidget.update re_match w) in
  Forall (fun ob => is_read ob = true) run.1 /\
  RedirectWidget.controls run.2 = RedirectWidget.controls w.
Proof.
  intros run. subst run. rewrite exec_update. cbn zeta.
  cbn [fst snd RedirectWidget.controls]. split; [| reflexivity].
  constructor; [reflexivity |].
  eapply Forall_impl; [apply requests_only_exec, update_loop_reads | by intros [X e x]].
Qed.

Lemma cancel_last (tr : list Obs) :
  Forall (fun ob => is_cancel ob = false) tr ->
  forall (pre : list Obs) (ob : Obs) (post : list Obs),
    (tr ++ [Observe WasCanceled true])%list = (pre ++ ob :: post)%list ->
    is_cancel ob = true -> post = [].
Proof.
  intros Hall pre ob post Heq Hob.
  induction post as [| p post _] using rev_ind; [reflexivity | exfalso].
  rewrite app_comm_cons, app_assoc in Heq. apply app_inj_tail in Heq as [-> _].
  apply Forall_app in Hall as [_ Hall]. apply Forall_cons in Hall as [Hc _]. congruence.
Qed.

(** X10: when [wasCanceled] answers true the search stops there: nothing
    is observed after it. *)
Theorem update_stops_when_canceled (re_match : string -> string -> bool) (o : Oracle)
    (hist : list Obs) (w : RedirectWidget.t) (pre : list Obs) (ob : Obs) (post : list Obs) :
  (exec o hist (RedirectWidget.update re_match w)).1 = (pre ++ ob :: post)%list ->
  is_cancel ob = true ->
  post = [].
Proof.
  rewrite exec_update. cbn zeta. cbn [fst].
  set (c := RedirectWidget.controls w).
  set (listing := o hist _ (listing_request c)).
  intros Heq Hob.
  refine (update_loop_rule re_match o c _ _ _
            (fun tr _ => Forall (fun ob => is_cancel ob = false) tr)
            (fun tr _ => forall pre ob post,
                 tr = (pre ++ ob :: post)%list -> is_cancel ob = true -> post = [])
            _ _ _ _ _ listing _ [Observe (listing_request c) listing] initial_state _
            pre ob post Heq Hob).
  - intros tr _ Hall pre' ob' post' -> Hob'.
    apply Forall_app in Hall as [_ Hall]. apply Forall_cons in Hall as [Hc _]. congruence.
  - intros tr _ Hall. by apply cancel_last.
  - intros tr _ Hall. apply Forall_app. split; [exact Hall | by constructor].
  - intros tr st proc host now name host1 Hall _ _.
    apply Forall_app. split; [exact Hall | by constructor].
  - intros tr st proc cue_host now name host1 Hall _.
    apply Forall_app. split; [exact Hall | by repeat constructor].
  - by constructor.
Qed.

Lemma asked_hosts_app (tr tr' : list Obs) :
  asked_hosts (tr ++ tr') = (asked_hosts tr ++ asked_hosts tr')%list.
Proof. apply omap_app. Qed.

Lemma is_Some_insert_known {V : Type} (m : gmap string V) (name n : string) (v : V) :
  is_Some (m !! name) -> (is_Some (<[name := v]> m !! n) <-> is_Some (m !! n)).
Proof.
  intros Hname. rewrite lookup_insert_is_Some.
  destruct (decide (name = n)) as [-> | Hne]; [tauto |]. tauto.
Qed.

(** X11: a search asks [findHost] once for each host name it meets, and
    the names asked for are the keys of [__hosts] afterwards. *)
Theorem update_asks_each_host_once (re_match : string -> string -> bool) (o : Oracle)
    (hist : list Obs) (w : RedirectWidget.t) :
  let run := exec o hist (RedirectWidget.update re_match w) in
  NoDup (asked_hosts run.1) /\
  forall name : string,
    name ∈ asked_hosts run.1 <-> is_Some (RedirectWidget.hosts run.2 !! name).
Proof.
  intros run. subst run. rewrite exec_update. cbn zeta.
  cbn [fst snd RedirectWidget.hosts].
  set (c := RedirectWidget.controls w).
  set (listing := o hist _ (listing_request c)).
  set (J := fun (tr : list Obs) (st : RedirectWidget.LoopState) =>
              NoDup (asked_hosts tr) /\
              forall name : string,
                name ∈ asked_hosts tr <-> is_Some (RedirectWidget.l_hosts st !! name)).
  refine (update_loop_rule re_match o c _ _ _ J J _ _ _ _ _ listing _
            [Observe (listing_request c) listing] initial_state _).
  - by intros tr st HJ.
  - intros tr st HJ. unfold J. rewrite asked_hosts_app. simpl. by rewrite app_nil_r.
  - intros tr st HJ. unfold J. rewrite asked_hosts_app. simpl. by rewrite app_nil_r.
  - intros tr st proc host now name host1 [Hnodup Hkeys] Hlook _.
    unfold J. rewrite asked_hosts_app. simpl. rewrite app_nil_r.
    split; [exact Hnodup |]. intros n. rewrite Hkeys.
    destruct (RedirectWidget.reaches_target c host1);
      cbn [RedirectWidget.l_hosts]; symmetry; apply is_Some_insert_known; by rewrite Hlook.
  - intros tr st proc cue_host now name host1 [Hnodup Hkeys] Hlook.
    assert (Hfresh : name ∉ asked_hosts tr).
    { rewrite Hkeys, Hlook. by intros [? ?]. }
    unfold J. rewrite asked_hosts_app. simpl.
    split.
    + apply NoDup_app. split; [exact Hnodup |]. split; [| apply NoDup_singleton].
      intros n Hn Hn'. apply list_elem_of_singleton in Hn' as ->. contradiction.
    + intros n. rewrite elem_of_app, list_elem_of_singleton, Hkeys.
      destruct (RedirectWidget.reaches_target c host1);
        cbn [RedirectWidget.l_hosts]; rewrite lookup_insert_is_Some;
        destruct (decide (name = n)) as [-> | Hne]; intuition congruence.
  - split; [apply NoDup_nil_2 |]. intros name. simpl. rewrite lookup_empty.
    split; [intros H; by apply elem_of_nil in H | by intros [? ?]].
Qed.

(** The host and the allocation of an entry come from the answer of
    [findHost] for its key. *)
Lemma update_entries_found (re_match : string -> string -> bool) (o : Oracle)
    (hist : list Obs) (w : RedirectWidget.t) :
  let run := exec o hist (RedirectWidget.update re_match w) in
  forall (name : string) (e : RedirectWidget.Entry),
    RedirectWidget.hosts run.2 !! name = Some e ->
    Observe (FindHost name) (RedirectWidget.e_host e) ∈ run.1 /\
    RedirectWidget.e_alloc e = alloc_name (RedirectWidget.e_host e).
Proof.
  intros run. subst run. rewrite exec_update. cbn zeta.
  cbn [fst snd RedirectWidget.hosts].
  set (c := RedirectWidget.controls w).
  set (listing := o hist _ (listing_request c)).
  set (J := fun (tr : list Obs) (st : RedirectWidget.LoopState) =>
              forall name e,
                RedirectWidget.l_hosts st !! name = Some e ->
                Observe (FindHost name) (RedirectWidget.e_host e) ∈ tr /\
                RedirectWidget.e_alloc e = alloc_name (RedirectWidget.e_host e)).
  assert (Hmore : forall tr tr' st, J tr st -> J (tr ++ tr')%list st).
  { intros tr tr' st HJ n e He. destruct (HJ n e He) as [Hin Halloc].
    split; [apply elem_of_app; by left | exact Halloc]. }
  refine (update_loop_rule re_match o c _ _ _ J J _ _ _ _ _ listing _
            [Observe (listing_request c) listing] initial_state _).
  - by intros tr st HJ.
  - intros tr st HJ. by apply Hmore.
  - intros tr st HJ. by apply Hmore.
  - intros tr st proc host now name host1 HJ Hlook _ n e He.
    destruct (RedirectWidget.reaches_target c host1);
      cbn [RedirectWidget.l_hosts] in He;
      apply lookup_insert_Some in He as [[<- <-] | [Hne He]];
      first [ exact (Hmore _ _ _ HJ name host Hlook) | exact (Hmore _ _ _ HJ n e He) ].
  - intros tr st proc cue_host now name host1 HJ Hlook n e He.
    destruct (RedirectWidget.reaches_target c host1);
      cbn [RedirectWidget.l_hosts] in He;
      apply lookup_insert_Some in He as [[<- <-] | [Hne He]];
      first [ exact (Hmore _ _ _ HJ n e He)
            | split; [apply elem_of_app; right; apply list_elem_of_here | reflexivity] ].
  - intros n e He. simpl in He. by rewrite lookup_empty in He.
Qed.

(** X12: after a search the entry under a host name holds the host that
    [findHost] answered for that name, the allocation of that host, and
    only procs whose name up to its first slash is that host name. *)
Theorem update_entries_by_host (re_match : string -> string -> bool) (o : Oracle)
    (hist : list Obs) (w : RedirectWidget.t) (name : string) (e : RedirectWidget.Entry) :
  let run := exec o hist (RedirectWidget.update re_match w) in
  RedirectWidget.hosts run.2 !! name = Some e ->
  Observe (FindHost name) (RedirectWidget.e_host e) ∈ run.1 /\
  RedirectWidget.e_alloc e = alloc_name (RedirectWidget.e_host e) /\
  Forall (fun proc => Py.split_head "/" (proc_name proc) = name) (RedirectWidget.e_procs e).
Proof.
  intros run He.
  destruct (update_entries_found re_match o hist w name e He) as [Hfound Halloc].
  split; [exact Hfound |]. split; [exact Halloc |].
  destruct (update_inv_final re_match o hist w) as (log & names & Hinv).
  fold run in Hinv.
  destruct (inv_entries _ _ _ _ _ _ _ _ Hinv name e He) as (_ & (-> & _) & _).
  pose proof (inv_log _ _ _ _ _ _ _ _ Hinv) as Hlog. rewrite Forall_forall in Hlog.
  apply Forall_forall. intros proc Hproc. unfold gathered in Hproc.
  apply list_elem_of_fmap in Hproc as ([p t] & -> & Hpt).
  apply list_elem_of_fmap in Hpt as (g & Hg & Hin).
  apply list_elem_of_filter in Hin as [Hname Hin].
  destruct (Hlog g Hin) as (_ & _ & Hsplit & _).
  injection Hg as -> _. simpl. by rewrite <- Hsplit.
Qed.

(** X13: the rows a search leaves are unchecked, so [redirect] right after
    it shows 'You have not selected anything to redirect.' and does
    nothing else. *)
Theorem redirect_after_update_warns (re_match : string -> string -> bool) (o : Oracle)
    (hist hist' : list Obs) (w : RedirectWidget.t) :
  let found := (exec o hist (RedirectWidget.update re_match w)).2 in
  Forall (fun item => RedirectWidget.checked item = false /\
                      RedirectWidget.enabled item = true /\
                      RedirectWidget.icon item = None) (RedirectWidget.model found) /\
  exec o hist' (RedirectWidget.redirect found)
  = ([Observe (Warn "You have not selected anything to redirect.") tt],
     (Normal tt, found)).
Proof.
  intros found.
  assert (Hrows : Forall (fun item => RedirectWidget.checked item = false /\
                                      RedirectWidget.enabled item = true /\
                                      RedirectWidget.icon item = None)
                         (RedirectWidget.model found)).
  { destruct (update_inv_final re_match o hist w) as (log & names & Hinv).
    fold found in Hinv. pose proof (inv_rows _ _ _ _ _ _ _ _ Hinv) as Hrows.
    cbn [RedirectWidget.l_hosts RedirectWidget.l_model] in Hrows.
    clear Hinv. revert Hrows. generalize (RedirectWidget.model found) names.
    induction 1 as [| item name items names' (e & _ & ->) _ IH]; constructor;
      [by repeat split | exact IH]. }
  split; [exact Hrows |].
  unfold RedirectWidget.redirect.
  rewrite (selected_items_unchecked found);
    [| eapply Forall_impl; [exact Hrows | by intros item [Hc _]]].
  cbn. by destruct (o hist' unit _).
Qed.

(** ** A search, then a redirect *)

Lemma requests_only_impl {R : Type} (P P' : forall X, Event X -> Prop) (p : Prog R) :
  (forall X (e : Event X), P X e -> P' X e) -> requests_only P p -> requests_only P' p.
Proof.
  intros HP. induction p as [r | X e k IH]; simpl; [done |].
  intros [He Hk]. split; [by apply HP | intros x; by apply IH].
Qed.

Lemma redirect_items_moves_entries (hosts : gmap string RedirectWidget.Entry) (job : Job)
    (selected : list (nat * RedirectWidget.Item)) :
  forall (model : list RedirectWidget.Item) (errors : list exn),
    requests_only (moves_entry hosts)
      (RedirectWidget.redirect_items hosts job selected model errors).
Proof.
  induction selected as [| [row item] rest IH]; intros model errors; [exact I |].
  cbn [RedirectWidget.redirect_items].
  destruct (hosts !! RedirectWidget.text item) as [entry |] eqn:He; [| exact I].
  cbn [pbind trigger requests_only]. split; [| intros answer; apply IH].
  by exists (RedirectWidget.text item), entry.
Qed.

Lemma redirect_moves_entries (w : RedirectWidget.t) :
  requests_only (moves_entry (RedirectWidget.hosts w)) (RedirectWidget.redirect w).
Proof.
  unfold RedirectWidget.redirect.
  destruct (negb (Py.nonempty (RedirectWidget.selected_items w))).
  { cbn [RedirectWidget.warn pbind trigger requests_only]. by split. }
  destruct (negb (Py.truthy (RedirectControls.getJob (RedirectWidget.controls w)))).
  { cbn [RedirectWidget.warn pbind trigger requests_only]. by split. }
  cbn [pbind trigger requests_only]. split; [exact I |]. intros [job | e].
  - destruct (RedirectWidget.get_selected_procs_by_alloc _ _) as [groups | e]; [| exact I].
    apply requests_only_pbind.
    + eapply requests_only_impl; [| apply safety_checks_no_redirect].
      intros X e He. unfold not_redirectToJob in He. by destruct e.
    + intros [[|] | e]; [| exact I | exact I].
      apply requests_only_pbind; [apply redirect_items_moves_entries |].
      intros [[errors | e] m]; [| exact I].
      destruct (Py.nonempty errors); [| exact I].
      cbn [RedirectWidget.warn pbind trigger requests_only]. by split.
  - by destruct (is_EntityNotFoundException e).
Qed.

(** X14: whatever rows are checked after a search, every proc that
    [redirect] hands to [redirectToJob] was in the listing of that search
    and passed its filters: it ran on the selected show, not on the job
    then named in the job box, and had no redirect target. *)
Theorem redirect_moves_only_admitted (re_match : string -> string -> bool) (o : Oracle)
    (hist hist' : list Obs) (w w' : RedirectWidget.t) :
  let c := RedirectWidget.controls w in
  let listing := o hist _ (listing_request c) in
  RedirectWidget.hosts w'
  = RedirectWidget.hosts (exec o hist (RedirectWidget.update re_match w)).2 ->
  Forall (fun ob => Forall (fun proc => proc ∈ listing /\ admitted re_match c proc)
                           (moved_procs ob))
         (exec o hist' (RedirectWidget.redirect w')).1.
Proof.
  intros c listing Hhosts.
  eapply Forall_impl;
    [exact (requests_only_exec _ o _ hist' (redirect_moves_entries w')) |].
  intros [X e x] Hob. unfold obs_request in Hob.
  destruct e; try apply Forall_nil_2.
  destruct Hob as (name & entry & He & _ & ->). cbn [moved_procs].
  apply Forall_forall. intros proc Hproc. rewrite Hhosts in He.
  exact (update_procs_admitted re_match o hist w name entry proc He Hproc).
Qed.

Lemma items_all_checked (model : list RedirectWidget.Item) :
  forall h : nat -> nat,
    (List.filter (fun ri : nat * RedirectWidget.Item => RedirectWidget.checked ri.2)
                 (imap (fun i x => (h i, x)) (RedirectWidget.set_checked <$> model))).*2
    = RedirectWidget.set_checked <$> model.
Proof.
  induction model as [| item items IH]; intros h; [reflexivity |].
  cbn [fmap list_fmap imap List.filter snd RedirectWidget.set_checked RedirectWidget.checked].
  f_equal. exact (IH (h ∘ S)).
Qed.

Lemma get_selected_procs_by_alloc_from_present (hosts : gmap string RedirectWidget.Entry)
    (selected : list RedirectWidget.Item) :
  Forall (fun item => is_Some (hosts !! RedirectWidget.text item)) selected ->
  forall acc, exists groups,
    RedirectWidget.get_selected_procs_by_alloc_from hosts selected acc = Normal groups.
Proof.
  induction 1 as [| item rest [entry He] _ IH]; intros acc; simpl; [by eexists |].
  rewrite He. apply IH.
Qed.

(** X15: when the service answers [findHost] with a host of the name asked
    for, every row of a search has its entry in [__hosts]: after
    [selectAll] the selection is all the rows and the grouping by
    allocation raises nothing. *)
Theorem selectAll_after_update_groups (re_match : string -> string -> bool) (o : Oracle)
    (hist : list Obs) (w : RedirectWidget.t) :
  let found := (exec o hist (RedirectWidget.update re_match w)).2 in
  let all := RedirectWidget.selectAll found in
  (forall (h : list Obs) (name : string), host_name (o h _ (FindHost name)) = name) ->
  (RedirectWidget.selected_items all).*2
  = RedirectWidget.set_checked <$> RedirectWidget.model found /\
  exists groups : list (string * list Proc),
    RedirectWidget.get_selected_procs_by_alloc (RedirectWidget.hosts all)
      (RedirectWidget.selected_items all).*2 = Normal groups.
Proof.
  intros found all Hfaithful.
  assert (Hsel : (RedirectWidget.selected_items all).*2
                 = RedirectWidget.set_checked <$> RedirectWidget.model found)
    by exact (items_all_checked (RedirectWidget.model found) id).
  split; [exact Hsel |]. rewrite Hsel.
  apply get_selected_procs_by_alloc_from_present.
  destruct (update_inv_final re_match o hist w) as (log & names & Hinv).
  fold found in Hinv.
  pose proof (inv_rows _ _ _ _ _ _ _ _ Hinv) as Hrows.
  pose proof (inv_entries _ _ _ _ _ _ _ _ Hinv) as Hentries.
  cbn [RedirectWidget.l_hosts RedirectWidget.l_model] in Hrows, Hentries.
  change (RedirectWidget.hosts all) with (RedirectWidget.hosts found).
  clear Hinv Hsel. revert Hrows. generalize (RedirectWidget.model found) names.
  induction 1 as [| item name items names' (e & He & ->) _ IH]; [constructor |].
  rewrite fmap_cons. constructor; [| exact IH].
  cbn [RedirectWidget.set_checked RedirectWidget.addHost RedirectWidget.text].
  destruct (Hentries name e He) as (_ & _ & _ & _ & _ & h & ->).
  rewrite Hfaithful, He. by eexists.
Qed.

(** ** The filter buttons *)

Lemma odict_get_app_Some {V : Type} (k : string) (d d' : list (string * V)) :
  is_Some (RedirectWidget.odict_get k d) -> is_Some (RedirectWidget.odict_get k (d ++ d')).
Proof.
  induction d as [| [k0 v0] d IH]; simpl; [by intros [? ?] |].
  by destruct (String.eqb k k0).
Qed.

Lemma filter_unchecked (added : list (string * GroupFilter.Action)) :
  Forall (fun ka => GroupFilter.a_checked ka.2 = false) added ->
  List.filter (fun ka : string * GroupFilter.Action => GroupFilter.a_checked ka.2) added = [].
Proof.
  induction 1 as [| ka added Hka _ IH]; [reflexivity |]. simpl. by rewrite Hka.
Qed.

(** The loop of [__populate_menu]: it lists the ids in order, and only
    appends unchecked actions. *)
Lemma populate_fold (groups : list GroupFilter.Group) :
  forall (acts : list (string * GroupFilter.Action)) (entries : list string),
    let res := foldl GroupFilter.populate_step (acts, entries) groups in
    res.2 = (entries ++ (GroupFilter.group_id <$> groups))%list /\
    Forall (fun id => is_Some (RedirectWidget.odict_get id res.1))
           (GroupFilter.group_id <$> groups) /\
    exists added : list (string * GroupFilter.Action),
      res.1 = (acts ++ added)%list /\
      Forall (fun ka => GroupFilter.a_checked ka.2 = false) added.
Proof.
  induction groups as [| group rest IH]; intros acts entries; cbn zeta.
  { simpl. rewrite app_nil_r. split; [reflexivity |]. split; [constructor |].
    exists []. by rewrite app_nil_r. }
  cbn [foldl GroupFilter.populate_step]. rewrite fmap_cons.
  destruct (RedirectWidget.odict_get (GroupFilter.group_id group) acts) as [known |] eqn:Hget.
  - destruct (IH acts (entries ++ [GroupFilter.group_id group])%list)
      as (Hentries & Hkeys & added & Hacts & Hadded).
    split; [by rewrite Hentries, <- app_assoc |].
    split; [| by exists added].
    constructor; [| exact Hkeys].
    rewrite Hacts. apply odict_get_app_Some. by rewrite Hget.
  - rewrite odict_set_new by (by apply odict_get_None).
    destruct (IH (acts ++ [(GroupFilter.group_id group,
                            {| GroupFilter.a_text := GroupFilter.group_data_name group;
                               GroupFilter.a_checked := false |})])%list
                 (entries ++ [GroupFilter.group_id group])%list)
      as (Hentries & Hkeys & added & Hacts & Hadded).
    split; [by rewrite Hentries, <- app_assoc |].
    split.
    + constructor; [| exact Hkeys].
      rewrite Hacts. apply odict_get_app_Some.
      rewrite <- odict_set_new by (by apply odict_get_None).
      rewrite odict_get_set, String.eqb_refl. by eexists.
    + eexists. split; [by rewrite Hacts, <- app_assoc |].
      by constructor.
Qed.

(** X16: [__populate_menu] on a button with a show hands the menu one
    action per group of the show, in order, each of them in [__actions];
    the actions there were are kept as they are and the new ones are
    unchecked, so [getChecked] answers as before (also for a checked group
    that is listed no more). *)
Theorem populate_menu_keeps_checked (groups : list GroupFilter.Group) (g : GroupFilter.t)
    (s : Show) :
  GroupFilter.show g = Some s ->
  exists g' : GroupFilter.t,
    GroupFilter.populate_menu groups g = Normal g' /\
    GroupFilter.show g' = Some s /\
    GroupFilter.menu g' = GroupFilter.group_id <$> groups /\
    Forall (fun id => is_Some (RedirectWidget.odict_get id (GroupFilter.actions g')))
           (GroupFilter.menu g') /\
    (exists added : list (string * GroupFilter.Action),
       GroupFilter.actions g' = (GroupFilter.actions g ++ added)%list /\
       Forall (fun ka => GroupFilter.a_checked ka.2 = false) added) /\
    GroupFilter.getChecked g' = GroupFilter.getChecked g.
Proof.
  intros Hshow. unfold GroupFilter.populate_menu. rewrite Hshow.
  destruct (populate_fold groups (GroupFilter.actions g) [])
    as (Hentries & Hkeys & added & Hacts & Hadded).
  destruct (foldl GroupFilter.populate_step (GroupFilter.actions g, []) groups)
    as [acts entries].
  cbn [fst snd] in Hentries, Hkeys, Hacts. subst entries acts.
  eexists. split; [reflexivity |]. cbn [GroupFilter.show GroupFilter.menu GroupFilter.actions].
  split; [reflexivity |]. split; [reflexivity |]. split; [exact Hkeys |].
  split; [by exists added |].
  unfold GroupFilter.getChecked. cbn [GroupFilter.actions].
  by rewrite List.filter_app, (filter_unchecked added Hadded), app_nil_r.
Qed.

(** The loop of [refresh]. *)
Lemma refresh_fold (names : list string) :
  forall (menu : list GroupFilter.Action) (checked : Z),
    let res := foldl AllocFilter.refresh_step (menu, checked) names in
    GroupFilter.a_text <$> res.1 = ((GroupFilter.a_text <$> menu) ++ names)%list /\
    AllocFilter.setSelected res.1
    = (AllocFilter.setSelected menu
         ++ List.filter (fun name => Py.mem name AllocFilter.default) names)%list /\
    res.2 = checked
            + Z.of_nat (length (List.filter (fun name => Py.mem name AllocFilter.default)
                                            names)).
Proof.
  induction names as [| name rest IH]; intros menu checked; cbn zeta.
  { simpl. rewrite !app_nil_r. split; [reflexivity |]. split; [reflexivity | lia]. }
  cbn [foldl AllocFilter.refresh_step List.filter].
  destruct (Py.mem name AllocFilter.default) eqn:Hmem.
  - destruct (IH (menu ++ [{| GroupFilter.a_text := name; GroupFilter.a_checked := true |}])%list
                 (checked + 1)) as (Htexts & Hsel & Hcount).
    split; [| split].
    + rewrite Htexts, fmap_app. simpl. by rewrite <- app_assoc.
    + rewrite Hsel. unfold AllocFilter.setSelected.
      rewrite List.filter_app, map_app. simpl. by rewrite <- app_assoc.
    + rewrite Hcount. simpl length. lia.
  - destruct (IH (menu ++ [{| GroupFilter.a_text := name; GroupFilter.a_checked := false |}])%list
                 checked) as (Htexts & Hsel & Hcount).
    split; [| split].
    + rewrite Htexts, fmap_app. simpl. by rewrite <- app_assoc.
    + rewrite Hsel. unfold AllocFilter.setSelected.
      rewrite List.filter_app, map_app. simpl. by rewrite app_nil_r.
    + exact Hcount.
Qed.

(** X17: [refresh] lists the allocations in sorted order and selects
    those named in [AllocFilter.default]; the number it shows on the
    button is the number of selected allocations. *)
Theorem refresh_counts_selected (sort_names : list string -> list string)
    (allocs : list string) :
  let a := AllocFilter.refresh sort_names allocs in
  GroupFilter.a_text <$> AllocFilter.menu a = sort_names allocs /\
  AllocFilter.getSelected a
  = List.filter (fun name => Py.mem name AllocFilter.default) (sort_names allocs) /\
  AllocFilter.shown_count a = Z.of_nat (length (AllocFilter.getSelected a)).
Proof.
  intros a. subst a. unfold AllocFilter.refresh.
  destruct (refresh_fold (sort_names allocs) [] 0) as (Htexts & Hsel & Hcount).
  destruct (foldl AllocFilter.refresh_step ([], 0) (sort_names allocs)) as [menu checked].
  cbn [fst snd] in Htexts, Hsel, Hcount.
  cbn [AllocFilter.menu AllocFilter.getSelected AllocFilter.selected AllocFilter.shown_count].
  split; [exact Htexts |]. split; [exact Hsel |].
  rewrite Hsel, Hcount. simpl. lia.
Qed.

(** X6: when the target show has no subscription under the allocation of
    the first group and the threshold is not negative, [redirect] neither
    warns nor returns: after the cross-show check has passed, the burst
    check raises AttributeError, which ends [redirect]; no proc is moved
    and the widget is as before. *)
Theorem redirect_without_subscription_raises (o : Oracle) (hist : list Obs)
    (w : RedirectWidget.t) (job : Job) (alloc : string) (procs : list Proc)
    (rest : list (string * list Proc)) :
  let job_name := RedirectControls.getJob (RedirectWidget.controls w) in
  let found := Observe (FindJob job_name) (Normal job) in
  let show := job_show job in
  let cross := exec o (hist ++ [found])%list (RedirectWidget.is_cross_show_safe procs show) in
  let h0 := ((hist ++ [found]) ++ cross.1)%list in
  let cfg := o h0 _ GetResourceConfig in
  let h1 := (h0 ++ [Observe GetResourceConfig cfg])%list in
  let show_obj := o h1 _ (FindShow show) in
  let h2 := (h1 ++ [Observe (FindShow show) show_obj])%list in
  let subs := o h2 _ (GetSubscriptions show_obj) in
  RedirectWidget.selected_items w <> [] ->
  job_name <> ""%string ->
  o hist _ (FindJob job_name) = Normal job ->
  RedirectWidget.get_selected_procs_by_alloc (RedirectWidget.hosts w)
    (RedirectWidget.selected_items w).*2 = Normal ((alloc, procs) :: rest) ->
  cross.2 = true ->
  ~ (default 100%Q (wasted_cores_threshold cfg) < 0)%Q ->
  subscription_for show alloc subs = None ->
  exec o hist (RedirectWidget.redirect w)
  = ((found :: cross.1 ++ [Observe GetResourceConfig cfg; Observe (FindShow show) show_obj;
                           Observe (GetSubscriptions show_obj) subs])%list,
     (Raised AttributeError, w)).
Proof.
  intros job_name found show cross h0 cfg h1 show_obj h2 subs
         Hsel Hname Hfound Hgroups Hcross Hwc Hnone.
  rewrite (exec_redirect_found o hist w job Hsel Hname Hfound), Hgroups.
  cbn zeta. fold job_name found show.
  rewrite exec_safety_checks_cons. cbn zeta. fold cross. rewrite Hcross.
  fold h0.
  rewrite (is_burst_safe_without_subscription o h0 alloc procs show Hwc Hnone).
  reflexivity.
Qed.

(** * The flows on the small farm *)

Module Runs.

Import Example.
Local Open Scope string_scope.

(** A search for one core on this farm finds host1. *)
Lemma update_finds_host1 :
  let run := exec (env job_found [] false) []
               (RedirectWidget.update no_match (fresh "pipe-sh010-light" 1)) in
  RedirectWidget.model run.2 = [row1 false] /\
  RedirectWidget.hosts run.2 !! "host1" = Some entry1.
Proof. vm_compute. split; reflexivity. Qed.

(** The run of [redirect] on the searched widget when the target job is
    found and the show's subscription has room: the hypotheses of
    [redirect_gated_by_checks] hold, and so does what it concludes. *)
Lemma redirect_gated_by_checks_witness :
  let o := env job_found [subscription 100 10] false in
  let w := searched "pipe-sh010-light" in
  let found := Observe (FindJob "pipe-sh010-light") (Normal target) in
  let grouped := RedirectWidget.get_selected_procs_by_alloc (RedirectWidget.hosts w)
                   (RedirectWidget.selected_items w).*2 in
  let run := exec o [] (RedirectWidget.redirect w) in
  RedirectWidget.selected_items w <> [] /\
  RedirectControls.getJob (RedirectWidget.controls w) <> "" /\
  o [] _ (FindJob "pipe-sh010-light") = Normal target /\
  (Exists (fun ob => is_redirectToJob ob = true) run.1 ->
   exists (groups : list (string * list Proc)) (trc rest : list Obs),
     grouped = Normal groups /\
     checks_pass o "pipe" [found] groups trc /\
     run.1 = (found :: trc ++ rest)%list /\
     Forall (fun ob => is_redirectToJob ob = false) (found :: trc)) /\
  (forall (groups : list (string * list Proc)) (trc : list Obs),
     grouped = Normal groups ->
     check_refuses o "pipe" [found] groups trc ->
     run = (found :: trc, (Normal tt, w)) /\
     Forall (fun ob => is_redirectToJob ob = false) run.1).
Proof.
  intros o w found grouped run.
  assert (Hsel : RedirectWidget.selected_items w <> []) by (vm_compute; discriminate).
  assert (Hname : RedirectControls.getJob (RedirectWidget.controls w) <> "") by discriminate.
  assert (Hfound : o [] _ (FindJob "pipe-sh010-light") = Normal target) by reflexivity.
  split; [exact Hsel |]. split; [exact Hname |]. split; [exact Hfound |].
  exact (redirect_gated_by_checks o [] w target Hsel Hname Hfound).
Defined.

(** The same run: the checks of the one group pass, and the hypotheses of
    [redirect_commits] hold. *)
Lemma redirect_commits_witness :
  let o := env job_found [subscription 100 10] false in
  let w := searched "pipe-sh010-light" in
  let found := Observe (FindJob "pipe-sh010-light") (Normal target) in
  let trc := ([] ++ asked ++ [])%list in
  let run := exec o [] (RedirectWidget.redirect w) in
  checks_pass o "pipe" [found] [("lax.spinux", [proc1])] trc /\
  exists (entries : list RedirectWidget.Entry) (answers : list (Outcome unit)),
    Forall2 (fun ri entry => RedirectWidget.hosts w !! RedirectWidget.text ri.2 = Some entry)
            (RedirectWidget.selected_items w) entries /\
    length answers = length entries /\
    run.1 = (found :: trc ++ zip_with (redirect_call target) entries answers
               ++ (if Py.nonempty (raised answers)
                   then [Observe (Warn "Some procs failed to redirect.") tt]
                   else []))%list /\
    run.2.1 = Normal tt /\
    RedirectWidget.controls run.2.2 = RedirectWidget.controls w /\
    RedirectWidget.hosts run.2.2 = RedirectWidget.hosts w /\
    Forall2 after_redirect (RedirectWidget.model w) (RedirectWidget.model run.2.2).
Proof.
  intros o w found trc run.
  assert (Hpass : checks_pass o "pipe" [found] [("lax.spinux", [proc1])] trc).
  { apply (checks_pass_cons o "pipe" [found] "lax.spinux" [proc1] [] [] asked []);
      [reflexivity | reflexivity | apply checks_pass_nil]. }
  split; [exact Hpass |].
  apply (redirect_commits o [] w target [("lax.spinux", [proc1])] trc);
    [vm_compute; discriminate | discriminate | reflexivity | reflexivity | exact Hpass].
Defined.

(** The search for one core: host1 is found with [proc1], which has no
    redirect target and is not on the target job. *)
Lemma update_skips_redirected_and_target_witness :
  let o := env job_found [] false in
  let w := fresh "pipe-sh010-light" 1 in
  RedirectWidget.hosts (exec o [] (RedirectWidget.update no_match w)).2 !! "host1"
    = Some entry1 /\
  proc1 ∈ RedirectWidget.e_procs entry1 /\
  redirect_target proc1 = "" /\
  proc_job_name proc1 <> RedirectControls.getJob (RedirectWidget.controls w).
Proof.
  intros o w.
  assert (He : RedirectWidget.hosts (exec o [] (RedirectWidget.update no_match w)).2
                 !! "host1" = Some entry1) by (vm_compute; reflexivity).
  assert (Hin : proc1 ∈ RedirectWidget.e_procs entry1) by apply list_elem_of_here.
  split; [exact He |]. split; [exact Hin |].
  exact (update_skips_redirected_and_target no_match o [] w "host1" entry1 proc1 He Hin).
Defined.

(** The same search: the limit is 10 and the service names hosts as asked. *)
Lemma update_rows_bounded_and_distinct_witness :
  let o := env job_found [] false in
  let w := fresh "pipe-sh010-light" 1 in
  let run := exec o [] (RedirectWidget.update no_match w) in
  0 <= RedirectControls.getLimit (RedirectWidget.controls w) /\
  (forall (h : list Obs) (name : string), host_name (o h _ (FindHost name)) = name) /\
  Z.of_nat (length (RedirectWidget.model run.2))
    <= RedirectControls.getLimit (RedirectWidget.controls w) /\
  NoDup (RedirectWidget.text <$> RedirectWidget.model run.2) /\
  exists names : list string,
    NoDup names /\
    Forall2 (fun item name =>
               exists e, RedirectWidget.hosts run.2 !! name = Some e /\
                         RedirectWidget.e_ok e = true /\
                         item = RedirectWidget.addHost e)
            (RedirectWidget.model run.2) names.
Proof.
  intros o w run.
  assert (Hlimit : 0 <= RedirectControls.getLimit (RedirectWidget.controls w))
    by (vm_compute; discriminate).
  assert (Hfaithful : forall (h : list Obs) (name : string),
             host_name (o h _ (FindHost name)) = name) by reflexivity.
  split; [exact Hlimit |]. split; [exact Hfaithful |].
  exact (update_rows_bounded_and_distinct no_match o [] w Hlimit Hfaithful).
Defined.

(** Against C2 as worded: a search for two cores.  host1 has one core and
    a half idle and [proc1] reserves half a core, so after [proc1] the idle
    cores plus the reserved cores are two, memory and time are within the
    thresholds; [update] counts one idle core and adds no row. *)
Lemma update_truncates_idle_cores :
  let o := env job_found [] false in
  let w := fresh "pipe-sh010-light" 2 in
  let run := exec o [] (RedirectWidget.update no_match w) in
  (exists e, RedirectWidget.hosts run.2 !! "host1" = Some e /\
             RedirectWidget.e_host e = host_named "host1" /\
             RedirectWidget.e_procs e = [proc1]) /\
  int_times run.1 = [1100] /\
  claimed_on_target (RedirectWidget.controls w) (host_named "host1") [(proc1, 1100)] /\
  RedirectWidget.model run.2 = [].
Proof.
  intros o w run. split; [| split; [| split]].
  - eexists. split; [vm_compute; reflexivity | split; reflexivity].
  - reflexivity.
  - unfold claimed_on_target. split; [| split].
    + vm_compute. discriminate.
    + vm_compute. discriminate.
    + reflexivity.
  - reflexivity.
Qed.

(** Against C7 as worded: the subscription is at burst, the procs reserve
    one hundred cores and a half, the threshold is the default 100 and the
    user would answer no.  The total minus the headroom exceeds the
    threshold; [__is_burst_safe] compares the integer parts, asks nothing
    and answers true. *)
Lemma is_burst_safe_truncates_cores :
  let o := env job_found [subscription 10 10] false in
  subscription_for "pipe" "lax.spinux" [subscription 10 10] = Some (subscription 10 10) /\
  ~ (Py.sum (reserved_cores <$> [big_proc]) - (10 - 10) <= 100)%Q /\
  (forall h q, o h _ (QuestionBoxYesNo q) = false) /\
  exec o [] (RedirectWidget.is_burst_safe "lax.spinux" [big_proc] "pipe")
  = ([Observe GetResourceConfig {| wasted_cores_threshold := None |};
      Observe (FindShow "pipe") {| show_name := "pipe" |};
      Observe (GetSubscriptions {| show_name := "pipe" |}) [subscription 10 10]],
     Normal true).
Proof.
  intros o. split; [reflexivity |]. split; [| split; [reflexivity |]].
  - vm_compute. intros H. apply H. reflexivity.
  - vm_compute. reflexivity.
Qed.

(** The show has no subscription for the allocation: [__is_burst_safe]
    raises AttributeError and shows no warning. *)
Lemma is_burst_safe_no_subscription_raises :
  exec (env job_found [] false) [] (RedirectWidget.is_burst_safe "lax.spinux" [proc1] "pipe")
  = ([Observe GetResourceConfig {| wasted_cores_threshold := None |};
      Observe (FindShow "pipe") {| show_name := "pipe" |};
      Observe (GetSubscriptions {| show_name := "pipe" |}) []],
     Raised AttributeError).
Proof. vm_compute. reflexivity. Qed.

(** C4 at a target job that has left the cue: host1 is selected, the job
    name is entered, [findJob] raises EntityNotFoundException.  [redirect]
    calls no [redirectToJob], but it shows no warning and does not return:
    it raises AttributeError. *)
Lemma redirect_job_gone_raises :
  exec (env job_gone [] false) [] (RedirectWidget.redirect (searched "pipe-sh010-light"))
  = ([Observe (FindJob "pipe-sh010-light") (Raised EntityNotFoundException)],
     (Raised AttributeError, searched "pipe-sh010-light")).
Proof. reflexivity. Qed.

(** No row is checked: the hypothesis of [redirect_nothing_checked]. *)
Lemma redirect_nothing_checked_witness :
  let o := env job_found [] false in
  let w := unselected "pipe-sh010-light" in
  Forall (fun item => RedirectWidget.checked item = false) (RedirectWidget.model w) /\
  exec o [] (RedirectWidget.redirect w)
  = ([Observe (Warn "You have not selected anything to redirect.") tt], (Normal tt, w)).
Proof.
  intros o w.
  assert (Hunchecked : Forall (fun item => RedirectWidget.checked item = false)
                              (RedirectWidget.model w)) by (by repeat constructor).
  split; [exact Hunchecked |].
  exact (redirect_nothing_checked o [] w Hunchecked).
Defined.

(** host1 is checked and the job box is empty. *)
Lemma redirect_without_job_name_witness :
  let o := env job_found [] false in
  let w := searched "" in
  RedirectWidget.selected_items w <> [] /\
  RedirectControls.getJob (RedirectWidget.controls w) = "" /\
  exec o [] (RedirectWidget.redirect w)
  = ([Observe (Warn "You must have a job name selected.") tt], (Normal tt, w)).
Proof.
  intros o w.
  assert (Hsel : RedirectWidget.selected_items w <> []) by (vm_compute; discriminate).
  assert (Hname : RedirectControls.getJob (RedirectWidget.controls w) = "") by reflexivity.
  split; [exact Hsel |]. split; [exact Hname |].
  exact (redirect_without_job_name o [] w Hsel Hname).
Defined.

(** host1 is checked and the target job has left the cue. *)
Lemma redirect_findJob_raises_witness :
  let o := env job_gone [] false in
  let w := searched "pipe-sh010-light" in
  RedirectWidget.selected_items w <> [] /\
  RedirectControls.getJob (RedirectWidget.controls w) <> "" /\
  o [] _ (FindJob "pipe-sh010-light") = Raised EntityNotFoundException /\
  exec o [] (RedirectWidget.redirect w)
  = ([Observe (FindJob "pipe-sh010-light") (Raised EntityNotFoundException)],
     (Raised AttributeError, w)).
Proof.
  intros o w.
  assert (Hsel : RedirectWidget.selected_items w <> []) by (vm_compute; discriminate).
  assert (Hname : RedirectControls.getJob (RedirectWidget.controls w) <> "") by discriminate.
  assert (Hfind : o [] _ (FindJob "pipe-sh010-light") = Raised EntityNotFoundException)
    by reflexivity.
  split; [exact Hsel |]. split; [exact Hname |]. split; [exact Hfind |].
  exact (redirect_findJob_raises o [] w EntityNotFoundException Hsel Hname Hfind).
Defined.

(** The checked row host1 has no entry. *)
Lemma redirect_row_without_entry_witness :
  let o := env job_found [] false in
  let w := stale "pipe-sh010-light" in
  RedirectControls.getJob (RedirectWidget.controls w) <> "" /\
  o [] _ (FindJob "pipe-sh010-light") = Normal target /\
  Exists (fun ri => RedirectWidget.hosts w !! RedirectWidget.text ri.2 = None)
         (RedirectWidget.selected_items w) /\
  exec o [] (RedirectWidget.redirect w)
  = ([Observe (FindJob "pipe-sh010-light") (Normal target)], (Raised AttributeError, w)).
Proof.
  intros o w.
  assert (Hname : RedirectControls.getJob (RedirectWidget.controls w) <> "") by discriminate.
  assert (Hfind : o [] _ (FindJob "pipe-sh010-light") = Normal target) by reflexivity.
  assert (Hex : Exists (fun ri => RedirectWidget.hosts w !! RedirectWidget.text ri.2 = None)
                       (RedirectWidget.selected_items w))
    by (apply Exists_cons_hd; reflexivity).
  split; [exact Hname |]. split; [exact Hfind |]. split; [exact Hex |].
  exact (redirect_row_without_entry o [] w target Hname Hfind Hex).
Defined.

(** Show pipe has no subscription at all; host1 of lax.spinux is checked. *)
Lemma redirect_without_subscription_raises_witness :
  let o := env job_found [] false in
  let w := searched "pipe-sh010-light" in
  RedirectWidget.selected_items w <> [] /\
  RedirectControls.getJob (RedirectWidget.controls w) <> "" /\
  o [] _ (FindJob "pipe-sh010-light") = Normal target /\
  RedirectWidget.get_selected_procs_by_alloc (RedirectWidget.hosts w)
    (RedirectWidget.selected_items w).*2 = Normal [("lax.spinux", [proc1])] /\
  (exec o [Observe (FindJob "pipe-sh010-light") (Normal target)]
     (RedirectWidget.is_cross_show_safe [proc1] "pipe")).2 = true /\
  ~ (100 < 0)%Q /\
  subscription_for "pipe" "lax.spinux" [] = None /\
  exec o [] (RedirectWidget.redirect w)
  = ([Observe (FindJob "pipe-sh010-light") (Normal target);
      Observe GetResourceConfig {| wasted_cores_threshold := None |};
      Observe (FindShow "pipe") {| show_name := "pipe" |};
      Observe (GetSubscriptions {| show_name := "pipe" |}) []],
     (Raised AttributeError, w)).
Proof.
  intros o w.
  assert (Hsel : RedirectWidget.selected_items w <> []) by (vm_compute; discriminate).
  assert (Hname : RedirectControls.getJob (RedirectWidget.controls w) <> "") by discriminate.
  assert (Hfind : o [] _ (FindJob "pipe-sh010-light") = Normal target) by reflexivity.
  assert (Hgroups : RedirectWidget.get_selected_procs_by_alloc (RedirectWidget.hosts w)
                      (RedirectWidget.selected_items w).*2
                    = Normal [("lax.spinux", [proc1])]) by (vm_compute; reflexivity).
  assert (Hcross : (exec o [Observe (FindJob "pipe-sh010-light") (Normal target)]
                      (RedirectWidget.is_cross_show_safe [proc1] "pipe")).2 = true)
    by reflexivity.
  assert (Hwc : ~ (100 < 0)%Q) by (intros H; vm_compute in H; discriminate H).
  assert (Hnone : subscription_for "pipe" "lax.spinux" [] = None) by reflexivity.
  split; [exact Hsel |]. split; [exact Hname |]. split; [exact Hfind |].
  split; [exact Hgroups |]. split; [exact Hcross |]. split; [exact Hwc |].
  split; [exact Hnone |].
  exact (redirect_without_subscription_raises o [] w target "lax.spinux" [proc1] []
           Hsel Hname Hfind Hgroups Hcross Hwc Hnone).
Defined.

(** Show pipe is subscribed to local.desktop, whose name ends in a
    character of ".pipe": the subscription is filed under "local.deskto". *)
Lemma is_burst_safe_alloc_ends_in_show_char_witness :
  let o := env job_found [desktop_subscription] false in
  Py.has_char "p" ".pipe" = true /\
  ~ (100 < 0)%Q /\
  exec o [] (RedirectWidget.is_burst_safe "local.desktop" [proc1] "pipe")
  = ([Observe GetResourceConfig {| wasted_cores_threshold := None |};
      Observe (FindShow "pipe") {| show_name := "pipe" |};
      Observe (GetSubscriptions {| show_name := "pipe" |}) [desktop_subscription]],
     Raised AttributeError).
Proof.
  intros o.
  assert (Hchar : Py.has_char "p" ".pipe" = true) by reflexivity.
  assert (Hwc : ~ (100 < 0)%Q) by (intros H; vm_compute in H; discriminate H).
  split; [exact Hchar |]. split; [exact Hwc |].
  exact (is_burst_safe_alloc_ends_in_show_char o [] "local.deskto" "p" [proc1] "pipe"
           Hchar Hwc).
Defined.

(** The progress dialog is canceled before the first proc. *)
Lemma update_stops_when_canceled_witness :
  let o := canceled_env in
  let w := fresh "pipe-sh010-light" 1 in
  let listed := Observe (GetProcs ["pipe"] ["lax.spinux"]) [proc1] in
  (exec o [] (RedirectWidget.update no_match w)).1
  = ([listed] ++ Observe WasCanceled true :: [])%list /\
  is_cancel (Observe WasCanceled true) = true /\
  @nil Obs = [].
Proof.
  intros o w listed.
  assert (Hrun : (exec o [] (RedirectWidget.update no_match w)).1
                 = ([listed] ++ Observe WasCanceled true :: [])%list) by reflexivity.
  assert (Hcancel : is_cancel (Observe WasCanceled true) = true) by reflexivity.
  split; [exact Hrun |]. split; [exact Hcancel |].
  exact (update_stops_when_canceled no_match o [] w [listed] (Observe WasCanceled true) []
           Hrun Hcancel).
Defined.

(** The search for one core: the entry of host1. *)
Lemma update_entries_by_host_witness :
  let o := env job_found [] false in
  let w := fresh "pipe-sh010-light" 1 in
  let run := exec o [] (RedirectWidget.update no_match w) in
  RedirectWidget.hosts run.2 !! "host1" = Some entry1 /\
  Observe (FindHost "host1") (RedirectWidget.e_host entry1) ∈ run.1 /\
  RedirectWidget.e_alloc entry1 = alloc_name (RedirectWidget.e_host entry1) /\
  Forall (fun proc => Py.split_head "/" (proc_name proc) = "host1")
         (RedirectWidget.e_procs entry1).
Proof.
  intros o w run.
  assert (He : RedirectWidget.hosts run.2 !! "host1" = Some entry1)
    by (vm_compute; reflexivity).
  split; [exact He |].
  exact (update_entries_by_host no_match o [] w "host1" entry1 He).
Defined.

(** The searched widget holds the hosts of the search for one core. *)
Lemma redirect_moves_only_admitted_witness :
  let o := env job_found [subscription 100 10] false in
  let w := fresh "pipe-sh010-light" 1 in
  let w' := searched "pipe-sh010-light" in
  RedirectWidget.hosts w'
  = RedirectWidget.hosts (exec o [] (RedirectWidget.update no_match w)).2 /\
  Forall (fun ob => Forall (fun proc => proc ∈ [proc1] /\
                                        admitted no_match (RedirectWidget.controls w) proc)
                           (moved_procs ob))
         (exec o [] (RedirectWidget.redirect w')).1.
Proof.
  intros o w w'.
  assert (Hhosts : RedirectWidget.hosts w'
                   = RedirectWidget.hosts (exec o [] (RedirectWidget.update no_match w)).2)
    by (vm_compute; reflexivity).
  split; [exact Hhosts |].
  exact (redirect_moves_only_admitted no_match o [] [] w w' Hhosts).
Defined.

(** On this farm [findHost] answers a host of the name asked for. *)
Lemma selectAll_after_update_groups_witness :
  let o := env job_found [] false in
  let found := (exec o [] (RedirectWidget.update no_match (fresh "pipe-sh010-light" 1))).2 in
  let all := RedirectWidget.selectAll found in
  (forall (h : list Obs) (name : string), host_name (o h _ (FindHost name)) = name) /\
  (RedirectWidget.selected_items all).*2
  = RedirectWidget.set_checked <$> RedirectWidget.model found /\
  exists groups : list (string * list Proc),
    RedirectWidget.get_selected_procs_by_alloc (RedirectWidget.hosts all)
      (RedirectWidget.selected_items all).*2 = Normal groups.
Proof.
  intros o found all.
  assert (Hfaithful : forall (h : list Obs) (name : string),
             host_name (o h _ (FindHost name)) = name) by reflexivity.
  split; [exact Hfaithful |].
  exact (selectAll_after_update_groups no_match o [] (fresh "pipe-sh010-light" 1) Hfaithful).
Defined.

(** The group comp is checked and is not among the groups of the show any
    more; the group light is new. *)
Lemma populate_menu_keeps_checked_witness :
  GroupFilter.show group_button = Some {| show_name := "pipe" |} /\
  exists g' : GroupFilter.t,
    GroupFilter.populate_menu [light_group] group_button = Normal g' /\
    GroupFilter.show g' = Some {| show_name := "pipe" |} /\
    GroupFilter.menu g' = GroupFilter.group_id <$> [light_group] /\
    Forall (fun id => is_Some (RedirectWidget.odict_get id (GroupFilter.actions g')))
           (GroupFilter.menu g') /\
    (exists added : list (string * GroupFilter.Action),
       GroupFilter.actions g' = (GroupFilter.actions group_button ++ added)%list /\
       Forall (fun ka => GroupFilter.a_checked ka.2 = false) added) /\
    GroupFilter.getChecked g' = GroupFilter.getChecked group_button.
Proof.
  assert (Hshow : GroupFilter.show group_button = Some {| show_name := "pipe" |})
    by reflexivity.
  split; [exact Hshow |].
  exact (populate_menu_keeps_checked [light_group] group_button _ Hshow).
Defined.

(** The cutoff in seconds is cut from the product as floats give it: 10
    hours are 36000 seconds, 4.1 hours 14759 and 1.7 hours 6120. *)
Lemma getCutoffTime_of_float_product :
  RedirectControls.getCutoffTime (controls_with_cutoff 10) = 36000 /\
  RedirectControls.getCutoffTime (controls_with_cutoff (41 # 10)) = 14759 /\
  RedirectControls.getCutoffTime (controls_with_cutoff (17 # 10)) = 6120.
Proof. vm_compute. repeat split; reflexivity. Qed.

(** Against the conclusion C9 draws from what [update] gathers.  A search
    with the target job in the job box finds host1 with [proc1]; with all
    rows selected [redirect] moves [proc1] to the target, and a second
    [redirect] moves it again, the row being checked still.  With the job
    of [proc1] entered in the job box after the search, [redirect] moves
    [proc1] to the job it runs on. *)
Lemma redirect_repeats_and_reaches_own_job :
  let o := env job_named [subscription 100 10] false in
  let found :=
    (exec o [] (RedirectWidget.update no_match (fresh "pipe-sh010-light" 1))).2 in
  let all := RedirectWidget.selectAll found in
  let once := exec o [] (RedirectWidget.redirect all) in
  let twice := exec o [] (RedirectWidget.redirect once.2.2) in
  let retargeted :=
    {| RedirectWidget.controls := controls_for "pipe-sh020-comp" 1;
       RedirectWidget.hosts := RedirectWidget.hosts all;
       RedirectWidget.model := RedirectWidget.model all |} in
  let own := exec o [] (RedirectWidget.redirect retargeted) in
  let move job := Observe (RedirectToJob (host_named "host1") [proc1] job) (Normal tt) in
  once.1
  = (Observe (FindJob "pipe-sh010-light") (Normal target) :: asked ++ [move target])%list /\
  twice.1 = once.1 /\
  proc_job_name proc1 = job_name comp_job /\
  own.1
  = (Observe (FindJob "pipe-sh020-comp") (Normal comp_job) :: asked ++ [move comp_job])%list.
Proof. vm_compute. repeat split; reflexivity. Qed.

End Runs.
